(** * RobinHood library: identifiers, URI resolution and the Lustre attribute
      extractor

    A shallow embedding of three source files of librobinhood

    - [include/robinhood/id.h]   (the [rbh_id] structure and the documented
                                  contract of [rbh_id_copy]),
    - [src/utils/uri.c]          (from a URI string to a backend),
    - [src/backends/lustre/lustre.c] (the per-entry Lustre attribute callback),

    together with the properties the library's specification states about
    them.  C integers are values of [Z] with their conversions written out,
    byte buffers are [list byte], C arrays are lists updated by index, and
    the calls that leave these files (liblustre, libdl, the backend
    plug-ins, the allocator) are fields of a record of collaborators. *)

From Stdlib Require Import ZArith List String Ascii Bool Lia.
From Stdlib.Strings Require Import Byte.
From stdpp Require Import base list strings.

Open Scope Z_scope.

(** ** C integer conversions (LP64 Linux, two's complement) *)

Definition to_uint32 (z : Z) : Z := z mod 2 ^ 32.
Definition to_uint64 (z : Z) : Z := z mod 2 ^ 64.

(** Conversion of an out-of-range value to [int] keeps the low 32 bits. *)
Definition to_int (z : Z) : Z :=
  let r := z mod 2 ^ 32 in if r <? 2 ^ 31 then r else r - 2 ^ 32.

Definition INT_MAX : Z := 2 ^ 31 - 1.
Definition INT_MIN : Z := - 2 ^ 31.
Definition ULONG_MAX : Z := 2 ^ 64 - 1.

Definition in_int (z : Z) : bool := (INT_MIN <=? z) && (z <=? INT_MAX).

(** Values of <errno.h> and <stdlib.h> on Linux. *)
Definition EINVAL : Z := 22.
Definition ERANGE : Z := 34.
Definition ENODATA : Z := 61.
Definition ENOBUFS : Z := 105.
Definition ENOMEM : Z := 12.
Definition EXIT_FAILURE : Z := 1.

(** ** A state monad with abrupt termination

    [Returns a s] is a normal return; [Aborts e s] leaves the computation
    at once: a call of [error(EXIT_FAILURE, ...)] in uri.c, an access
    outside an array in lustre.c. *)

Inductive outcome (E S A : Type) : Type :=
| Returns (a : A) (s : S)
| Aborts (e : E) (s : S).
Arguments Returns {E S A} a s.
Arguments Aborts {E S A} e s.

Definition M (E S A : Type) : Type := S -> outcome E S A.

Definition ret {E S A} (a : A) : M E S A := fun s => Returns a s.

Definition bind {E S A B} (m : M E S A) (k : A -> M E S B) : M E S B :=
  fun s => match m s with
           | Returns a s' => k a s'
           | Aborts e s' => Aborts e s'
           end.

Definition abort {E S A} (e : E) : M E S A := fun s => Aborts e s.
Definition get_state {E S} : M E S S := fun s => Returns s s.
Definition update_state {E S} (f : S -> S) : M E S unit := fun s => Returns tt (f s).

Declare Scope cmd_scope.
Delimit Scope cmd_scope with cmd.
Notation "x <- m ;; k" := (bind m (fun x => k))
  (at level 100, m at next level, right associativity) : cmd_scope.
Notation "m ;; k" := (bind m (fun _ => k))
  (at level 100, right associativity) : cmd_scope.

(** ** Identifiers (include/robinhood/id.h) *)

Module Id.

(** [struct rbh_id]: [data] is the memory the pointer designates, [size]
    the number of bytes of it that make up the identifier. *)
Record rbh_id := { data : list byte; size : Z }.

(** The caller's side of [rbh_id_copy]: the memory [*buffer] points into,
    [*buffer] itself as an offset in that memory, [*bufsize] and [errno]. *)
Record id_buffer := {
  mem : list byte;
  buffer : Z;
  bufsize : Z;
  errno : Z
}.

Definition store_bytes (m : list byte) (off : Z) (bs : list byte) : list byte :=
  take (Z.to_nat off) m ++ bs ++ drop (Z.to_nat off + length bs) m.

(** Modelled from the spec: the body of [rbh_id_copy] (src/id.c) is not
    among the source files, only its declaration and documentation in id.h.
    The contract there and in the specification: the copy fails with
    ENOBUFS when [*bufsize] is less than [src->size] and then changes
    nothing; otherwise the bytes of [src] are written at [*buffer], [dest]
    designates them, [*buffer] is moved after them and [*bufsize] is
    decremented by their number. *)
Definition rbh_id_copy (src : rbh_id) (b : id_buffer)
  : Z * option rbh_id * id_buffer :=
  if bufsize b <? size src then
    (-1, None,
     {| mem := mem b; buffer := buffer b; bufsize := bufsize b;
        errno := ENOBUFS |})
  else
    let bytes := take (Z.to_nat (size src)) (data src) in
    (0, Some {| data := bytes; size := size src |},
     {| mem := store_bytes (mem b) (buffer b) bytes;
        buffer := buffer b + size src;
        bufsize := bufsize b - size src;
        errno := errno b |}).

End Id.

(** ** From a URI to a backend (src/utils/uri.c) *)

Module Uri.

Import Id.

(** Plug-ins and backends are opaque pointers in C: handles here. *)
Definition plugin := nat.
Definition backend := nat.

(** [struct rbh_raw_uri] (robinhood/uri.h); uri.c reads and writes
    [fragment] only, a NULL pointer being [None]. *)
Record rbh_raw_uri := {
  scheme : string;
  path : string;
  fragment : option string
}.

(** [struct rbh_uri]: the fields uri.c reads. *)
Record rbh_uri := {
  uri_backend : string;
  uri_fsname : string;
  uri_id : rbh_id
}.

(** [struct rbh_fsentry]: the fields uri.c reads. *)
Record rbh_fsentry := {
  fsentry_mask : Z;
  fsentry_id : rbh_id
}.

(** The functions uri.c calls and does not define.  Each takes the value of
    [errno] at the call and gives back its result with the value of [errno]
    after it; a NULL pointer or a failure status is [None].  The plug-in
    import also leaves the text a later [dlerror()] returns (NULL is
    [None]).  [RBH_FP_ID] is the bit of the fsentry mask for the ID
    (robinhood/fsentry.h). *)
Record collaborators := {
  rbh_parse_raw_uri : string -> Z -> option rbh_raw_uri * Z;
  rbh_parse_uri : rbh_raw_uri -> Z -> option rbh_uri * Z;
  rbh_percent_decode : string -> Z -> option string * Z;
  rbh_backend_plugin_import : string -> Z -> option plugin * Z * option string;
  rbh_backend_plugin_new : plugin -> string -> Z -> option backend * Z;
  rbh_backend_fsentry_from_path :
    backend -> string -> Z -> Z -> Z -> option rbh_fsentry * Z;
  rbh_backend_branch : backend -> rbh_id -> Z -> option backend * Z;
  rbh_backend_destroy : backend -> Z -> Z;
  free : Z -> Z;
  RBH_FP_ID : Z
}.

(** The calls made, in order. *)
Inductive call :=
| ParseRawUri (s : string)
| ParseUri (raw : rbh_raw_uri)
| PercentDecode (p : string)
| PluginImport (name : string)
| Dlerror
| PluginNew (p : plugin) (fsname : string)
| FsentryFromPath (b : backend) (p : string) (projection flags : Z)
| Branch (b : backend) (id : rbh_id)
| Destroy (b : backend)
| Free.

Record world := {
  errno : Z;
  dl_pending : option string;
  calls : list call
}.

(** What [error(status, errnum, format, ...)] reports before it ends the
    process: the formatted message, and [errnum] whose [strerror] text
    glibc appends when it is not 0. *)
Record diagnostic := {
  status : Z;
  errnum : Z;
  message : string
}.

Definition cmd (A : Type) : Type := M diagnostic world A.

(** uri.c calls [error] with [EXIT_FAILURE] only: it never returns. *)
Definition error {A} (st en : Z) (msg : string) : cmd A :=
  abort {| status := st; errnum := en; message := msg |}.

Definition get_errno : cmd Z := fun w => Returns (errno w) w.

Definition set_errno (e : Z) : cmd unit :=
  update_state (fun w => {| errno := e; dl_pending := dl_pending w; calls := calls w |}).

(** A collaborator is called: its effect on [errno], and the call logged. *)
Definition extern {A} (ev : call) (f : Z -> A * Z) : cmd A :=
  fun w => let r := f (errno w) in
           Returns (fst r)
             {| errno := snd r; dl_pending := dl_pending w;
                calls := calls w ++ [ev] |}.

Definition import_call (c : collaborators) (name : string) : cmd (option plugin) :=
  fun w => let r := rbh_backend_plugin_import c name (errno w) in
           Returns (fst (fst r))
             {| errno := snd (fst r); dl_pending := snd r;
                calls := calls w ++ [PluginImport name] |}.

(** [dlerror()] returns the pending text and clears it. *)
Definition dlerror : cmd (option string) :=
  fun w => Returns (dl_pending w)
             {| errno := errno w; dl_pending := None;
                calls := calls w ++ [Dlerror] |}.

(** The world a computation ends in, however it ends. *)
Definition world_of {A} (o : outcome diagnostic world A) : world :=
  match o with
  | Returns _ w => w
  | Aborts _ w => w
  end.

(** A command that only adds to the log of calls. *)
Definition grows {A} (m : M diagnostic world A) : Prop :=
  forall w, exists rest, calls (world_of (m w)) = calls w ++ rest.

(** glibc prints a NULL argument of [%s] as "(null)". *)
Definition format_s (s : option string) : string :=
  match s with Some t => t | None => "(null)" end.

Section WithCollaborators.

Variable c : collaborators.

Open Scope cmd_scope.

Definition backend_plugin_import (name : string) : cmd plugin :=
  save_errno <- get_errno ;;
  set_errno 0 ;;
  plugin <- import_call c name ;;
  match plugin with
  | None =>
      e <- get_errno ;;
      if e =? 0 then
        text <- dlerror ;;
        error EXIT_FAILURE 0 ("rbh_backend_plugin_import: " ++ format_s text)
      else
        error EXIT_FAILURE e "rbh_backend_plugin_import"
  | Some p =>
      set_errno save_errno ;;
      ret p
  end.

Definition backend_new (type fsname : string) : cmd backend :=
  plugin <- backend_plugin_import type ;;
  backend <- extern (PluginNew plugin fsname)
               (rbh_backend_plugin_new c plugin fsname) ;;
  match backend with
  | None => e <- get_errno ;; error EXIT_FAILURE e "rbh_backend_plugin_new"
  | Some b => ret b
  end.

(** The tail of [backend_from_uri] the two branching arms share (lines
    84-90): the unbranched backend is destroyed with [errno] kept, then a
    NULL branch is fatal. *)
Definition destroy_and_return (b : backend) (branch : option backend)
  : cmd backend :=
  save_errno <- get_errno ;;
  extern (Destroy b) (fun e => (tt, rbh_backend_destroy c b e)) ;;
  set_errno save_errno ;;
  match branch with
  | None => e <- get_errno ;; error EXIT_FAILURE e "rbh_backend_branch"
  | Some br => ret br
  end.

Definition backend_from_uri (uri : rbh_uri) (path : option string)
  : cmd backend :=
  backend <- backend_new (uri_backend uri) (uri_fsname uri) ;;
  match path with
  | Some p =>
      decoded <- extern (PercentDecode p) (rbh_percent_decode c p) ;;
      match decoded with
      | None => e <- get_errno ;; error EXIT_FAILURE e "rbh_percent_decode"
      | Some p' =>
          fsentry <- extern (FsentryFromPath backend p' (RBH_FP_ID c) 0)
                       (rbh_backend_fsentry_from_path c backend p'
                          (RBH_FP_ID c) 0) ;;
          match fsentry with
          | None =>
              e <- get_errno ;;
              error EXIT_FAILURE e "rbh_backend_fsentry_from_path"
          | Some f =>
              if Z.land (fsentry_mask f) (RBH_FP_ID c) =? 0 then
                error EXIT_FAILURE ENODATA "rbh_backend_fsentry_from_path"
              else
                branch <- extern (Branch backend (fsentry_id f))
                            (rbh_backend_branch c backend (fsentry_id f)) ;;
                save_errno <- get_errno ;;
                extern Free (fun e => (tt, free c e)) ;;
                set_errno save_errno ;;
                destroy_and_return backend branch
          end
      end
  | None =>
      if negb (size (uri_id uri) =? 0) then
        branch <- extern (Branch backend (uri_id uri))
                    (rbh_backend_branch c backend (uri_id uri)) ;;
        destroy_and_return backend branch
      else
        ret backend
  end.

Definition backend_from_raw_uri (raw_uri : rbh_raw_uri) (path : option string)
  : cmd backend :=
  uri <- extern (ParseUri raw_uri) (rbh_parse_uri c raw_uri) ;;
  match uri with
  | None => e <- get_errno ;; error EXIT_FAILURE e "rbh_parse_uri"
  | Some u => backend_from_uri u path
  end.

(** [raw_uri.fragment && raw_uri.fragment[0] != '['] *)
Definition is_entry_path (fragment : option string) : bool :=
  match fragment with
  | None => false
  | Some EmptyString => true
  | Some (String ch _) => negb (Ascii.eqb ch "["%char)
  end.

Definition rbh_backend_from_uri (str : string) : cmd backend :=
  raw <- extern (ParseRawUri str) (rbh_parse_raw_uri c str) ;;
  match raw with
  | None => e <- get_errno ;; error EXIT_FAILURE e "rbh_parse_raw_uri"
  | Some raw_uri =>
      if is_entry_path (fragment raw_uri) then
        backend_from_raw_uri
          {| scheme := scheme raw_uri; path := path raw_uri; fragment := None |}
          (fragment raw_uri)
      else
        backend_from_raw_uri raw_uri None
  end.

End WithCollaborators.

(** Modelled from the spec: the [branch] operation of a backend
    (robinhood/backend.h and the backends) is not among the source files.
    The specification: "branching to a size-0 ID must fail with InvalidId,
    never silently succeed"; for the other IDs the backend decides.  The
    collaborators with that operation in place of theirs: *)
Definition spec_branch (c : collaborators) (b : backend) (id : rbh_id) (e : Z)
  : option backend * Z :=
  if size id =? 0 then (None, EINVAL) else rbh_backend_branch c b id e.

Definition with_spec_branch (c : collaborators) : collaborators :=
  {| rbh_parse_raw_uri := rbh_parse_raw_uri c;
     rbh_parse_uri := rbh_parse_uri c;
     rbh_percent_decode := rbh_percent_decode c;
     rbh_backend_plugin_import := rbh_backend_plugin_import c;
     rbh_backend_plugin_new := rbh_backend_plugin_new c;
     rbh_backend_fsentry_from_path := rbh_backend_fsentry_from_path c;
     rbh_backend_branch := spec_branch c;
     rbh_backend_destroy := rbh_backend_destroy c;
     free := free c;
     RBH_FP_ID := RBH_FP_ID c |}.

End Uri.

(** ** The Lustre attribute extractor (src/backends/lustre/lustre.c) *)

Module Lustre.

(** *** Values and pairs (robinhood/value.h)

    A value carries what its pointers designate.  A sequence holds the
    array cells that were copied into the arena, a cell that was never
    assigned being [None]; a NULL string pointer is [None]. *)

#[local] Unset Elimination Schemes.
Inductive rbh_value :=
| RBH_VT_BINARY (data : list byte)
| RBH_VT_STRING (s : option string)
| RBH_VT_INT32 (i : Z)
| RBH_VT_UINT32 (u : Z)
| RBH_VT_UINT64 (u : Z)
| RBH_VT_SEQUENCE (values : list (option rbh_value)).
#[local] Set Elimination Schemes.

Definition cell := option rbh_value.

(** [struct rbh_value_pair]; [value] is a pointer into the arena, NULL
    being [None]. *)
Record rbh_value_pair := { key : string; value : option rbh_value }.

(** What was pushed on the [_values] arena, oldest first. *)
Inductive block :=
| BBytes (bs : list byte)
| BString (s : string) (len : Z)
| BValue (v : rbh_value)
| BValues (vs : list cell).

(** *** What liblustre and the kernel report *)

(** A call that fails leaves a value in [errno]. *)
Inductive res (A : Type) : Type :=
| Ok (a : A)
| Err (e : Z).
Arguments Ok {A} a.
Arguments Err {A} e.

Record lu_fid := { f_seq : Z; f_oid : Z; f_ver : Z }.
Definition sizeof_lu_fid : Z := 16.

Record hsm_user_state := { hus_states : Z; hus_archive_id : Z }.

(** The magic numbers [xattrs_get_magic_and_gen] switches on. *)
Inductive lov_magic :=
| LOV_USER_MAGIC_V1
| LOV_USER_MAGIC_COMP_V1
| LOV_USER_MAGIC_SEL
| LOV_USER_MAGIC_V3
| LOV_USER_MAGIC_SPECIFIC
| LOV_USER_MAGIC_FOREIGN
| LOV_MAGIC_OTHER (m : Z).

(** The "lustre.lov" extended attribute, through the three structures
    the code reads it as. *)
Record lov_buf := {
  lmm_magic : lov_magic;
  lmm_layout_gen : Z;
  lcm_layout_gen : Z
}.

(** [struct lmv_user_md] as lustre.c declares it, a local variable [lum]:
    the fields it reads from the header.  The array [lum_objects] that ends
    the structure has no element in such a variable. *)
Record lmv_user_md := {
  lum_stripe_count : Z;
  lum_hash_type : Z
}.

(** One component of a layout: what each liblustre getter answers while
    the component is the current one.  [llc_ost_index] lists the answers of
    [llapi_layout_ost_index_get] for the stripe numbers 0, 1, ...; past the
    end of the list the answer is EINVAL. *)
Record llapi_comp := {
  llc_stripe_count : res Z;
  llc_stripe_size : res Z;
  llc_pattern : res Z;
  llc_flags : res Z;
  llc_pool_name : res string;
  llc_ost_index : list (res Z);
  llc_extent : res (Z * Z);
  llc_mirror_id : res Z;
  llc_id : res Z
}.

(** [struct llapi_layout] *)
Record llapi_layout := {
  llot_flags : res Z;
  llot_is_composite : bool;
  llot_mirror_count : res Z;
  llot_comps : list llapi_comp
}.

Definition LCME_FL_INIT : Z := 16.

(** The functions lustre.c calls and does not define.  [alloc n] tells
    whether [malloc], [calloc] or [realloc] grants [n] values;
    [sstack_try] whether the arena takes one more block, and the [errno]
    it leaves when it does not; [lu_fid_bytes] is the representation of a
    fid in memory. *)
Record collaborators := {
  llapi_fd2fid : Z -> Z * lu_fid;
  lu_fid_bytes : lu_fid -> list byte;
  llapi_hsm_state_get_fd : Z -> Z * hsm_user_state;
  llapi_layout_get_by_fd : Z -> res llapi_layout;
  fgetxattr_lov : Z -> res lov_buf;
  ioctl_lmv_getstripe : Z -> res lmv_user_md;
  llapi_file_fget_mdtidx : Z -> res Z;
  alloc : Z -> bool;
  sstack_try : list block -> block -> res unit
}.

(** The calls lustre.c makes on the file descriptor of the entry:
    [llapi_fd2fid], [llapi_hsm_state_get_fd], [llapi_layout_get_by_fd],
    [fgetxattr] of "lustre.lov", [ioctl] with LL_IOC_LMV_GETSTRIPE and
    [llapi_file_fget_mdtidx].  They are the only functions it hands [fd]
    to.  The functions of liblustre that work on a layout already in
    memory ([llapi_layout_flags_get], [llapi_layout_is_composite],
    [llapi_layout_mirror_count_get], [llapi_layout_comp_use],
    [llapi_layout_comp_id_get], [llapi_layout_comp_iterate], the getters of
    a component, [llapi_layout_ost_index_get], [llapi_layout_free]) are not
    of them, and are not recorded. *)
Inductive call :=
| Fd2fid (fd : Z)
| HsmStateGet (fd : Z)
| LayoutGetByFd (fd : Z)
| FgetxattrLov (fd : Z)
| IoctlLmvGetstripe (fd : Z)
| FgetMdtidx (fd : Z).

(** *** State: [errno], the thread-local variables of lustre.c and of the
    POSIX backend, and the calls made on the file descriptor so far *)

Record state := {
  errno : Z;
  _values : list block;
  is_dir : bool;
  is_reg : bool;
  is_symlink : bool;
  _inode_xattrs : list rbh_value_pair;
  calls : list call
}.

(** Behaviour that C leaves undefined. *)
Inductive fault :=
| OutOfBounds
| NullPointer
| IntOverflow
| WrongUnionMember.

Definition cmd (A : Type) : Type := M fault state A.

Definition set_errno (e : Z) : cmd unit :=
  update_state (fun s =>
    {| errno := e; _values := _values s; is_dir := is_dir s; is_reg := is_reg s;
       is_symlink := is_symlink s; _inode_xattrs := _inode_xattrs s;
       calls := calls s |}).

Definition get_errno : cmd Z := fun s => Returns (errno s) s.

Definition log (ev : call) : cmd unit :=
  update_state (fun s =>
    {| errno := errno s; _values := _values s; is_dir := is_dir s;
       is_reg := is_reg s; is_symlink := is_symlink s;
       _inode_xattrs := _inode_xattrs s; calls := calls s ++ [ev] |}).

Definition set_values (v : list block) (s : state) : state :=
  {| errno := errno s; _values := v; is_dir := is_dir s; is_reg := is_reg s;
     is_symlink := is_symlink s; _inode_xattrs := _inode_xattrs s;
     calls := calls s |}.

Definition set_inode_xattrs (x : list rbh_value_pair) : cmd unit :=
  update_state (fun s =>
    {| errno := errno s; _values := _values s; is_dir := is_dir s;
       is_reg := is_reg s; is_symlink := is_symlink s; _inode_xattrs := x;
       calls := calls s |}).

(** A getter of liblustre that either answers or fails with its [errno]. *)
Definition getter {A} (r : res A) : cmd (option A) :=
  match r with
  | Ok a => ret (Some a)
  | Err e => bind (set_errno e) (fun _ => ret None)
  end.

(** <sys/stat.h> *)
Definition S_IFMT : Z := 61440.
Definition S_IFDIR : Z := 16384.
Definition S_IFREG : Z := 32768.
Definition S_IFLNK : Z := 40960.
Definition S_ISLNK (mode : Z) : bool := Z.land mode S_IFMT =? S_IFLNK.
Definition S_ISDIR (mode : Z) : bool := Z.land mode S_IFMT =? S_IFDIR.
Definition S_ISREG (mode : Z) : bool := Z.land mode S_IFMT =? S_IFREG.

Definition XATTR_CCC_EXPIRES_AT : string := "user.ccc_expires_at".
Definition UINT64_MAX_STR_LEN : Z := 22.

(** *** [strtoul(nptr, &end, 10)] of the C library, on a buffer that ends
    with a NUL byte: white space, an optional sign, decimal digits.  The
    result, the offset of [end] in the buffer, and whether ERANGE was
    stored in [errno].  Without a digit nothing is converted and [end] is
    [nptr]. *)

Definition byte_code (b : byte) : Z := Z.of_N (Byte.to_N b).

Definition isspace (b : byte) : bool :=
  let n := byte_code b in (n =? 32) || ((9 <=? n) && (n <=? 13)).

Definition isdigit (b : byte) : bool :=
  let n := byte_code b in (48 <=? n) && (n <=? 57).

Fixpoint span (p : byte -> bool) (s : list byte) : list byte :=
  match s with
  | b :: s' => if p b then b :: span p s' else []
  | [] => []
  end.

Definition decimal (ds : list byte) : Z :=
  fold_left (fun acc d => 10 * acc + (byte_code d - 48)) ds 0.

Definition strtoul (tmp : list byte) : Z * nat * bool :=
  let spaces := length (span isspace tmp) in
  let s1 := drop spaces tmp in
  let sign :=
    match s1 with
    | b :: _ => if byte_code b =? 45 then (true, 1%nat)
                else if byte_code b =? 43 then (false, 1%nat)
                else (false, 0%nat)
    | [] => (false, 0%nat)
    end in
  let ds := span isdigit (drop (snd sign) s1) in
  match ds with
  | [] => (0, 0%nat, false)
  | _ =>
      let v := decimal ds in
      let e := (spaces + snd sign + length ds)%nat in
      if ULONG_MAX <? v then (ULONG_MAX, e, true)
      else (if fst sign then to_uint64 (- v) else v, e, false)
  end.

(** *** Filling pairs

    A function that receives [pairs] writes consecutive slots from
    [pairs[0]] on.  It gives back its C result and the pairs it wrote, in
    slot order. *)

Definition filled : Type := Z * list rbh_value_pair.

Section WithCollaborators.

Variable c : collaborators.

Open Scope cmd_scope.

(** Modelled from the spec: [rbh_sstack_push] (src/sstack.c) is not among
    the source files.  The specification: a push copies the data into the
    arena and returns a reference to the copy, or fails when the backing
    store cannot take it, and a failed push leaves the arena as it was.
    [true] is a reference, [false] is NULL. *)
Definition rbh_sstack_push (b : block) : cmd bool :=
  s <- get_state ;;
  match sstack_try c (_values s) b with
  | Ok _ => update_state (set_values (_values s ++ [b])) ;; ret true
  | Err e => set_errno e ;; ret false
  end.

Definition fill_pair (k : string) (v : rbh_value) : cmd filled :=
  p <- rbh_sstack_push (BValue v) ;;
  if p then ret (0, [{| key := k; value := Some v |}])
  else ret (-1, [{| key := k; value := None |}]).

Definition fill_binary_pair (k : string) (data : list byte) (len : Z)
  : cmd filled :=
  let bytes := take (Z.to_nat len) data in
  p <- rbh_sstack_push (BBytes bytes) ;;
  if p then fill_pair k (RBH_VT_BINARY bytes) else ret (-1, []).

Definition fill_string_pair (k : string) (str : string) (len : Z)
  : cmd filled :=
  p <- rbh_sstack_push (BString str len) ;;
  if p then fill_pair k (RBH_VT_STRING (Some str)) else ret (-1, []).

Definition fill_int32_pair (k : string) (integer : Z) : cmd filled :=
  fill_pair k (RBH_VT_INT32 (to_int integer)).

Definition fill_uint32_pair (k : string) (integer : Z) : cmd filled :=
  fill_pair k (RBH_VT_UINT32 (to_uint32 integer)).

Definition fill_uint64_pair (k : string) (integer : Z) : cmd filled :=
  fill_pair k (RBH_VT_UINT64 (to_uint64 integer)).

(** [values] are the [length] cells the pointer designates. *)
Definition fill_sequence_pair (k : string) (values : list cell) : cmd filled :=
  p <- rbh_sstack_push (BValues values) ;;
  if p then fill_pair k (RBH_VT_SEQUENCE values) else ret (-1, []).

Definition xattrs_get_fid (fd : Z) : cmd filled :=
  log (Fd2fid fd) ;;
  let r := llapi_fd2fid c fd in
  if negb (fst r =? 0) then
    set_errno (- fst r) ;; ret (-1, [])
  else
    f <- fill_binary_pair "fid" (lu_fid_bytes c (snd r)) sizeof_lu_fid ;;
    ret (if negb (fst f =? 0) then fst f else 1, snd f).

Definition xattrs_get_hsm (fd : Z) : cmd filled :=
  s <- get_state ;;
  if negb (is_reg s) then ret (0, [])
  else
    log (HsmStateGet fd) ;;
    let r := llapi_hsm_state_get_fd c fd in
    if negb (fst r =? 0) then
      set_errno (- fst r) ;; ret (-1, [])
    else
      f1 <- fill_uint32_pair "hsm_state" (hus_states (snd r)) ;;
      if negb (fst f1 =? 0) then ret (-1, snd f1)
      else
        f2 <- fill_uint32_pair "hsm_archive_id" (hus_archive_id (snd r)) ;;
        if negb (fst f2 =? 0) then ret (-1, snd f1 ++ snd f2)
        else ret (2, snd f1 ++ snd f2).

Definition create_uint64_value (integer : Z) : rbh_value :=
  RBH_VT_UINT64 (to_uint64 integer).

Definition create_uint32_value (integer : Z) : rbh_value :=
  RBH_VT_UINT32 (to_uint32 integer).

(** The result of the push is not tested: the string may be NULL. *)
Definition create_string_value (str : string) (len : Z) : cmd rbh_value :=
  p <- rbh_sstack_push (BString str len) ;;
  ret (RBH_VT_STRING (if p then Some str else None)).

(** *** The per-component workspace

    [arr] is the block [init_iterator_data] obtains from [calloc]; the eight
    per-attribute pointers are offsets into it, NULL being [None].  [ost]
    is the separately allocated array of OST indices (NULL is the empty
    list), [ost_size] the number of cells the code believes it has and
    [ost_idx] the next cell to fill. *)
Record iterator_data := {
  arr : list cell;
  stripe_count : option Z;
  stripe_size : option Z;
  mirror_id : option Z;
  pattern : option Z;
  begin : option Z;
  flags : option Z;
  pool : option Z;
  end_ : option Z;
  ost : list cell;
  comp_index : Z;
  ost_size : Z;
  ost_idx : Z
}.

(** [struct iterator_data data = { .comp_index = 0 }] *)
Definition iterator_data_zero : iterator_data :=
  {| arr := []; stripe_count := None; stripe_size := None; mirror_id := None;
     pattern := None; begin := None; flags := None; pool := None;
     end_ := None; ost := []; comp_index := 0; ost_size := 0; ost_idx := 0 |}.

Definition set_arr (a : list cell) (d : iterator_data) : iterator_data :=
  {| arr := a; stripe_count := stripe_count d; stripe_size := stripe_size d;
     mirror_id := mirror_id d; pattern := pattern d; begin := begin d;
     flags := flags d; pool := pool d; end_ := end_ d; ost := ost d;
     comp_index := comp_index d; ost_size := ost_size d; ost_idx := ost_idx d |}.

Definition set_ost (o : list cell) (size idx : Z) (d : iterator_data)
  : iterator_data :=
  {| arr := arr d; stripe_count := stripe_count d;
     stripe_size := stripe_size d; mirror_id := mirror_id d;
     pattern := pattern d; begin := begin d; flags := flags d; pool := pool d;
     end_ := end_ d; ost := o; comp_index := comp_index d; ost_size := size;
     ost_idx := idx |}.

Definition set_comp_index (i : Z) (d : iterator_data) : iterator_data :=
  {| arr := arr d; stripe_count := stripe_count d;
     stripe_size := stripe_size d; mirror_id := mirror_id d;
     pattern := pattern d; begin := begin d; flags := flags d; pool := pool d;
     end_ := end_ d; ost := ost d; comp_index := i; ost_size := ost_size d;
     ost_idx := ost_idx d |}.

(** [base[index] = v] for one of the eight per-attribute pointers. *)
Definition store (base : option Z) (index : Z) (v : rbh_value)
    (d : iterator_data) : cmd iterator_data :=
  match base with
  | None => abort NullPointer
  | Some off =>
      let i := off + index in
      if (0 <=? i) && (i <? Z.of_nat (length (arr d))) then
        ret (set_arr (<[Z.to_nat i := Some v]> (arr d)) d)
      else abort OutOfBounds
  end.

(** [data->ost[data->ost_idx++] = v] *)
Definition ost_append (v : rbh_value) (d : iterator_data) : cmd iterator_data :=
  let i := ost_idx d in
  if (0 <=? i) && (i <? Z.of_nat (length (ost d))) then
    if in_int (i + 1) then
      ret (set_ost (<[Z.to_nat i := Some v]> (ost d)) (ost_size d) (i + 1) d)
    else abort IntOverflow
  else abort OutOfBounds.

Definition workspace : Type := Z * iterator_data.

Definition iter_data_ost_try_resize (d : iterator_data) (ost_len : Z)
  : cmd workspace :=
  if negb (in_int (ost_idx d + ost_len)) then abort IntOverflow
  else if ost_size d <? ost_idx d + ost_len then
    if negb (in_int (ost_size d + ost_len)) then abort IntOverflow
    else
      let n := ost_size d + ost_len in
      if (0 <? n) && alloc c n then
        ret (0, set_ost (resize (Z.to_nat n) None (ost d)) n (ost_idx d) d)
      else
        set_errno (- ENOMEM) ;; ret (-1, d)
  else ret (0, d).

(** The loop of [fill_iterator_data] over the stripe numbers from [i] on;
    [replies] are the answers of [llapi_layout_ost_index_get] for [i],
    [i + 1], ... *)
Fixpoint ost_loop (count i : Z) (replies : list (res Z)) (d : iterator_data)
  : cmd workspace :=
  if i <? count then
    match replies with
    | [] => set_errno EINVAL ;; ret (0, d)
    | Ok tmp :: rest =>
        d' <- ost_append (create_uint64_value tmp) d ;;
        ost_loop count (i + 1) rest d'
    | Err e :: _ =>
        set_errno e ;;
        if e =? EINVAL then ret (0, d) else ret (-1, d)
    end
  else ret (0, d).

Definition fill_iterator_data (layout : llapi_layout) (comp : llapi_comp)
    (d : iterator_data) (index : Z) : cmd workspace :=
  sc <- getter (llc_stripe_count comp) ;;
  match sc with
  | None => ret (-1, d)
  | Some count =>
  d <- store (stripe_count d) index (create_uint64_value count) d ;;
  ss <- getter (llc_stripe_size comp) ;;
  match ss with
  | None => ret (-1, d)
  | Some tmp =>
  d <- store (stripe_size d) index (create_uint64_value tmp) d ;;
  pa <- getter (llc_pattern comp) ;;
  match pa with
  | None => ret (-1, d)
  | Some tmp =>
  d <- store (pattern d) index (create_uint64_value tmp) d ;;
  fl <- getter (llc_flags comp) ;;
  match fl with
  | None => ret (-1, d)
  | Some fl =>
  d <- store (flags d) index (create_uint32_value fl) d ;;
  po <- getter (llc_pool_name comp) ;;
  match po with
  | None => ret (-1, d)
  | Some pool_tmp =>
  v <- create_string_value pool_tmp (Z.of_nat (String.length pool_tmp) + 1) ;;
  d <- store (pool d) index v d ;;
  let is_init_or_not_comp :=
    (fl =? LCME_FL_INIT) || negb (llot_is_composite layout) in
  let ost_len := if is_init_or_not_comp then to_int count else 1 in
  r <- iter_data_ost_try_resize d ost_len ;;
  if negb (fst r =? 0) then ret r
  else if is_init_or_not_comp then
    ost_loop count 0 (llc_ost_index comp) (snd r)
  else
    d <- ost_append (create_uint64_value (-1)) (snd r) ;;
    ret (0, d)
  end end end end end.

Definition xattrs_layout_iterator (layout : llapi_layout) (comp : llapi_comp)
    (d : iterator_data) : cmd workspace :=
  r <- fill_iterator_data layout comp d (comp_index d) ;;
  if negb (fst r =? 0) then ret (-1, snd r)
  else
    let d := snd r in
    ex <- getter (llc_extent comp) ;;
    match ex with
    | None => ret (-1, d)
    | Some be =>
        d <- store (begin d) (comp_index d) (create_uint64_value (fst be)) d ;;
        d <- store (end_ d) (comp_index d) (create_uint64_value (snd be)) d ;;
        mi <- getter (llc_mirror_id comp) ;;
        match mi with
        | None => ret (-1, d)
        | Some m =>
            d <- store (mirror_id d) (comp_index d) (create_uint32_value m) d ;;
            if in_int (comp_index d + 1) then
              ret (0, set_comp_index (comp_index d + 1) d)
            else abort IntOverflow
        end
    end.

(** [llapi_layout_comp_iterate] of liblustre: the callback is run on each
    component in turn, the first one first, until it returns non-zero, and
    that value is the result; a layout without a component is invalid. *)
Fixpoint comp_iterate (cb : llapi_comp -> iterator_data -> cmd workspace)
    (comps : list llapi_comp) (d : iterator_data) : cmd workspace :=
  match comps with
  | [] => ret (0, d)
  | comp :: rest =>
      r <- cb comp d ;;
      if fst r =? 0 then comp_iterate cb rest (snd r) else ret r
  end.

Definition llapi_layout_comp_iterate (layout : llapi_layout)
    (cb : llapi_layout -> llapi_comp -> iterator_data -> cmd workspace)
    (d : iterator_data) : cmd workspace :=
  match llot_comps layout with
  | [] => set_errno EINVAL ;; ret (-1, d)
  | comps => comp_iterate (cb layout) comps d
  end.

(** The component the getters answer for in a layout that is not
    composite: its only one. *)
Definition invalid_comp : llapi_comp :=
  {| llc_stripe_count := Err EINVAL; llc_stripe_size := Err EINVAL;
     llc_pattern := Err EINVAL; llc_flags := Err EINVAL;
     llc_pool_name := Err EINVAL; llc_ost_index := [];
     llc_extent := Err EINVAL; llc_mirror_id := Err EINVAL;
     llc_id := Err EINVAL |}.

Definition current_comp (layout : llapi_layout) : llapi_comp :=
  match llot_comps layout with
  | comp :: _ => comp
  | [] => invalid_comp
  end.

(** The last component is made current, its id is read, the first one is
    made current again. *)
Definition layout_get_nb_comp (layout : llapi_layout) : cmd (Z * Z) :=
  match last (llot_comps layout) with
  | None => set_errno EINVAL ;; ret (-1, 1)
  | Some comp =>
      id <- getter (llc_id comp) ;;
      match id with
      | None => ret (-1, 1)
      | Some nb_comp => ret (0, to_uint32 nb_comp)
      end
  end.

Definition init_iterator_data (d : iterator_data) (length nb_xattrs : Z)
  : cmd workspace :=
  let n := to_uint32 (nb_xattrs * length) in
  if negb (alloc c n) then
    set_errno ENOMEM ;; ret (-1, d)
  else
    let off k := Some (to_uint32 (k * length)) in
    let six := 6 <=? nb_xattrs in
    let d :=
      {| arr := replicate (Z.to_nat n) None;
         stripe_count := Some 0; stripe_size := off 1;
         mirror_id := if six then off 5 else mirror_id d;
         pattern := off 2;
         begin := if six then off 6 else begin d;
         flags := off 3; pool := off 4;
         end_ := if six then off 7 else end_ d;
         ost := ost d; comp_index := comp_index d; ost_size := ost_size d;
         ost_idx := ost_idx d |} in
    if negb (alloc c length) then
      set_errno (- ENOMEM) ;; ret (-1, set_arr [] d)
    else
      ret (0, set_comp_index 0
                (set_ost (replicate (Z.to_nat length) None) (to_int length) 0 d)).

(** The [count] cells from [base] on, as [rbh_sstack_push] reads them. *)
Definition cells_at (d : iterator_data) (base : option Z) (count : Z)
  : cmd (list cell) :=
  match base with
  | None => abort NullPointer
  | Some off =>
      if (0 <=? count) && (off + count <=? Z.of_nat (length (arr d))) then
        ret (take (Z.to_nat count) (drop (Z.to_nat off) (arr d)))
      else abort OutOfBounds
  end.

Definition ost_cells (d : iterator_data) : cmd (list cell) :=
  if (0 <=? ost_idx d) && (ost_idx d <=? Z.of_nat (length (ost d))) then
    ret (take (Z.to_nat (ost_idx d)) (ost d))
  else abort OutOfBounds.

(** The loop of [xattrs_fill_layout] over [keys] and [values]; [false]
    with the result when the loop is left by [return -1]. *)
Fixpoint fill_layout_loop (d : iterator_data)
    (entries : list (string * option Z)) (subcount : Z)
    (out : list rbh_value_pair) : cmd (bool * filled) :=
  match entries with
  | [] => ret (true, (subcount, out))
  | (k, base) :: rest =>
      cells <- cells_at d base (comp_index d) ;;
      f <- fill_sequence_pair k cells ;;
      if negb (fst f =? 0) then ret (false, (-1, out ++ snd f))
      else fill_layout_loop d rest (subcount + 1) (out ++ snd f)
  end.

Definition xattrs_fill_layout (d : iterator_data) (nb_xattrs : Z)
  : cmd filled :=
  let entries :=
    [("stripe_count", stripe_count d); ("stripe_size", stripe_size d);
     ("pattern", pattern d); ("comp_flags", flags d); ("pool", pool d);
     ("mirror_id", mirror_id d); ("begin", begin d); ("end", end_ d)] in
  r <- fill_layout_loop d (take (Z.to_nat nb_xattrs) entries) 0 [] ;;
  if negb (fst r) then ret (snd r)
  else
    cells <- ost_cells d ;;
    f <- fill_sequence_pair "ost" cells ;;
    if negb (fst f =? 0) then ret (-1, snd (snd r) ++ snd f)
    else ret (fst (snd r) + 1, snd (snd r) ++ snd f).

Definition magic_name (m : lov_magic) : option string :=
  match m with
  | LOV_USER_MAGIC_V1 => Some "LOV_USER_MAGIC_V1"
  | LOV_USER_MAGIC_COMP_V1 => Some "LOV_USER_MAGIC_COMP_V1"
  | LOV_USER_MAGIC_SEL => Some "LOV_USER_MAGIC_SEL"
  | LOV_USER_MAGIC_V3 => Some "LOV_USER_MAGIC_V3"
  | LOV_USER_MAGIC_SPECIFIC => Some "LOV_USER_MAGIC_SPECIFIC"
  | LOV_USER_MAGIC_FOREIGN => Some "LOV_USER_MAGIC_FOREIGN"
  | LOV_MAGIC_OTHER _ => None
  end.

Definition magic_gen (b : lov_buf) : Z :=
  match lmm_magic b with
  | LOV_USER_MAGIC_V1 | LOV_USER_MAGIC_V3 | LOV_USER_MAGIC_SPECIFIC =>
      lmm_layout_gen b
  | LOV_USER_MAGIC_COMP_V1 | LOV_USER_MAGIC_SEL => lcm_layout_gen b
  | LOV_USER_MAGIC_FOREIGN => -1
  | LOV_MAGIC_OTHER _ => 0
  end.

Definition xattrs_get_magic_and_gen (fd : Z) : cmd filled :=
  log (FgetxattrLov fd) ;;
  x <- getter (fgetxattr_lov c fd) ;;
  match x with
  | None => ret (-1, [])
  | Some lov =>
      match magic_name (lmm_magic lov) with
      | None => set_errno EINVAL ;; ret (-1, [])
      | Some magic_str =>
          f1 <- fill_string_pair "magic" magic_str
                  (Z.of_nat (String.length magic_str) + 1) ;;
          if negb (fst f1 =? 0) then ret (-1, snd f1)
          else
            f2 <- fill_uint32_pair "gen" (magic_gen lov) ;;
            if negb (fst f2 =? 0) then ret (-1, snd f1 ++ snd f2)
            else ret (2, snd f1 ++ snd f2)
      end
  end.

(** The two exit labels of [xattrs_get_layout].  [free] and
    [llapi_layout_free] release memory and leave [errno] alone. *)
Definition layout_err (save_errno rc subcount : Z)
    (out : list rbh_value_pair) : cmd filled :=
  e <- get_errno ;;
  set_errno (if negb (save_errno =? 0) then save_errno else e) ;;
  ret (if negb (rc =? 0) then rc else subcount, out).

Definition layout_free_data (rc subcount : Z) (out : list rbh_value_pair)
  : cmd filled :=
  save_errno <- get_errno ;;
  layout_err save_errno rc subcount out.

(** Lines 617 to 634 of [xattrs_get_layout]: the workspace is allocated,
    filled from every component and turned into pairs. *)
Definition layout_components (layout : llapi_layout) (nb_comp nb_xattrs : Z)
    (subcount : Z) (out : list rbh_value_pair) : cmd filled :=
  i <- init_iterator_data iterator_data_zero nb_comp nb_xattrs ;;
  if negb (fst i =? 0) then layout_err 0 (fst i) subcount out
  else
    r <- (if llot_is_composite layout then
            llapi_layout_comp_iterate layout xattrs_layout_iterator (snd i)
          else
            fill_iterator_data layout (current_comp layout) (snd i) 0) ;;
    if negb (fst r =? 0) then layout_free_data (fst r) subcount out
    else
      f <- xattrs_fill_layout (snd r) nb_xattrs ;;
      if fst f <? 0 then layout_free_data (fst f) subcount (out ++ snd f)
      else layout_free_data 0 (subcount + fst f) (out ++ snd f).

Definition xattrs_get_layout (fd : Z) : cmd filled :=
  s <- get_state ;;
  if is_symlink s then ret (0, [])
  else
    log (LayoutGetByFd fd) ;;
    l <- getter (llapi_layout_get_by_fd c fd) ;;
    match l with
    | None => ret (-1, [])
    | Some layout =>
    fl <- getter (llot_flags layout) ;;
    match fl with
    | None => layout_err 0 (-1) 0 []
    | Some fl =>
    f0 <- fill_uint32_pair "flags" fl ;;
    if negb (fst f0 =? 0) then layout_err 0 (fst f0) 1 (snd f0)
    else
    s <- get_state ;;
    m <- (if is_reg s then xattrs_get_magic_and_gen fd else ret (0, [])) ;;
    if fst m <? 0 then layout_err 0 (fst m) 1 (snd f0 ++ snd m)
    else
    let subcount := 1 + fst m in
    let out := snd f0 ++ snd m in
    if llot_is_composite layout then
      mc <- getter (llot_mirror_count layout) ;;
      match mc with
      | None => layout_err 0 (-1) subcount out
      | Some mirror_count =>
          f1 <- fill_uint32_pair "mirror_count" mirror_count ;;
          if negb (fst f1 =? 0) then
            layout_err 0 (fst f1) (subcount + 1) (out ++ snd f1)
          else
            n <- layout_get_nb_comp layout ;;
            if negb (fst n =? 0) then
              layout_err 0 (fst n) (subcount + 1) (out ++ snd f1)
            else
              layout_components layout (snd n) (5 + 3) (subcount + 1)
                (out ++ snd f1)
      end
    else
      layout_components layout 1 5 subcount out
    end end.

(** [mdt_idx[i] = create_uint32_value(lum.lum_objects[i].lum_mds)] for
    every [i] below [lum.lum_stripe_count].  [lum] is a local variable and
    its array [lum_objects] has no element: the first turn of the loop
    reads outside [lum]. *)
Definition mdt_cells (lum : lmv_user_md) : cmd (list cell) :=
  if 0 <? lum_stripe_count lum then abort OutOfBounds else ret [].

Definition xattrs_get_mdt_info (fd : Z) : cmd filled :=
  s <- get_state ;;
  if is_dir s then
    log (IoctlLmvGetstripe fd) ;;
    match ioctl_lmv_getstripe c fd with
    | Err e =>
        set_errno e ;;
        if e =? ENODATA then ret (0, []) else ret (-1, [])
    | Ok lum =>
        if negb (alloc c (lum_stripe_count lum)) then
          set_errno ENOMEM ;; ret (-1, [])
        else
          mdt_idx <- mdt_cells lum ;;
          f1 <- fill_sequence_pair "mdt_idx" mdt_idx ;;
          if negb (fst f1 =? 0) then ret (-1, snd f1)
          else
            f2 <- fill_uint32_pair "mdt_hash" (lum_hash_type lum) ;;
            if negb (fst f2 =? 0) then ret (-1, snd f1 ++ snd f2)
            else
              f3 <- fill_uint32_pair "mdt_count" (lum_stripe_count lum) ;;
              if negb (fst f3 =? 0) then ret (-1, snd f1 ++ snd f2 ++ snd f3)
              else ret (3, snd f1 ++ snd f2 ++ snd f3)
    end
  else if negb (is_symlink s) then
    log (FgetMdtidx fd) ;;
    m <- getter (llapi_file_fget_mdtidx c fd) ;;
    match m with
    | None => ret (-1, [])
    | Some mdt =>
        f <- fill_int32_pair "mdt_index" mdt ;;
        if negb (fst f =? 0) then ret (-1, snd f) else ret (1, snd f)
    end
  else ret (0, []).

(** The loop of [xattrs_get_retention]: [before] are the pairs already
    passed over, [rest] the pairs from [_inode_xattrs[i]] on. *)
Fixpoint retention_loop (before rest : list rbh_value_pair) : cmd unit :=
  match rest with
  | [] => ret tt
  | p :: rest' =>
      if negb (String.eqb (key p) XATTR_CCC_EXPIRES_AT) then
        retention_loop (before ++ [p]) rest'
      else
        match value p with
        | None => abort NullPointer
        | Some (RBH_VT_BINARY data) =>
            if UINT64_MAX_STR_LEN <=? Z.of_nat (length data) then
              retention_loop (before ++ [p]) rest'
            else
              let tmp := data ++ [x00] in
              let r := strtoul tmp in
              let result := fst (fst r) in
              let end_off := snd (fst r) in
              (if snd r then set_errno ERANGE else ret tt) ;;
              e <- get_errno ;;
              if negb (e =? 0)
                 || ((result =? 0) && Nat.eqb end_off 0)
                 || negb (byte_code (nth end_off tmp x00) =? 0)
              then ret tt
              else
                new_pair <- fill_uint64_pair (key p) result ;;
                set_inode_xattrs (before ++ snd new_pair ++ rest')
        | Some _ => abort WrongUnionMember
        end
  end.

Definition xattrs_get_retention : cmd unit :=
  s <- get_state ;;
  retention_loop [] (_inode_xattrs s).

(** The loop of [lustre_ns_xattrs_callback] over [xattrs_funcs]; [false]
    with the result when the loop is left by [return -1]. *)
Fixpoint xattrs_funcs_loop (funcs : list (Z -> cmd filled)) (fd count : Z)
    (out : list rbh_value_pair) : cmd (bool * filled) :=
  match funcs with
  | [] => ret (true, (count, out))
  | f :: rest =>
      r <- f fd ;;
      if fst r =? -1 then ret (false, (-1, out ++ snd r))
      else xattrs_funcs_loop rest fd (count + fst r) (out ++ snd r)
  end.

Definition xattrs_funcs : list (Z -> cmd filled) :=
  [xattrs_get_fid; xattrs_get_hsm; xattrs_get_layout; xattrs_get_mdt_info].

(** The assignments to the thread-local variables at the start of the
    callback. *)
Definition enter_entry (mode : Z) (values : list block) (s : state) : state :=
  {| errno := errno s; _values := values; is_dir := S_ISDIR mode;
     is_reg := S_ISREG mode; is_symlink := S_ISLNK mode;
     _inode_xattrs := _inode_xattrs s; calls := calls s |}.

Definition lustre_ns_xattrs_callback (fd mode : Z) (values : list block)
  : cmd filled :=
  update_state (enter_entry mode values) ;;
  r <- xattrs_funcs_loop xattrs_funcs fd 0 [] ;;
  if negb (fst r) then ret (snd r)
  else
    xattrs_get_retention ;;
    ret (snd r).

End WithCollaborators.

(** *** The extraction functions run in order

    [runs c fd funcs s rs s' all]: from the state [s] the functions of
    [funcs] are called in order on [fd], each from the state the previous
    one left, until one gives back -1 or the list is exhausted; [rs] are the
    results, in order, [s'] is the state reached, and [all] tells whether
    every function was called and none gave back -1. *)
Inductive runs (fd : Z) :
  list (Z -> cmd filled) -> state -> list filled -> state -> bool -> Prop :=
| runs_done s : runs fd [] s [] s true
| runs_fail f rest s r s' :
    f fd s = Returns r s' -> fst r = -1 ->
    runs fd (f :: rest) s [r] s' false
| runs_next f rest s r s' rs s'' all :
    f fd s = Returns r s' -> fst r <> -1 ->
    runs fd rest s' rs s'' all ->
    runs fd (f :: rest) s (r :: rs) s'' all.

(** The sum of the counts and the pairs of a list of results. *)
Definition total (rs : list filled) : Z :=
  fold_right (fun r n => fst r + n) 0 rs.

Definition written (rs : list filled) : list rbh_value_pair :=
  concat (map snd rs).

(** *** The retention pass, as the specification speaks of it

    A pair the pass steps over: another key, or a value of 22 bytes or
    more. *)
Definition passed_over (p : rbh_value_pair) : Prop :=
  key p <> XATTR_CCC_EXPIRES_AT \/
  exists data,
    value p = Some (RBH_VT_BINARY data) /\
    UINT64_MAX_STR_LEN <= Z.of_nat (length data).

(** A value [strtoul] does not convert as a whole: the number is out of
    range, or there is no digit to convert, or bytes are left after the
    digits. *)
Definition unparsed (data : list byte) : Prop :=
  let r := strtoul (data ++ [x00]) in
  snd r = true \/
  (fst (fst r) = 0 /\ snd (fst r) = 0%nat) \/
  byte_code (nth (snd (fst r)) (data ++ [x00]) x00) <> 0.

(** The retention pair with value [v]. *)
Definition expires_at (v : option rbh_value) : rbh_value_pair :=
  {| key := XATTR_CCC_EXPIRES_AT; value := v |}.

(** *** The OST indices of a layout, as the specification speaks of them

    The items discovered for a component are the indices liblustre answers
    for the stripe numbers 0, 1, ... below the stripe count, up to the first
    stripe number it has no answer for; a component of a composite layout
    that is not instantiated stands for one item, the index -1.  The items
    of a layout are those of its components, in the order of the
    components. *)

Fixpoint answered (replies : list (res Z)) : list Z :=
  match replies with
  | Ok v :: rest => v :: answered rest
  | _ => []
  end.

Definition comp_osts (layout : llapi_layout) (comp : llapi_comp) : list Z :=
  match llc_stripe_count comp, llc_flags comp with
  | Ok count, Ok fl =>
      if (fl =? LCME_FL_INIT) || negb (llot_is_composite layout) then
        take (Z.to_nat count) (answered (llc_ost_index comp))
      else [-1]
  | _, _ => []
  end.

Definition layout_osts (layout : llapi_layout) : list Z :=
  if llot_is_composite layout then
    concat (map (comp_osts layout) (llot_comps layout))
  else comp_osts layout (current_comp layout).

(** The cells that hold these items. *)
Definition ost_values (items : list Z) : list cell :=
  map (fun i => Some (create_uint64_value i)) items.

(** The workspace holds exactly [items]: they fill the first [ost_idx]
    cells of the array, in order, and the array has the [ost_size] cells
    the code counts on. *)
Definition workspace_holds (d : iterator_data) (items : list Z) : Prop :=
  Z.of_nat (length (ost d)) = ost_size d /\
  ost_idx d = Z.of_nat (length items) /\
  ost_idx d <= ost_size d /\
  take (length items) (ost d) = ost_values items.

(** The pair that carries them. *)
Definition ost_pair (items : list Z) : rbh_value_pair :=
  {| key := "ost"; value := Some (RBH_VT_SEQUENCE (ost_values items)) |}.

(** A state in which the thread-local variables that describe the entry
    are those of [s]. *)
Definition keeps_entry (s s' : state) : Prop :=
  is_dir s' = is_dir s /\ is_reg s' = is_reg s /\
  is_symlink s' = is_symlink s /\ _inode_xattrs s' = _inode_xattrs s.

(** *** Conditions under which the layout is extracted without an error

    Collaborators that grant every allocation and every push. *)
Definition generous (c : collaborators) : Prop :=
  (forall n, alloc c n = true) /\
  (forall a b, sstack_try c a b = Ok tt).

(** A component liblustre answers every getter for, and whose OST
    indices it answers or refuses with EINVAL. *)
Definition readable (comp : llapi_comp) : Prop :=
  (exists count, llc_stripe_count comp = Ok count /\ 0 <= count) /\
  (exists v, llc_stripe_size comp = Ok v) /\
  (exists v, llc_pattern comp = Ok v) /\
  (exists v, llc_flags comp = Ok v) /\
  (exists v, llc_pool_name comp = Ok v) /\
  (exists v, llc_extent comp = Ok v) /\
  (exists v, llc_mirror_id comp = Ok v) /\
  Forall (fun r => forall e, r = Err e -> e = EINVAL) (llc_ost_index comp).

(** The number of cells [fill_iterator_data] asks room for. *)
Definition weight (layout : llapi_layout) (comp : llapi_comp) : Z :=
  match llc_stripe_count comp, llc_flags comp with
  | Ok count, Ok fl =>
      if (fl =? LCME_FL_INIT) || negb (llot_is_composite layout)
      then count else 1
  | _, _ => 0
  end.

Definition weights (layout : llapi_layout) (comps : list llapi_comp) : Z :=
  fold_right (fun comp n => weight layout comp + n) 0 comps.

(** The block and the pointers [init_iterator_data] sets up for [n]
    components and [x] attributes. *)
Definition shape (d : iterator_data)
  : Z * option Z * option Z * option Z * option Z * option Z
    * option Z * option Z * option Z :=
  (Z.of_nat (length (arr d)), stripe_count d, stripe_size d, pattern d,
   flags d, pool d, mirror_id d, begin d, end_ d).

Definition ready (n x : Z) (d : iterator_data) : Prop :=
  shape d =
    (x * n, Some 0, Some n, Some (2 * n), Some (3 * n), Some (4 * n),
     (if 6 <=? x then Some (5 * n) else None),
     (if 6 <=? x then Some (6 * n) else None),
     (if 6 <=? x then Some (7 * n) else None)).

(** What [xattrs_get_layout] needs to go through on [fd]: memory and
    arena to spare, a layout liblustre answers for, with components whose
    last id is no less than their number, and a workspace that an [int]
    and a [uint32_t] can measure. *)
Definition extractable (c : collaborators) (fd : Z) (s : state)
    (layout : llapi_layout) : Prop :=
  generous c /\
  (exists fl, llot_flags layout = Ok fl) /\
  (is_reg s = true ->
   exists lov name,
     fgetxattr_lov c fd = Ok lov /\ magic_name (lmm_magic lov) = Some name) /\
  llot_comps layout <> [] /\
  Forall readable (llot_comps layout) /\
  if llot_is_composite layout then
    (exists mirror_count, llot_mirror_count layout = Ok mirror_count) /\
    exists comp id,
      last (llot_comps layout) = Some comp /\ llc_id comp = Ok id /\
      Z.of_nat (length (llot_comps layout)) <= id /\ 8 * id < 2 ^ 32 /\
      id + weights layout (llot_comps layout) <= INT_MAX
  else 1 + weights layout (llot_comps layout) <= INT_MAX.

(** A function that fills one pair gives back 0 and that pair, or -1. *)
Definition fills_one (r : filled) : Prop :=
  (fst r = 0 /\ length (snd r) = 1%nat) \/ fst r = -1.


(** A result that is -1 or the number of pairs written. *)
Definition counted (r : filled) : Prop :=
  fst r = -1 \/ fst r = Z.of_nat (length (snd r)).

(** What [xattrs_get_layout] and the part of it after the header pairs give
    back: -1, or [subcount] plus the number of pairs added to [out]; and,
    when the component ids are [sound], the last pair is the "ost" pair of
    the layout's items, freshly pushed on the arena. *)
Definition layout_result (layout : llapi_layout) (sound : Prop)
    (subcount : Z) (out : list rbh_value_pair) (r : filled) (s' : state)
  : Prop :=
  fst r = -1 \/
  ((exists more,
      snd r = out ++ more /\ fst r = subcount + Z.of_nat (length more)) /\
   (sound ->
    (exists before, snd r = before ++ [ost_pair (layout_osts layout)]) /\
    (exists blocks,
       _values s' =
         blocks ++ [BValues (ost_values (layout_osts layout));
                    BValue (RBH_VT_SEQUENCE
                              (ost_values (layout_osts layout)))]))).

(** Component ids of Lustre are at most [LCME_ID_MAX]. *)
Definition LCME_ID_MAX : Z := 2147483647.

Definition valid_ids (layout : llapi_layout) : Prop :=
  Forall (fun comp => forall id, llc_id comp = Ok id -> 0 <= id <= LCME_ID_MAX)
    (llot_comps layout).

End Lustre.

(** ** Concrete environments, for the examples *)

Module UriExamples.

Import Id Uri.

Definition some_dir_id : rbh_id := {| data := [x2a; x07]; size := 2 |}.
Definition no_id : rbh_id := {| data := []; size := 0 |}.

(** A process in which the "posix" plug-in can be loaded and no other;
    "posix:///mnt/fs#/some/dir" is parsed as the specification describes. *)
Definition posix_only : collaborators :=
  {| rbh_parse_raw_uri := fun s e =>
       if String.eqb s "posix:///mnt/fs#/some/dir" then
         (Some {| scheme := "posix"; path := "/mnt/fs";
                  fragment := Some "/some/dir" |}, e)
       else if String.eqb s "posix:///mnt/fs" then
         (Some {| scheme := "posix"; path := "/mnt/fs"; fragment := None |}, e)
       else if String.eqb s "nfs:///export" then
         (Some {| scheme := "nfs"; path := "/export"; fragment := None |}, e)
       else (None, EINVAL);
     rbh_parse_uri := fun raw e =>
       (Some {| uri_backend := scheme raw; uri_fsname := path raw;
                uri_id := no_id |}, e);
     rbh_percent_decode := fun p e => (Some p, e);
     rbh_backend_plugin_import := fun name e =>
       if String.eqb name "posix" then (Some 1%nat, e, None)
       else (None, e, Some "librbh-nfs.so: cannot open shared object file");
     rbh_backend_plugin_new := fun _ _ e => (Some 10%nat, e);
     rbh_backend_fsentry_from_path := fun _ p _ _ e =>
       if String.eqb p "/some/dir" then
         (Some {| fsentry_mask := 1; fsentry_id := some_dir_id |}, e)
       else
         (Some {| fsentry_mask := 1; fsentry_id := no_id |}, e);
     rbh_backend_branch := fun _ _ e => (Some 11%nat, e);
     rbh_backend_destroy := fun _ e => e;
     free := fun e => e;
     RBH_FP_ID := 1 |}.

Definition posix_uri (id : rbh_id) : rbh_uri :=
  {| uri_backend := "posix"; uri_fsname := "/mnt/fs"; uri_id := id |}.

Definition nfs_uri : rbh_uri :=
  {| uri_backend := "nfs"; uri_fsname := "/export"; uri_id := no_id |}.

Definition w0 : world := {| errno := 0; dl_pending := None; calls := [] |}.

End UriExamples.

Module LustreExamples.

Import Lustre.

(** A component with [n] stripes placed on the OSTs [osts]. *)
Definition comp (id n fl : Z) (osts : list Z) : llapi_comp :=
  {| llc_stripe_count := Ok n; llc_stripe_size := Ok 1048576;
     llc_pattern := Ok 0; llc_flags := Ok fl; llc_pool_name := Ok "flash";
     llc_ost_index := map Ok osts; llc_extent := Ok (0, 4194304);
     llc_mirror_id := Ok 1; llc_id := Ok id |}.

(** A composite file of three components: two that are instantiated, with
    two and four stripes, and one that is not. *)
Definition pfl_layout : llapi_layout :=
  {| llot_flags := Ok 0; llot_is_composite := true; llot_mirror_count := Ok 1;
     llot_comps := [comp 1 2 LCME_FL_INIT [3; 5];
                    comp 2 4 LCME_FL_INIT [0; 1; 2; 7];
                    comp 3 8 0 []] |}.

(** A plain layout: one component of three stripes. *)
Definition plain_layout : llapi_layout :=
  {| llot_flags := Ok 0; llot_is_composite := false;
     llot_mirror_count := Err EINVAL;
     llot_comps := [comp 0 3 0 [4; 6; 9]] |}.

(** The default layout of a directory: one stripe, no object yet. *)
Definition dir_layout : llapi_layout :=
  {| llot_flags := Ok 0; llot_is_composite := false;
     llot_mirror_count := Err EINVAL;
     llot_comps := [comp 0 1 0 []] |}.

(** A Lustre client on which every call succeeds, memory is granted and
    the arena has room.  Descriptor 3 is a composite regular file, 4 a
    directory that is not striped over several MDTs, any other one a plain
    regular file. *)
Definition client : collaborators :=
  {| llapi_fd2fid := fun fd =>
       (0, {| f_seq := 8589935617; f_oid := fd; f_ver := 0 |});
     lu_fid_bytes := fun f => replicate 16 x00;
     llapi_hsm_state_get_fd := fun _ =>
       (0, {| hus_states := 9; hus_archive_id := 2 |});
     llapi_layout_get_by_fd := fun fd =>
       Ok (if fd =? 3 then pfl_layout
           else if fd =? 4 then dir_layout else plain_layout);
     fgetxattr_lov := fun fd =>
       Ok {| lmm_magic := if fd =? 3 then LOV_USER_MAGIC_COMP_V1
                          else LOV_USER_MAGIC_V1;
             lmm_layout_gen := 1; lcm_layout_gen := 4 |};
     ioctl_lmv_getstripe := fun _ => Err ENODATA;
     llapi_file_fget_mdtidx := fun _ => Ok 0;
     alloc := fun _ => true;
     sstack_try := fun _ _ => Ok tt |}.

Definition ascii_bytes (s : string) : list byte := list_byte_of_string s.

Definition expires_pair (s : string) : rbh_value_pair :=
  {| key := XATTR_CCC_EXPIRES_AT; value := Some (RBH_VT_BINARY (ascii_bytes s)) |}.

Definition other_pair : rbh_value_pair :=
  {| key := "user.owner"; value := Some (RBH_VT_BINARY (ascii_bytes "ops")) |}.

(** The state in which the callback runs its functions on an entry of
    mode [mode], with an empty arena. *)
Definition entered (mode : Z) (xattrs : list rbh_value_pair) : state :=
  {| errno := 0; _values := []; is_dir := S_ISDIR mode;
     is_reg := S_ISREG mode; is_symlink := S_ISLNK mode;
     _inode_xattrs := xattrs; calls := [] |}.

Definition s0 (xattrs : list rbh_value_pair) : state :=
  {| errno := 0; _values := []; is_dir := false; is_reg := false;
     is_symlink := false; _inode_xattrs := xattrs; calls := [] |}.

End LustreExamples.

(** ** lustre.c: what a callback that does not fail was answered *)

Module LustreReports.

Import Lustre.

(** The [errno] of the first call to [llapi_layout_ost_index_get] that
    fails among the calls for the stripe numbers below [count]; past the
    end of [replies] the answer is EINVAL. *)
Fixpoint refusal (count : nat) (replies : list (res Z)) : option Z :=
  match count, replies with
  | O, _ => None
  | S _, [] => Some EINVAL
  | S n, Ok _ :: rest => refusal n rest
  | S _, Err e :: _ => Some e
  end.

(** [ost_len] of [fill_iterator_data] for a component of [count] stripes
    and flags [fl]. *)
Definition ost_len (layout : llapi_layout) (count fl : Z) : Z :=
  if (fl =? LCME_FL_INIT) || negb (llot_is_composite layout)
  then to_int count else 1.

(** liblustre answered every getter [fill_iterator_data] calls on
    [comp], and, where the OST indices are asked for, the first call to
    [llapi_layout_ost_index_get] that failed did so with EINVAL. *)
Definition component_reported (layout : llapi_layout) (comp : llapi_comp)
  : Prop :=
  exists count size pat fl po,
    llc_stripe_count comp = Ok count /\
    llc_stripe_size comp = Ok size /\
    llc_pattern comp = Ok pat /\
    llc_flags comp = Ok fl /\
    llc_pool_name comp = Ok po /\
    ((fl =? LCME_FL_INIT) || negb (llot_is_composite layout) = true ->
     forall e,
       refusal (Z.to_nat count) (llc_ost_index comp) = Some e -> e = EINVAL).

(** And every getter [xattrs_layout_iterator] calls besides. *)
Definition component_visited (layout : llapi_layout) (comp : llapi_comp)
  : Prop :=
  component_reported layout comp /\
  (exists be, llc_extent comp = Ok be) /\
  (exists m, llc_mirror_id comp = Ok m).

(** The sizes [iter_data_ost_try_resize] asks [realloc] for while the
    components [comps] are gone through, starting with an array of OST
    indices of [size] cells of which [idx] are filled. *)
Fixpoint growth (layout : llapi_layout) (comps : list llapi_comp)
    (size idx : Z) : list Z :=
  match comps with
  | [] => []
  | comp :: rest =>
      match llc_stripe_count comp, llc_flags comp with
      | Ok count, Ok fl =>
          let len := ost_len layout count fl in
          let idx' := idx + Z.of_nat (length (comp_osts layout comp)) in
          if size <? idx + len then
            (size + len) :: growth layout rest (size + len) idx'
          else growth layout rest size idx'
      | _, _ => []
      end
  end.

(** The memory [xattrs_get_layout] asks for was granted: the block of
    [nb_xattrs] attributes for [nb_comp] components and the array of
    [nb_comp] OST indices of [init_iterator_data], then every growth of
    that array. *)
Definition memory_granted (c : collaborators) (layout : llapi_layout)
    (nb_comp nb_xattrs : Z) (comps : list llapi_comp) : Prop :=
  alloc c (to_uint32 (nb_xattrs * nb_comp)) = true /\
  alloc c nb_comp = true /\
  Forall (fun n => alloc c n = true)
    (growth layout comps (to_int nb_comp) 0).

(** What [xattrs_get_layout] consults once it holds the layout of an
    entry, regular or not, answered. *)
Definition layout_reported (c : collaborators) (fd : Z) (regular : bool)
    (layout : llapi_layout) : Prop :=
  (exists fl, llot_flags layout = Ok fl) /\
  (regular = true ->
   exists lov name,
     fgetxattr_lov c fd = Ok lov /\ magic_name (lmm_magic lov) = Some name) /\
  if llot_is_composite layout then
    (exists mirror_count, llot_mirror_count layout = Ok mirror_count) /\
    (exists comp id,
       last (llot_comps layout) = Some comp /\ llc_id comp = Ok id /\
       memory_granted c layout (to_uint32 id) 8 (llot_comps layout)) /\
    Forall (component_visited layout) (llot_comps layout)
  else
    component_reported layout (current_comp layout) /\
    memory_granted c layout 1 5 [current_comp layout].


(** A pair that carries a value: the arena took it. *)
Definition valued (p : rbh_value_pair) : Prop := value p <> None.

(** A client on which the HSM state of descriptor 5 cannot be read, the
    coordinator giving back -EIO; anything else is as on
    [LustreExamples.client]. *)
Definition EIO : Z := 5.


End LustreReports.

(** ** uri.c when a call fails *)

Module UriCases.

Import Id Uri.

Definition ENOENT : Z := 2.
Definition EIO : Z := 5.
Definition EBADF : Z := 9.
Definition EAGAIN : Z := 11.
Definition EILSEQ : Z := 84.

(** The texts uri.c hands to [error], the import apart when the loader
    has a text of its own. *)
Definition messages : list string :=
  ["rbh_parse_raw_uri"; "rbh_parse_uri"; "rbh_backend_plugin_import";
   "rbh_backend_plugin_new"; "rbh_percent_decode";
   "rbh_backend_fsentry_from_path"; "rbh_backend_branch"].

(** A command that ends the process with [EXIT_FAILURE] and one of these
    texts only. *)
Definition known (d : diagnostic) : Prop :=
  status d = EXIT_FAILURE /\
  (message d ∈ messages \/
   (errnum d = 0 /\
    exists text : option string,
      message d = ("rbh_backend_plugin_import: " ++ format_s text)%string)).

Definition fatal {A} (m : cmd A) : Prop :=
  forall w d w', m w = Aborts d w' -> known d.

(** A process in which things go wrong: the file system "/offline" cannot
    be instantiated, the path "%zz" cannot be decoded, "/missing" is not
    found, no backend can be branched to an ID of one byte, "nfs" has no
    URI parser; every call that succeeds leaves a value of its own in
    [errno]. *)
Definition unlucky : collaborators :=
  {| rbh_parse_raw_uri := fun s e =>
       if String.eqb s "posix:///offline" then
         (Some {| scheme := "posix"; path := "/offline"; fragment := None |},
          e)
       else if String.eqb s "nfs:///export#/a" then
         (Some {| scheme := "nfs"; path := "/export"; fragment := Some "/a" |},
          e)
       else (None, EINVAL);
     rbh_parse_uri := fun raw e =>
       if String.eqb (scheme raw) "nfs" then (None, EINVAL)
       else (Some {| uri_backend := scheme raw; uri_fsname := path raw;
                     uri_id := {| data := []; size := 0 |} |}, e);
     rbh_percent_decode := fun p e =>
       if String.eqb p "%zz" then (None, EILSEQ) else (Some p, e);
     rbh_backend_plugin_import := fun name e => (Some 1%nat, EAGAIN, None);
     rbh_backend_plugin_new := fun _ fsname e =>
       if String.eqb fsname "/offline" then (None, ENOENT)
       else (Some 10%nat, e);
     rbh_backend_fsentry_from_path := fun _ p _ _ e =>
       if String.eqb p "/missing" then (None, ENOENT)
       else (Some {| fsentry_mask := 1;
                     fsentry_id := {| data := [x2a]; size := 1 |} |}, e);
     rbh_backend_branch := fun _ id e =>
       if size id =? 1 then (None, EINVAL) else (Some 11%nat, e);
     rbh_backend_destroy := fun _ _ => EIO;
     free := fun _ => EBADF;
     RBH_FP_ID := 1 |}.

Definition mnt_uri (id : rbh_id) : rbh_uri :=
  {| uri_backend := "posix"; uri_fsname := "/mnt/fs"; uri_id := id |}.

Definition offline_uri : rbh_uri :=
  {| uri_backend := "posix"; uri_fsname := "/offline";
     uri_id := {| data := []; size := 0 |} |}.

(** A process that comes in with [errno] at 7. *)
Definition w7 : world := {| errno := 7; dl_pending := None; calls := [] |}.

End UriCases.

(** ** lustre.c on entries of every kind *)

Module LustreCases.

Import Lustre.

(** A directory striped over two MDTs, and a foreign layout. *)
Definition striped_dir : lmv_user_md :=
  {| lum_stripe_count := 2; lum_hash_type := 2 |}.

Definition foreign_lov : lov_buf :=
  {| lmm_magic := LOV_USER_MAGIC_FOREIGN; lmm_layout_gen := 0;
     lcm_layout_gen := 0 |}.

(** A client on which descriptor 3 is a composite regular file and 4 a
    directory striped over two MDTs; descriptor 5 is not on Lustre
    ([llapi_fd2fid] and [llapi_hsm_state_get_fd] give back -ENOTTY), 6 has
    a foreign layout, 7 a layout of an unknown kind. *)
Definition ENOTTY : Z := 25.

Definition site : collaborators :=
  {| llapi_fd2fid := fun fd =>
       (if fd =? 5 then - ENOTTY else 0,
        {| f_seq := 8589935617; f_oid := fd; f_ver := 0 |});
     lu_fid_bytes := fun f =>
       [x01; x04; x00; x00; x02; x00; x00; x00; x03; x00; x00; x00;
        x00; x00; x00; x00];
     llapi_hsm_state_get_fd := fun fd =>
       (if fd =? 5 then - ENOTTY else 0,
        {| hus_states := 9; hus_archive_id := 2 |});
     llapi_layout_get_by_fd := fun fd =>
       Ok (if fd =? 3 then LustreExamples.pfl_layout
           else if fd =? 4 then LustreExamples.dir_layout
           else LustreExamples.plain_layout);
     fgetxattr_lov := fun fd =>
       if fd =? 6 then Ok foreign_lov
       else if fd =? 7 then
         Ok {| lmm_magic := LOV_MAGIC_OTHER 0; lmm_layout_gen := 0;
               lcm_layout_gen := 0 |}
       else
         Ok {| lmm_magic := if fd =? 3 then LOV_USER_MAGIC_COMP_V1
                            else LOV_USER_MAGIC_V1;
               lmm_layout_gen := 1; lcm_layout_gen := 4 |};
     ioctl_lmv_getstripe := fun fd =>
       if fd =? 4 then Ok striped_dir else Err ENODATA;
     llapi_file_fget_mdtidx := fun _ => Ok 1;
     alloc := fun _ => true;
     sstack_try := fun _ _ => Ok tt |}.

(** The state in which the callback runs its functions on an entry of
    mode [mode], with [errno] at [e] and an empty arena. *)
Definition entry (mode e : Z) (xattrs : list rbh_value_pair) : state :=
  {| errno := e; _values := []; is_dir := S_ISDIR mode; is_reg := S_ISREG mode;
     is_symlink := S_ISLNK mode; _inode_xattrs := xattrs; calls := [] |}.

(** The same client short of memory: an allocation of one value is
    refused, the others are granted. *)
Definition tight : collaborators :=
  {| llapi_fd2fid := llapi_fd2fid site;
     lu_fid_bytes := lu_fid_bytes site;
     llapi_hsm_state_get_fd := llapi_hsm_state_get_fd site;
     llapi_layout_get_by_fd := llapi_layout_get_by_fd site;
     fgetxattr_lov := fgetxattr_lov site;
     ioctl_lmv_getstripe := ioctl_lmv_getstripe site;
     llapi_file_fget_mdtidx := llapi_file_fget_mdtidx site;
     alloc := fun n => negb (n =? 1);
     sstack_try := fun _ _ => Ok tt |}.

(** The same client with an arena that takes nothing more. *)
Definition full_arena : collaborators :=
  {| llapi_fd2fid := llapi_fd2fid site;
     lu_fid_bytes := lu_fid_bytes site;
     llapi_hsm_state_get_fd := llapi_hsm_state_get_fd site;
     llapi_layout_get_by_fd := llapi_layout_get_by_fd site;
     fgetxattr_lov := fgetxattr_lov site;
     ioctl_lmv_getstripe := ioctl_lmv_getstripe site;
     llapi_file_fget_mdtidx := llapi_file_fget_mdtidx site;
     alloc := fun _ => true;
     sstack_try := fun _ _ => Err ENOMEM |}.

(** The workspace of a plain layout, as [init_iterator_data] leaves
    it. *)
Definition plain_workspace : iterator_data :=
  {| arr := replicate 5 None; stripe_count := Some 0; stripe_size := Some 1;
     mirror_id := None; pattern := Some 2; begin := None; flags := Some 3;
     pool := Some 4; end_ := None; ost := [None]; comp_index := 0;
     ost_size := 1; ost_idx := 0 |}.

(** The same client with an arena that takes values and refuses
    strings. *)
Definition no_strings : collaborators :=
  {| llapi_fd2fid := llapi_fd2fid site;
     lu_fid_bytes := lu_fid_bytes site;
     llapi_hsm_state_get_fd := llapi_hsm_state_get_fd site;
     llapi_layout_get_by_fd := llapi_layout_get_by_fd site;
     fgetxattr_lov := fgetxattr_lov site;
     ioctl_lmv_getstripe := ioctl_lmv_getstripe site;
     llapi_file_fget_mdtidx := llapi_file_fget_mdtidx site;
     alloc := fun _ => true;
     sstack_try := fun _ b =>
       match b with
       | BString _ _ => Err ENOMEM
       | _ => Ok tt
       end |}.

End LustreCases.

(** ** The pairs [xattrs_get_layout] writes for the components *)

Module LustreLayout.

Import Lustre.

(** The cell in which the answer of a getter is stored. *)
Definition got {A} (mk : A -> rbh_value) (r : res A) : cell :=
  match r with
  | Ok v => Some (mk v)
  | Err _ => None
  end.

(** A pair whose value is a sequence. *)
Definition sequence (k : string) (cells : list cell) : rbh_value_pair :=
  {| key := k; value := Some (RBH_VT_SEQUENCE cells) |}.

(** The block and the pointers of [d'] are those of [d], and so is the
    index of the current component. *)
Definition same_block (d d' : iterator_data) : Prop :=
  arr d' = arr d /\ shape d' = shape d /\ comp_index d' = comp_index d.

(** The block of a composite layout with room for [n] components, once the
    components [done] were visited: cell [i] of each attribute but the
    pool holds what liblustre answered for component [i]. *)
Definition columns (n : Z) (done : list llapi_comp) (d : iterator_data)
  : Prop :=
  ready n 8 d /\
  comp_index d = Z.of_nat (length done) /\
  forall i comp,
    done !! i = Some comp ->
    arr d !! Z.to_nat (Z.of_nat i)
      = Some (got create_uint64_value (llc_stripe_count comp)) /\
    arr d !! Z.to_nat (n + Z.of_nat i)
      = Some (got create_uint64_value (llc_stripe_size comp)) /\
    arr d !! Z.to_nat (2 * n + Z.of_nat i)
      = Some (got create_uint64_value (llc_pattern comp)) /\
    arr d !! Z.to_nat (3 * n + Z.of_nat i)
      = Some (got create_uint32_value (llc_flags comp)) /\
    arr d !! Z.to_nat (5 * n + Z.of_nat i)
      = Some (got create_uint32_value (llc_mirror_id comp)) /\
    arr d !! Z.to_nat (6 * n + Z.of_nat i)
      = Some (got (fun be => create_uint64_value (fst be)) (llc_extent comp)) /\
    arr d !! Z.to_nat (7 * n + Z.of_nat i)
      = Some (got (fun be => create_uint64_value (snd be)) (llc_extent comp)).

(** What [xattrs_fill_layout] reads through one of the eight pointers. *)
Definition column_at (d : iterator_data) (base : option Z) : list cell :=
  match base with
  | Some off =>
      take (Z.to_nat (comp_index d)) (drop (Z.to_nat off) (arr d))
  | None => []
  end.

(** A command that, when it returns, has left the state in the relation
    [R] to the one it started from. *)
Definition kept (R : state -> state -> Prop) {A} (m : cmd A) : Prop :=
  forall s a s', m s = Returns a s' -> R s s'.

(** It has left alone the variables that describe the entry. *)
Definition tame {A} (m : cmd A) : Prop := kept keeps_entry m.

(** It has made no call on the file descriptor. *)
Definition same_calls (s s' : state) : Prop := calls s' = calls s.

Definition silent {A} (m : cmd A) : Prop := kept same_calls m.

(** A command that, when it returns, has made the calls [l] on the file
    descriptor, in order, and no other. *)
Definition emits {A} (l : list call) (m : cmd A) : Prop :=
  kept (fun s s' => calls s' = calls s ++ l) m.

(** The calls [xattrs_get_layout] makes on the file descriptor when
    nothing fails. *)
Definition layout_calls (fd : Z) (s : state) : list call :=
  if is_symlink s then []
  else LayoutGetByFd fd :: (if is_reg s then [FgetxattrLov fd] else []).

(** The calls the callback makes on the file descriptor of an entry of
    mode [mode], in order. *)
Definition expected_calls (fd mode : Z) : list call :=
  [Fd2fid fd]
  ++ (if S_ISREG mode then [HsmStateGet fd] else [])
  ++ (if S_ISLNK mode then []
      else LayoutGetByFd fd
           :: (if S_ISREG mode then [FgetxattrLov fd] else []))
  ++ (if S_ISDIR mode then [IoctlLmvGetstripe fd]
      else if S_ISLNK mode then [] else [FgetMdtidx fd]).

End LustreLayout.

(** ** A composite layout with more components than the id of the last *)

Module LustreCrowded.

Import Lustre.

(** What [xattrs_get_layout] needs to reach the components of a composite
    layout on [fd], and a layout whose last component has the id [n],
    smaller than the number of components. *)
Definition crowded (c : collaborators) (fd : Z) (s : state)
    (layout : llapi_layout) (n : Z) : Prop :=
  generous c /\
  (exists fl, llot_flags layout = Ok fl) /\
  (is_reg s = true ->
   exists lov name,
     fgetxattr_lov c fd = Ok lov /\ magic_name (lmm_magic lov) = Some name) /\
  llot_is_composite layout = true /\
  (exists mirror_count, llot_mirror_count layout = Ok mirror_count) /\
  Forall readable (llot_comps layout) /\
  (exists comp, last (llot_comps layout) = Some comp /\ llc_id comp = Ok n) /\
  0 < n < Z.of_nat (length (llot_comps layout)) /\
  8 * n < 2 ^ 32 /\
  n + weights layout (llot_comps layout) <= INT_MAX.

(** Three components, the last of which has the id 2. *)
Definition renumbered_layout : llapi_layout :=
  {| llot_flags := Ok 0; llot_is_composite := true; llot_mirror_count := Ok 1;
     llot_comps := [LustreExamples.comp 1 1 LCME_FL_INIT [3];
                    LustreExamples.comp 3 1 LCME_FL_INIT [0];
                    LustreExamples.comp 2 1 LCME_FL_INIT [5]] |}.

Definition renumbered_site : collaborators :=
  {| llapi_fd2fid := llapi_fd2fid LustreExamples.client;
     lu_fid_bytes := lu_fid_bytes LustreExamples.client;
     llapi_hsm_state_get_fd := llapi_hsm_state_get_fd LustreExamples.client;
     llapi_layout_get_by_fd := fun _ => Ok renumbered_layout;
     fgetxattr_lov := fgetxattr_lov LustreExamples.client;
     ioctl_lmv_getstripe := ioctl_lmv_getstripe LustreExamples.client;
     llapi_file_fget_mdtidx := llapi_file_fget_mdtidx LustreExamples.client;
     alloc := fun _ => true;
     sstack_try := fun _ _ => Ok tt |}.

End LustreCrowded.

(** * Properties *)

(** ** Identifiers *)

Module IdProps.

Import Id.

Lemma store_bytes_length (m bs : list byte) (off : Z) :
  0 <= off -> off + Z.of_nat (length bs) <= Z.of_nat (length m) ->
  length (store_bytes m off bs) = length m.
Proof.
  intros H0 H1. unfold store_bytes.
  rewrite !length_app, length_take, length_drop. lia.
Qed.

Lemma store_bytes_before (m bs : list byte) (off : Z) :
  0 <= off <= Z.of_nat (length m) ->
  take (Z.to_nat off) (store_bytes m off bs) = take (Z.to_nat off) m.
Proof.
  intros H. unfold store_bytes.
  rewrite take_app_le by (rewrite length_take; lia).
  rewrite take_take. f_equal. lia.
Qed.

Lemma store_bytes_region (m bs : list byte) (off : Z) :
  0 <= off <= Z.of_nat (length m) ->
  take (length bs) (drop (Z.to_nat off) (store_bytes m off bs)) = bs.
Proof.
  intros H. unfold store_bytes.
  rewrite drop_app_length' by (rewrite length_take; lia).
  apply take_app_length.
Qed.

(** The bytes written by a successful copy are the identifier's, and
    nothing before the cursor is touched. *)
Lemma rbh_id_copy_content (src : rbh_id) (b : id_buffer) dest b' :
  size src = Z.of_nat (length (data src)) ->
  0 <= buffer b <= Z.of_nat (length (mem b)) ->
  rbh_id_copy src b = (0, Some dest, b') ->
  data dest = data src /\
  take (length (data src)) (drop (Z.to_nat (buffer b)) (mem b')) = data src /\
  take (Z.to_nat (buffer b)) (mem b') = take (Z.to_nat (buffer b)) (mem b).
Proof.
  intros Hsz Hb. unfold rbh_id_copy.
  destruct (bufsize b <? size src); [discriminate |].
  intros H. injection H as <- <-. cbn.
  assert (E : take (Z.to_nat (size src)) (data src) = data src).
  { apply take_ge. lia. }
  rewrite E. split; [reflexivity |]. split.
  - apply store_bytes_region. exact Hb.
  - apply store_bytes_before. exact Hb.
Qed.

(** C1.  The bounded copy of an identifier is atomic: with less room
    than [src.size] it fails with ENOBUFS and leaves the memory, the cursor
    and the remaining capacity as they were; otherwise it succeeds, moves
    the cursor by exactly [src.size] and decrements the remaining capacity
    by exactly [src.size]. *)
Theorem rbh_id_copy_atomic (src : rbh_id) (b : id_buffer) :
  (bufsize b < size src ->
   rbh_id_copy src b =
     (-1, None,
      {| mem := mem b; buffer := buffer b; bufsize := bufsize b;
         errno := ENOBUFS |}))
  /\
  (size src <= bufsize b ->
   exists dest b',
     rbh_id_copy src b = (0, Some dest, b') /\
     size dest = size src /\
     buffer b' = buffer b + size src /\
     bufsize b' = bufsize b - size src /\
     errno b' = errno b).
Proof.
  unfold rbh_id_copy. split; intros H.
  - apply Z.ltb_lt in H. rewrite H. reflexivity.
  - apply Z.ltb_ge in H. rewrite H. eexists _, _.
    split; [reflexivity |]. cbn. auto.
Qed.

Lemma rbh_id_copy_atomic_witness :
  exists dest b',
    rbh_id_copy {| data := [x01; x02; x03]; size := 3 |}
      {| mem := replicate 8 x00; buffer := 2; bufsize := 6; errno := 0 |}
    = (0, Some dest, b') /\
    size dest = 3 /\ buffer b' = 5 /\ bufsize b' = 3 /\ errno b' = 0.
Proof.
  apply (proj2 (rbh_id_copy_atomic
                  {| data := [x01; x02; x03]; size := 3 |}
                  {| mem := replicate 8 x00; buffer := 2; bufsize := 6;
                     errno := 0 |})).
  cbn. lia.
Defined.

End IdProps.

(** ** URI resolution *)

Module UriProps.

Import Id Uri.

(** One step of symbolic execution of a command of uri.c. *)
Ltac step :=
  unfold backend_from_uri, backend_new, backend_plugin_import,
    destroy_and_return, backend_from_raw_uri, rbh_backend_from_uri,
    import_call, extern, dlerror, error, get_errno, set_errno,
    bind, ret, abort, update_state; cbn.

Section Resolver.

Variable c : collaborators.

(** Importing the plug-in and instantiating the backend, when both
    succeed: the two calls are made in that order and [errno] is what the
    instantiation left. *)
Lemma backend_new_ok (type fsname : string) (w : world) pl e0 d0 b e1 :
  rbh_backend_plugin_import c type 0 = (Some pl, e0, d0) ->
  rbh_backend_plugin_new c pl fsname (errno w) = (Some b, e1) ->
  backend_new c type fsname w =
    Returns b {| errno := e1; dl_pending := d0;
                 calls := (calls w ++ [PluginImport type])
                          ++ [PluginNew pl fsname] |}.
Proof.
  intros Hi Hn. step. rewrite Hi. cbn. rewrite Hn. reflexivity.
Qed.

(** A failed import ends the process with the loader's text when
    [errno] was left at 0, with [errno] otherwise. *)
Lemma backend_plugin_import_fails (name : string) (w : world) e d :
  rbh_backend_plugin_import c name 0 = (None, e, d) ->
  exists w',
    backend_plugin_import c name w =
      Aborts {| status := EXIT_FAILURE; errnum := e;
                message := if e =? 0
                           then "rbh_backend_plugin_import: " ++ format_s d
                           else "rbh_backend_plugin_import" |} w'.
Proof.
  intros Hi. step. rewrite Hi. cbn.
  destruct (e =? 0) eqn:E.
  - apply Z.eqb_eq in E. subst e. eexists. reflexivity.
  - eexists. reflexivity.
Qed.

End Resolver.

(** C2.  With an entry path, the resolver decodes it, resolves it
    against the backend it has just instantiated, branches that backend to
    the ID of the entry found, destroys the unbranched backend and returns
    the branch; an entry whose mask lacks the ID bit ends the resolution
    with ENODATA and no backend. *)
Theorem backend_from_uri_entry_path
    (c : collaborators) (uri : rbh_uri) (p : string) (w : world)
    pl e0 d0 b e1 p' e2 f e3 :
  rbh_backend_plugin_import c (uri_backend uri) 0 = (Some pl, e0, d0) ->
  rbh_backend_plugin_new c pl (uri_fsname uri) (errno w) = (Some b, e1) ->
  rbh_percent_decode c p e1 = (Some p', e2) ->
  rbh_backend_fsentry_from_path c b p' (RBH_FP_ID c) 0 e2 = (Some f, e3) ->
  (Z.land (fsentry_mask f) (RBH_FP_ID c) = 0 ->
   exists w',
     backend_from_uri c uri (Some p) w =
       Aborts {| status := EXIT_FAILURE; errnum := ENODATA;
                 message := "rbh_backend_fsentry_from_path" |} w')
  /\
  (Z.land (fsentry_mask f) (RBH_FP_ID c) <> 0 ->
   forall br e4,
     rbh_backend_branch c b (fsentry_id f) e3 = (Some br, e4) ->
     exists w',
       backend_from_uri c uri (Some p) w = Returns br w' /\
       errno w' = e4 /\
       calls w' =
         calls w ++ [PluginImport (uri_backend uri);
                     PluginNew pl (uri_fsname uri);
                     PercentDecode p;
                     FsentryFromPath b p' (RBH_FP_ID c) 0;
                     Branch b (fsentry_id f);
                     Free;
                     Destroy b]).
Proof.
  intros Hi Hn Hd Hf. split.
  - intros Hm. step. rewrite Hi. cbn. rewrite Hn. cbn. rewrite Hd. cbn.
    rewrite Hf. cbn. rewrite Hm. cbn. eexists. reflexivity.
  - intros Hm br e4 Hb. step. rewrite Hi. cbn. rewrite Hn. cbn.
    rewrite Hd. cbn. rewrite Hf. cbn.
    apply Z.eqb_neq in Hm. rewrite Hm. cbn. rewrite Hb. cbn.
    eexists. split; [reflexivity |]. cbn. split; [reflexivity |].
    rewrite <- !app_assoc. reflexivity.
Qed.

Lemma backend_from_uri_entry_path_witness :
  exists w',
    backend_from_uri UriExamples.posix_only
      (UriExamples.posix_uri UriExamples.no_id) (Some "/some/dir")
      UriExamples.w0 = Returns 11%nat w' /\
    errno w' = 0 /\
    calls w' =
      [PluginImport "posix"; PluginNew 1%nat "/mnt/fs";
       PercentDecode "/some/dir"; FsentryFromPath 10%nat "/some/dir" 1 0;
       Branch 10%nat UriExamples.some_dir_id; Free; Destroy 10%nat].
Proof.
  refine (proj2 (backend_from_uri_entry_path UriExamples.posix_only
                   (UriExamples.posix_uri UriExamples.no_id) "/some/dir"
                   UriExamples.w0 1%nat 0 None 10%nat 0 "/some/dir" 0
                   {| fsentry_mask := 1;
                      fsentry_id := UriExamples.some_dir_id |} 0
                   eq_refl eq_refl eq_refl eq_refl) _ 11%nat 0 eq_refl).
  cbn. discriminate.
Defined.

(** C3.  Without an entry path, an embedded ID of non-zero size makes
    the resolver branch the backend to it, destroy the unbranched backend
    and return the branch; otherwise the unbranched backend is returned as
    it is, with no further call. *)
Theorem backend_from_uri_no_path
    (c : collaborators) (uri : rbh_uri) (w : world) pl e0 d0 b e1 :
  rbh_backend_plugin_import c (uri_backend uri) 0 = (Some pl, e0, d0) ->
  rbh_backend_plugin_new c pl (uri_fsname uri) (errno w) = (Some b, e1) ->
  (size (uri_id uri) <> 0 ->
   forall br e2,
     rbh_backend_branch c b (uri_id uri) e1 = (Some br, e2) ->
     exists w',
       backend_from_uri c uri None w = Returns br w' /\
       errno w' = e2 /\
       calls w' =
         calls w ++ [PluginImport (uri_backend uri);
                     PluginNew pl (uri_fsname uri);
                     Branch b (uri_id uri);
                     Destroy b])
  /\
  (size (uri_id uri) = 0 ->
   exists w',
     backend_from_uri c uri None w = Returns b w' /\
     errno w' = e1 /\
     calls w' =
       calls w ++ [PluginImport (uri_backend uri);
                   PluginNew pl (uri_fsname uri)]).
Proof.
  intros Hi Hn. split.
  - intros Hs br e2 Hb. step. rewrite Hi. cbn. rewrite Hn. cbn.
    apply Z.eqb_neq in Hs. rewrite Hs. cbn. rewrite Hb. cbn.
    eexists. split; [reflexivity |]. cbn. split; [reflexivity |].
    rewrite <- !app_assoc. reflexivity.
  - intros Hs. step. rewrite Hi. cbn. rewrite Hn. cbn.
    rewrite Hs. cbn.
    eexists. split; [reflexivity |]. cbn. split; [reflexivity |].
    rewrite <- !app_assoc. reflexivity.
Qed.

Lemma backend_from_uri_no_path_witness :
  exists w',
    backend_from_uri UriExamples.posix_only
      (UriExamples.posix_uri UriExamples.some_dir_id) None UriExamples.w0
      = Returns 11%nat w' /\
    errno w' = 0 /\
    calls w' =
      [PluginImport "posix"; PluginNew 1%nat "/mnt/fs";
       Branch 10%nat UriExamples.some_dir_id; Destroy 10%nat].
Proof.
  refine (proj1 (backend_from_uri_no_path UriExamples.posix_only
                   (UriExamples.posix_uri UriExamples.some_dir_id)
                   UriExamples.w0 1%nat 0 None 10%nat 0 eq_refl eq_refl)
            _ 11%nat 0 eq_refl).
  cbn. discriminate.
Defined.

(** The log of calls only grows. *)
Lemma grows_ret {A} (a : A) : grows (ret a).
Proof. intros w. exists []. cbn. rewrite app_nil_r. reflexivity. Qed.

Lemma grows_error {A} (st en : Z) (msg : string) : grows (@error A st en msg).
Proof. intros w. exists []. cbn. rewrite app_nil_r. reflexivity. Qed.

Lemma grows_get_errno : grows get_errno.
Proof. intros w. exists []. cbn. rewrite app_nil_r. reflexivity. Qed.

Lemma grows_set_errno (e : Z) : grows (set_errno e).
Proof. intros w. exists []. cbn. rewrite app_nil_r. reflexivity. Qed.

Lemma grows_extern {A} (ev : call) (f : Z -> A * Z) : grows (extern ev f).
Proof. intros w. exists [ev]. reflexivity. Qed.

Lemma grows_import_call (c : collaborators) (name : string) :
  grows (import_call c name).
Proof. intros w. exists [PluginImport name]. reflexivity. Qed.

Lemma grows_dlerror : grows dlerror.
Proof. intros w. exists [Dlerror]. reflexivity. Qed.


Create HintDb grows.
#[local] Hint Resolve grows_ret grows_error grows_get_errno grows_set_errno
  grows_extern grows_import_call grows_dlerror : grows.




Lemma prefix_cons (a b : ascii) (s1 s2 : string) :
  String.prefix (String a s1) (String b s2) =
    if ascii_dec a b then String.prefix s1 s2 else false.
Proof. reflexivity. Qed.






(** C7.  A failed import of the plug-in the URI names ends the
    resolution; the diagnostic is the loader's own text, unchanged, when the
    import left [errno] at 0, and that [errno] otherwise. *)
Theorem plugin_import_failure_is_fatal
    (c : collaborators) (uri : rbh_uri) (path : option string) (w : world)
    e d :
  rbh_backend_plugin_import c (uri_backend uri) 0 = (None, e, d) ->
  (exists w',
     backend_from_uri c uri path w =
       Aborts {| status := EXIT_FAILURE; errnum := e;
                 message := if e =? 0
                            then "rbh_backend_plugin_import: " ++ format_s d
                            else "rbh_backend_plugin_import" |} w')
  /\
  (forall text, e = 0 -> d = Some text ->
   exists w',
     backend_from_uri c uri path w =
       Aborts {| status := EXIT_FAILURE; errnum := 0;
                 message := "rbh_backend_plugin_import: " ++ text |} w').
Proof.
  intros Hi.
  assert (H : exists w',
     backend_from_uri c uri path w =
       Aborts {| status := EXIT_FAILURE; errnum := e;
                 message := if e =? 0
                            then "rbh_backend_plugin_import: " ++ format_s d
                            else "rbh_backend_plugin_import" |} w').
  { destruct (backend_plugin_import_fails c (uri_backend uri) w e d Hi)
      as [w' Hw].
    exists w'. unfold backend_from_uri, backend_new.
    unfold bind at 1 2. rewrite Hw. reflexivity. }
  split; [exact H |].
  intros text -> ->. exact H.
Qed.

Lemma plugin_import_failure_is_fatal_witness :
  exists w',
    backend_from_uri UriExamples.posix_only UriExamples.nfs_uri None
      UriExamples.w0 =
      Aborts {| status := EXIT_FAILURE; errnum := 0;
                message := "rbh_backend_plugin_import: librbh-nfs.so: cannot open shared object file" |}
        w'.
Proof.
  exact (proj2 (plugin_import_failure_is_fatal UriExamples.posix_only
                  UriExamples.nfs_uri None UriExamples.w0 0
                  (Some "librbh-nfs.so: cannot open shared object file")
                  eq_refl)
           "librbh-nfs.so: cannot open shared object file" eq_refl eq_refl).
Defined.

(** C4.  An ID of size 0 stands for an entry that does not exist.
    Embedded in a URI without an entry path it is taken as no ID: the
    unbranched backend is returned and no branch is attempted.  When the
    branch operation refuses a size-0 ID as the specification requires, an
    entry path that resolves to a size-0 ID ends the resolution with that
    error: no backend is returned. *)
Theorem size0_id_is_never_branched_to
    (c : collaborators) (uri : rbh_uri) (w : world) pl e0 d0 b e1 :
  rbh_backend_plugin_import c (uri_backend uri) 0 = (Some pl, e0, d0) ->
  rbh_backend_plugin_new c pl (uri_fsname uri) (errno w) = (Some b, e1) ->
  (forall b' id e, size id = 0 ->
     rbh_backend_branch (with_spec_branch c) b' id e = (None, EINVAL))
  /\
  (size (uri_id uri) = 0 ->
   exists w',
     backend_from_uri (with_spec_branch c) uri None w = Returns b w' /\
     calls w' =
       calls w ++ [PluginImport (uri_backend uri);
                   PluginNew pl (uri_fsname uri)])
  /\
  (forall p p' e2 f e3,
     rbh_percent_decode c p e1 = (Some p', e2) ->
     rbh_backend_fsentry_from_path c b p' (RBH_FP_ID c) 0 e2 = (Some f, e3) ->
     Z.land (fsentry_mask f) (RBH_FP_ID c) <> 0 ->
     size (fsentry_id f) = 0 ->
     exists w',
       backend_from_uri (with_spec_branch c) uri (Some p) w =
         Aborts {| status := EXIT_FAILURE; errnum := EINVAL;
                   message := "rbh_backend_branch" |} w').
Proof.
  intros Hi Hn. split; [| split].
  - intros b' id e Hs. cbn. unfold spec_branch. rewrite Hs. reflexivity.
  - intros Hs.
    destruct (backend_from_uri_no_path (with_spec_branch c) uri w
                pl e0 d0 b e1 Hi Hn) as [_ H].
    destruct (H Hs) as (w' & Hr & _ & Hc). eauto.
  - intros p p' e2 f e3 Hd Hf Hm Hs. step. rewrite Hi. cbn. rewrite Hn. cbn.
    rewrite Hd. cbn. rewrite Hf. cbn.
    apply Z.eqb_neq in Hm. rewrite Hm. cbn.
    unfold spec_branch. rewrite Hs. cbn. eexists. reflexivity.
Qed.

Lemma size0_id_is_never_branched_to_witness :
  exists w',
    backend_from_uri (with_spec_branch UriExamples.posix_only)
      (UriExamples.posix_uri UriExamples.no_id) (Some "/gone")
      UriExamples.w0 =
      Aborts {| status := EXIT_FAILURE; errnum := EINVAL;
                message := "rbh_backend_branch" |} w'.
Proof.
  refine (proj2 (proj2 (size0_id_is_never_branched_to UriExamples.posix_only
                   (UriExamples.posix_uri UriExamples.no_id)
                   UriExamples.w0 1%nat 0 None 10%nat 0 eq_refl eq_refl))
            "/gone" "/gone" 0
            {| fsentry_mask := 1; fsentry_id := UriExamples.no_id |} 0
            eq_refl eq_refl _ eq_refl).
  cbn. discriminate.
Defined.

End UriProps.

(** ** The Lustre attribute extractor *)

Module LustreProps.

Import Lustre.

Arguments to_uint32 : simpl never.
Arguments to_uint64 : simpl never.
Arguments to_int : simpl never.

Lemma bind_Returns {E S A B} (m : M E S A) (k : A -> M E S B) s b s' :
  bind m k s = Returns b s' ->
  exists a s1, m s = Returns a s1 /\ k a s1 = Returns b s'.
Proof.
  unfold bind. destruct (m s) as [a s1 | e s1]; [eauto | discriminate].
Qed.

Ltac minv1 :=
  match goal with
  | H : bind _ _ _ = Returns _ _ |- _ =>
      apply bind_Returns in H; destruct H as (? & ? & ? & ?)
  | H : ret _ _ = Returns _ _ |- _ => unfold ret in H
  | H : get_state _ = Returns _ _ |- _ => unfold get_state in H
  | H : update_state _ _ = Returns _ _ |- _ => unfold update_state in H
  | H : abort _ _ = Returns _ _ |- _ => discriminate H
  | H : set_errno _ _ = Returns _ _ |- _ => unfold set_errno in H
  | H : get_errno _ = Returns _ _ |- _ => unfold get_errno in H
  | H : log _ _ = Returns _ _ |- _ => unfold log in H
  | H : getter (Ok _) _ = Returns _ _ |- _ => unfold getter in H
  | H : getter (Err _) _ = Returns _ _ |- _ => unfold getter in H
  | H : getter ?r _ = Returns _ _ |- _ => destruct r eqn:?
  | H : Returns _ _ = Returns _ _ |- _ => simplify_eq H; clear H; intros; subst
  | H : Aborts _ _ = Returns _ _ |- _ => discriminate H
  | H : (if ?b then _ else _) _ = Returns _ _ |- _ => destruct b eqn:?
  | H : (match ?x with _ => _ end) _ = Returns _ _ |- _ => destruct x eqn:?
  end.
Ltac minv := repeat (minv1; cbv beta in * ).

Ltac early H :=
  cbn in H; unfold ret in H; simplify_eq H; intros <- <-; left; reflexivity.

Section Extractor.

Variable c : collaborators.

Lemma rbh_sstack_push_Returns b s p s' :
  rbh_sstack_push c b s = Returns p s' ->
  (p = true /\ s' = set_values (_values s ++ [b]) s) \/
  (p = false /\ _values s' = _values s /\ keeps_entry s s' /\ calls s' = calls s).
Proof.
  unfold rbh_sstack_push. intros H. minv.
  - left. auto.
  - right. unfold keeps_entry. cbn. auto 10.
Qed.

Lemma fill_pair_Returns k v s r s' :
  fill_pair c k v s = Returns r s' ->
  (r = (0, [{| key := k; value := Some v |}]) /\ s' = set_values (_values s ++ [BValue v]) s) \/
  (r = (-1, [{| key := k; value := None |}]) /\ _values s' = _values s /\ keeps_entry s s' /\ calls s' = calls s).
Proof.
  unfold fill_pair. intros H. minv.
  - apply rbh_sstack_push_Returns in H as [[? ?]|[? ?]]; [left; auto | discriminate].
  - apply rbh_sstack_push_Returns in H as [[? ?]|[? ?]]; [discriminate | right; auto].
Qed.

Lemma fill_sequence_pair_Returns k cells s r s' :
  fill_sequence_pair c k cells s = Returns r s' ->
  (r = (0, [{| key := k; value := Some (RBH_VT_SEQUENCE cells) |}]) /\
   s' = set_values (_values s ++ [BValues cells; BValue (RBH_VT_SEQUENCE cells)]) s) \/
  (fst r = -1).
Proof.
  unfold fill_sequence_pair. intros H. minv.
  - apply rbh_sstack_push_Returns in H as [[? ?]|[? ?]]; [|discriminate].
    subst. apply fill_pair_Returns in H0 as [[? ?]|[? ?]].
    + left. subst. split; [reflexivity|]. unfold set_values. cbn. rewrite <- app_assoc. reflexivity.
    + right. subst. reflexivity.
  - right. reflexivity.
Qed.


Lemma workspace_holds_set_arr a d items :
  workspace_holds (set_arr a d) items <-> workspace_holds d items.
Proof. reflexivity. Qed.

Lemma workspace_holds_set_comp_index i d items :
  workspace_holds (set_comp_index i d) items <-> workspace_holds d items.
Proof. reflexivity. Qed.

Lemma store_Returns base index v d s d' s' :
  store base index v d s = Returns d' s' ->
  s' = s /\ exists a, d' = set_arr a d.
Proof.
  unfold store. intros H. minv. eauto.
Qed.

Lemma ost_append_Returns v d s d' s' :
  ost_append v d s = Returns d' s' ->
  s' = s /\
  0 <= ost_idx d < Z.of_nat (length (ost d)) /\
  d' = set_ost (<[Z.to_nat (ost_idx d) := Some v]> (ost d)) (ost_size d)
         (ost_idx d + 1) d.
Proof.
  unfold ost_append. intros H. minv.
  apply andb_true_iff in Heqb as [H1 H2].
  apply Z.leb_le in H1. apply Z.ltb_lt in H2. auto.
Qed.

Lemma workspace_holds_append i d items s d' s' :
  workspace_holds d items ->
  ost_append (create_uint64_value i) d s = Returns d' s' ->
  s' = s /\ workspace_holds d' (items ++ [i]).
Proof.
  intros (Hl & Hi & Hs & Ht) H.
  apply ost_append_Returns in H as (-> & Hb & ->).
  split; [reflexivity |].
  unfold workspace_holds. cbn.
  rewrite length_insert, length_app. cbn.
  repeat split; try lia.
  rewrite Hi, Nat2Z.id.
  replace (length items + 1)%nat with (S (length items)) by lia.
  erewrite take_S_r.
  - rewrite take_insert_ge by lia. rewrite Ht.
    unfold ost_values. rewrite map_app. reflexivity.
  - apply list_lookup_insert_eq. lia.
Qed.

Lemma ost_loop_Returns replies : forall count i d s r s',
  ost_loop count i replies d s = Returns r s' ->
  fst r = -1 \/
  (fst r = 0 /\
   forall items,
     workspace_holds d items ->
     workspace_holds (snd r)
       (items ++ take (Z.to_nat (count - i)) (answered replies))).
Proof.
  induction replies as [| reply rest IH]; intros count i d s r s' H;
    cbn in H.
  - destruct (i <? count); minv; right; (split; [reflexivity |]);
      intros items Hw; cbn; rewrite take_nil, app_nil_r; exact Hw.
  - destruct (i <? count) eqn:Hlt.
    + apply Z.ltb_lt in Hlt. destruct reply as [tmp | e].
      * minv.
        destruct (IH _ _ _ _ _ _ H0) as [Hf | [Hr Hh]]; [auto |].
        right. split; [exact Hr |]. intros items Hw.
        destruct (workspace_holds_append _ _ _ _ _ _ Hw H) as [_ Hw'].
        replace (Z.to_nat (count - i)) with (S (Z.to_nat (count - (i + 1))))
          by lia.
        cbn. specialize (Hh _ Hw'). rewrite <- app_assoc in Hh. exact Hh.
      * minv.
        -- right. split; [reflexivity |]. intros items Hw. cbn.
           rewrite take_nil, app_nil_r. exact Hw.
        -- left. reflexivity.
    + apply Z.ltb_ge in Hlt. minv. right. split; [reflexivity |].
      intros items Hw. cbn.
      replace (Z.to_nat (count - i)) with 0%nat by lia.
      rewrite take_0, app_nil_r. exact Hw.
Qed.

Lemma iter_data_ost_try_resize_Returns d ost_len s r s' :
  iter_data_ost_try_resize c d ost_len s = Returns r s' ->
  fst r = -1 \/
  (fst r = 0 /\
   forall items, workspace_holds d items -> workspace_holds (snd r) items).
Proof.
  intros H. unfold iter_data_ost_try_resize in H. minv.
  - right. split; [reflexivity |]. intros items (Hl & Hi & Hs & Ht). cbn.
    apply andb_true_iff in Heqb2 as [Hn _]. apply Z.ltb_lt in Hn.
    apply Z.ltb_lt in Heqb0.
    unfold workspace_holds. cbn. rewrite length_resize.
    repeat split; try lia.
    rewrite take_resize_le by lia. rewrite resize_le by lia. exact Ht.
  - left. reflexivity.
  - right. split; [reflexivity |]. auto.
Qed.

Ltac stores :=
  repeat match goal with
         | H : store _ _ _ _ _ = Returns _ _ |- _ =>
             apply store_Returns in H; destruct H as (-> & ? & ->)
         end.

Ltac known_comp :=
  unfold comp_osts;
  repeat match goal with
         | E : llc_stripe_count _ = Ok _ |- _ => rewrite E; clear E
         | E : llc_flags _ = Ok _ |- _ => rewrite E; clear E
         | E : (_ =? LCME_FL_INIT) || _ = _ |- _ => rewrite E; clear E
         end.

Ltac zero_or_not :=
  match goal with
  | Hb : negb (_ =? 0) = true |- _ => apply negb_true_iff, Z.eqb_neq in Hb
  | Hb : negb (_ =? 0) = false |- _ => apply negb_false_iff, Z.eqb_eq in Hb
  | Hb : (_ =? 0) = true |- _ => apply Z.eqb_eq in Hb
  | Hb : (_ =? 0) = false |- _ => apply Z.eqb_neq in Hb
  end.

Lemma fill_iterator_data_Returns layout comp d index s r s' :
  fill_iterator_data c layout comp d index s = Returns r s' ->
  fst r = -1 \/
  (fst r = 0 /\
   forall items,
     workspace_holds d items ->
     workspace_holds (snd r) (items ++ comp_osts layout comp)).
Proof.
  intros H. unfold fill_iterator_data in H.
  minv; stores; try (left; reflexivity);
    match goal with
    | H : iter_data_ost_try_resize _ _ _ _ = Returns ?r _ |- _ =>
        apply iter_data_ost_try_resize_Returns in H;
        destruct H as [Hf | [Hz Hw']]
    end;
    zero_or_not; try lia; auto.
  - (* an instantiated component, or a plain layout *)
    match goal with
    | H : ost_loop _ _ _ _ _ = Returns _ _ |- _ =>
        apply ost_loop_Returns in H; destruct H as [Hf' | [Hz' Hh]]
    end; [auto |].
    right. split; [exact Hz' |]. intros items Hw. known_comp.
    specialize (Hh items (Hw' items Hw)).
    rewrite Z.sub_0_r in Hh. exact Hh.
  - (* a component that is not instantiated *)
    right. split; [reflexivity |]. intros items Hw. known_comp.
    match goal with
    | H : ost_append _ _ _ = Returns _ _ |- _ =>
        eapply workspace_holds_append in H; [| exact (Hw' items Hw)];
        destruct H as [_ Hh]
    end.
    exact Hh.
Qed.

Lemma xattrs_layout_iterator_Returns layout comp d s r s' :
  xattrs_layout_iterator c layout comp d s = Returns r s' ->
  fst r = -1 \/
  (fst r = 0 /\
   forall items,
     workspace_holds d items ->
     workspace_holds (snd r) (items ++ comp_osts layout comp)).
Proof.
  intros H. unfold xattrs_layout_iterator in H.
  minv; stores; try (left; reflexivity).
  match goal with
  | H : fill_iterator_data _ _ _ _ _ _ = Returns _ _ |- _ =>
      apply fill_iterator_data_Returns in H; destruct H as [Hf | [Hz Hh]]
  end.
  - zero_or_not. lia.
  - right. split; [reflexivity |]. exact Hh.
Qed.

Lemma comp_iterate_Returns layout comps : forall d s r s',
  comp_iterate (xattrs_layout_iterator c layout) comps d s = Returns r s' ->
  fst r = -1 \/
  (fst r = 0 /\
   forall items,
     workspace_holds d items ->
     workspace_holds (snd r)
       (items ++ concat (map (comp_osts layout) comps))).
Proof.
  induction comps as [| comp rest IH]; intros d s r s' H; cbn in H.
  - minv. right. split; [reflexivity |]. intros items Hw. cbn.
    rewrite app_nil_r. exact Hw.
  - minv.
    + apply xattrs_layout_iterator_Returns in H.
      destruct H as [Hf | [_ Hh]].
      { zero_or_not. lia. }
      apply IH in H0. destruct H0 as [Hf | [Hz Hh']]; [auto |].
      right. split; [exact Hz |]. intros items Hw. cbn.
      rewrite app_assoc. apply Hh', Hh, Hw.
    + apply xattrs_layout_iterator_Returns in H.
      destruct H as [Hf | [Hz _]]; [auto |].
      zero_or_not. contradiction.
Qed.

Lemma to_int_small z : 0 <= z <= INT_MAX -> to_int z = z.
Proof.
  unfold to_int, INT_MAX. intros H.
  rewrite Z.mod_small by lia.
  destruct (z <? 2 ^ 31) eqn:E; [reflexivity |].
  apply Z.ltb_ge in E. lia.
Qed.

Lemma init_iterator_data_Returns d0 length nb_xattrs s r s' :
  init_iterator_data c d0 length nb_xattrs s = Returns r s' ->
  fst r = -1 \/
  (fst r = 0 /\ (0 <= length <= INT_MAX -> workspace_holds (snd r) [])).
Proof.
  intros H. unfold init_iterator_data in H. minv; try (left; reflexivity).
  right. split; [reflexivity |]. intros Hl. unfold workspace_holds. cbn.
  rewrite length_replicate, to_int_small by lia.
  repeat split; lia.
Qed.

Lemma fill_layout_loop_Returns d entries : forall subcount out s r s',
  fill_layout_loop c d entries subcount out s = Returns r s' ->
  (fst r = false /\ fst (snd r) = -1) \/
  (fst r = true /\
   exists more,
     snd (snd r) = out ++ more /\
     fst (snd r) = subcount + Z.of_nat (length more)).
Proof.
  induction entries as [| [k base] rest IH]; intros subcount out s r s' H;
    cbn in H.
  - minv. right. split; [reflexivity |]. exists []. cbn.
    rewrite app_nil_r. split; [reflexivity | lia].
  - minv.
    + left. auto.
    + apply IH in H1. destruct H1 as [Hf | [Ht (more & Hm & Hc)]]; [auto |].
      right. split; [exact Ht |].
      match goal with
      | H : fill_sequence_pair _ _ _ _ = Returns _ _ |- _ =>
          apply fill_sequence_pair_Returns in H;
          destruct H as [[-> _] | Hf]
      end.
      * exists ({| key := k; value := Some (RBH_VT_SEQUENCE x) |} :: more).
        cbn in *. rewrite Hm, <- app_assoc. split; [reflexivity | lia].
      * zero_or_not. lia.
Qed.

Lemma ost_cells_Returns d s cells s' items :
  ost_cells d s = Returns cells s' ->
  workspace_holds d items ->
  s' = s /\ cells = ost_values items.
Proof.
  unfold ost_cells. intros H (Hl & Hi & Hs & Ht). minv.
  split; [reflexivity |]. rewrite Hi, Nat2Z.id. exact Ht.
Qed.

Lemma xattrs_fill_layout_Returns d nb_xattrs s r s' :
  xattrs_fill_layout c d nb_xattrs s = Returns r s' ->
  fst r = -1 \/
  (fst r = Z.of_nat (length (snd r)) /\
   forall items,
     workspace_holds d items ->
     (exists before, snd r = before ++ [ost_pair items]) /\
     (exists blocks,
        _values s' =
          blocks ++ [BValues (ost_values items);
                     BValue (RBH_VT_SEQUENCE (ost_values items))])).
Proof.
  intros H. unfold xattrs_fill_layout in H. minv.
  - apply fill_layout_loop_Returns in H.
    destruct H as [[_ Hf] | [Ht _]]; [auto |].
    rewrite Ht in Heqb. discriminate.
  - left. reflexivity.
  - apply fill_layout_loop_Returns in H.
    destruct H as [[Hf _] | [_ (more & Hm & Hc)]].
    { rewrite Hf in Heqb. discriminate. }
    match goal with
    | H : fill_sequence_pair _ _ _ _ = Returns _ _ |- _ =>
        apply fill_sequence_pair_Returns in H;
        destruct H as [[-> ->] | Hf]
    end; [| zero_or_not; lia].
    right. cbn in *. split.
    + rewrite Hm, Hc, length_app. cbn. lia.
    + intros items Hw.
      match goal with
      | H : ost_cells _ _ = Returns _ _ |- _ =>
          eapply ost_cells_Returns in H; [| exact Hw]; destruct H as [-> ->]
      end.
      split; [eexists; reflexivity |]. eexists. reflexivity.
Qed.


Lemma layout_err_Returns save_errno rc subcount out s r s' :
  layout_err save_errno rc subcount out s = Returns r s' ->
  r = (if negb (rc =? 0) then rc else subcount, out) /\
  _values s' = _values s.
Proof.
  unfold layout_err. intros H. minv. auto.
Qed.

Lemma layout_free_data_Returns rc subcount out s r s' :
  layout_free_data rc subcount out s = Returns r s' ->
  r = (if negb (rc =? 0) then rc else subcount, out) /\
  _values s' = _values s.
Proof.
  unfold layout_free_data. intros H. minv.
  eapply layout_err_Returns. eassumption.
Qed.

Ltac exits :=
  repeat match goal with
         | H : layout_err _ _ _ _ _ = Returns _ _ |- _ =>
             apply layout_err_Returns in H; destruct H as [-> ?]
         | H : layout_free_data _ _ _ _ = Returns _ _ |- _ =>
             apply layout_free_data_Returns in H; destruct H as [-> ?]
         end.

Lemma every_component_Returns layout d s r s' :
  (if llot_is_composite layout
   then llapi_layout_comp_iterate layout (xattrs_layout_iterator c) d
   else fill_iterator_data c layout (current_comp layout) d 0) s
  = Returns r s' ->
  fst r = -1 \/
  (fst r = 0 /\
   forall items,
     workspace_holds d items ->
     workspace_holds (snd r) (items ++ layout_osts layout)).
Proof.
  unfold layout_osts. destruct (llot_is_composite layout).
  - unfold llapi_layout_comp_iterate.
    destruct (llot_comps layout) as [| comp rest] eqn:Hc.
    + intros H. minv. left. reflexivity.
    + intros H. apply comp_iterate_Returns in H. exact H.
  - apply fill_iterator_data_Returns.
Qed.

Lemma layout_components_Returns layout nb_comp nb_xattrs subcount out s r s' :
  layout_components c layout nb_comp nb_xattrs subcount out s = Returns r s' ->
  layout_result layout (0 <= nb_comp <= INT_MAX) subcount out r s'.
Proof.
  intros H. unfold layout_components in H. unfold layout_result.
  apply bind_Returns in H. destruct H as (i & s1 & Hi & H).
  apply init_iterator_data_Returns in Hi. destruct Hi as [Hf | [Hz Hw]].
  { rewrite Hf in H. early H. }
  rewrite Hz in H. cbn [negb Z.eqb] in H.
  apply bind_Returns in H. destruct H as (w & s2 & Hr & H).
  apply every_component_Returns in Hr. destruct Hr as [Hf | [Hz' Hh]].
  { rewrite Hf in H. early H. }
  rewrite Hz' in H. cbn [negb Z.eqb] in H.
  apply bind_Returns in H. destruct H as (f & s3 & Hf & H).
  apply xattrs_fill_layout_Returns in Hf. destruct Hf as [Hf | [Hc Ho]].
  { rewrite Hf in H. early H. }
  assert (Hpos : (fst f <? 0) = false) by (apply Z.ltb_ge; lia).
  rewrite Hpos in H. exits. cbn [negb Z.eqb fst snd].
  right. split.
  - exists (snd f). split; [reflexivity | lia].
  - intros Hn. specialize (Hh _ (Hw Hn)). cbn [app] in Hh.
    destruct (Ho _ Hh) as [[before Hb] [blocks Hv]]. split.
    + exists (out ++ before). rewrite Hb, app_assoc. reflexivity.
    + exists blocks. rewrite H, Hv. reflexivity.
Qed.

Lemma fill_pair_one k v s r s' :
  fill_pair c k v s = Returns r s' -> fills_one r.
Proof.
  intros H. apply fill_pair_Returns in H.
  destruct H as [[-> _] | [-> _]]; [left | right]; cbn; auto.
Qed.

Lemma fill_string_pair_one k str len s r s' :
  fill_string_pair c k str len s = Returns r s' -> fills_one r.
Proof.
  unfold fill_string_pair. intros H.
  apply bind_Returns in H. destruct H as ([|] & s1 & _ & H).
  - eapply fill_pair_one, H.
  - unfold ret in H. simplify_eq H. intros <- _. right. reflexivity.
Qed.

Lemma fill_binary_pair_one k data len s r s' :
  fill_binary_pair c k data len s = Returns r s' -> fills_one r.
Proof.
  unfold fill_binary_pair. intros H.
  apply bind_Returns in H. destruct H as ([|] & s1 & _ & H).
  - eapply fill_pair_one, H.
  - unfold ret in H. simplify_eq H. intros <- _. right. reflexivity.
Qed.

Lemma fill_sequence_pair_one k cells s r s' :
  fill_sequence_pair c k cells s = Returns r s' -> fills_one r.
Proof.
  intros H. apply fill_sequence_pair_Returns in H.
  destruct H as [[-> _] | Hf]; [left | right]; cbn; auto.
Qed.

(** Two pairs in a row, as [xattrs_get_hsm] and
    [xattrs_get_magic_and_gen] fill them. *)
Lemma two_pairs (f1 f2 : cmd filled) s r s' :
  (forall s r s', f1 s = Returns r s' -> fills_one r) ->
  (forall s r s', f2 s = Returns r s' -> fills_one r) ->
  bind f1 (fun r1 =>
    if negb (fst r1 =? 0) then ret (-1, snd r1)
    else bind f2 (fun r2 =>
      if negb (fst r2 =? 0) then ret (-1, snd r1 ++ snd r2)
      else ret (2, snd r1 ++ snd r2))) s = Returns r s' ->
  fst r = -1 \/ (fst r = 2 /\ length (snd r) = 2%nat).
Proof.
  intros H1 H2 H.
  apply bind_Returns in H. destruct H as (r1 & s1 & Hr1 & H).
  apply H1 in Hr1. destruct Hr1 as [[Hz Hl] | Hf].
  - rewrite Hz in H. cbn [negb Z.eqb] in H.
    apply bind_Returns in H. destruct H as (r2 & s2 & Hr2 & H).
    apply H2 in Hr2. destruct Hr2 as [[Hz2 Hl2] | Hf2].
    + rewrite Hz2 in H. cbn in H. unfold ret in H. simplify_eq H.
      intros <- _. right. cbn. rewrite length_app. split; [reflexivity | lia].
    + rewrite Hf2 in H. cbn in H. unfold ret in H. simplify_eq H.
      intros <- _. left. reflexivity.
  - rewrite Hf in H. cbn in H. unfold ret in H. simplify_eq H.
    intros <- _. left. reflexivity.
Qed.

Lemma xattrs_get_magic_and_gen_Returns fd s r s' :
  xattrs_get_magic_and_gen c fd s = Returns r s' ->
  fst r = -1 \/ (fst r = 2 /\ length (snd r) = 2%nat).
Proof.
  unfold xattrs_get_magic_and_gen. intros H.
  apply bind_Returns in H. destruct H as (u & s1 & _ & H).
  apply bind_Returns in H. destruct H as (x & s2 & _ & H).
  destruct x as [lov |]; [| unfold ret in H; simplify_eq H; intros <- _;
                            left; reflexivity].
  destruct (magic_name (lmm_magic lov)) as [magic_str |].
  - eapply two_pairs; [| | exact H].
    + intros ? ? ?. apply fill_string_pair_one.
    + intros ? ? ?. apply fill_pair_one.
  - minv. left. reflexivity.
Qed.

Lemma layout_get_nb_comp_Returns layout s r s' :
  layout_get_nb_comp layout s = Returns r s' ->
  fst r = -1 \/
  (fst r = 0 /\ (valid_ids layout -> 0 <= snd r <= INT_MAX)).
Proof.
  intros H. unfold layout_get_nb_comp in H.
  destruct (last (llot_comps layout)) as [comp |] eqn:Hl.
  - minv; [| left; reflexivity]. right. split; [reflexivity |].
    intros Hv. cbn.
    assert (Hin : comp ∈ llot_comps layout).
    { apply last_Some in Hl as [l' ->]. apply elem_of_app. right.
      apply list_elem_of_singleton. reflexivity. }
    unfold valid_ids in Hv. rewrite Forall_forall in Hv.
    specialize (Hv comp Hin _ Heqr0).
    unfold LCME_ID_MAX in Hv. unfold to_uint32, INT_MAX.
    rewrite Z.mod_small by lia. lia.
  - minv. left. reflexivity.
Qed.

(** The whole of [xattrs_get_layout]: -1, or the number of pairs written;
    and for a file that is not a symbolic link, whose layout is [layout]
    with sound component ids, the last pair is the "ost" pair. *)
Lemma xattrs_get_layout_Returns fd s r s' :
  xattrs_get_layout c fd s = Returns r s' ->
  fst r = -1 \/
  (fst r = Z.of_nat (length (snd r)) /\
   forall layout,
     is_symlink s = false ->
     llapi_layout_get_by_fd c fd = Ok layout ->
     valid_ids layout ->
     (exists before, snd r = before ++ [ost_pair (layout_osts layout)]) /\
     (exists blocks,
        _values s' =
          blocks ++ [BValues (ost_values (layout_osts layout));
                     BValue (RBH_VT_SEQUENCE
                               (ost_values (layout_osts layout)))])).
Proof.
  intros H. unfold xattrs_get_layout in H.
  apply bind_Returns in H. destruct H as (sa & sb & Hg & H).
  unfold get_state in Hg. simplify_eq Hg. intros <- <-. clear Hg.
  destruct (is_symlink s) eqn:Hs.
  { unfold ret in H. simplify_eq H. intros <- _. right.
    split; [reflexivity |]. intros; discriminate. }
  apply bind_Returns in H. destruct H as (u & s2 & _ & H).
  apply bind_Returns in H. destruct H as (l & s3 & Hg' & H).
  destruct (llapi_layout_get_by_fd c fd) as [layout | e] eqn:Hl;
    unfold getter in Hg'; [| minv; left; reflexivity].
  unfold ret in Hg'. simplify_eq Hg'. intros <- <-. clear Hg'.
  apply bind_Returns in H. destruct H as (fl & s4 & Hfl & H).
  destruct fl as [fl |]; [| early H].
  apply bind_Returns in H. destruct H as (f0 & s5 & Hf0 & H).
  apply fill_pair_Returns in Hf0. destruct Hf0 as [[-> _] | [-> _]];
    cbn [fst snd negb Z.eqb] in H; [| early H].
  apply bind_Returns in H. destruct H as (s6 & s7 & _ & H).
  apply bind_Returns in H. destruct H as (m & s8 & Hm & H).
  assert (Hm' : fst m = -1 \/
                 (0 <= fst m /\ fst m = Z.of_nat (length (snd m)))).
  { destruct (is_reg s6).
    - apply xattrs_get_magic_and_gen_Returns in Hm.
      destruct Hm as [? | [-> ->]]; [auto | right; cbn; lia].
    - unfold ret in Hm. simplify_eq Hm. intros <- _. right. cbn. lia. }
  destruct Hm' as [Hf | [Hpos Hlen]].
  { rewrite Hf in H. early H. }
  assert (Hlt : (fst m <? 0) = false) by (apply Z.ltb_ge; lia).
  rewrite Hlt in H.
  assert (Hfinish : forall nb_comp nb_xattrs subcount out s r s',
             (valid_ids layout -> 0 <= nb_comp <= INT_MAX) ->
             subcount = Z.of_nat (length out) ->
             layout_components c layout nb_comp nb_xattrs subcount out s
               = Returns r s' ->
             fst r = -1 \/
             (fst r = Z.of_nat (length (snd r)) /\
              forall layout',
                false = false ->
                Ok layout = Ok layout' ->
                valid_ids layout' ->
                (exists before,
                   snd r = before ++ [ost_pair (layout_osts layout')]) /\
                (exists blocks,
                   _values s' =
                     blocks ++ [BValues (ost_values (layout_osts layout'));
                                BValue (RBH_VT_SEQUENCE
                                          (ost_values (layout_osts layout')))]))).
  { intros nb_comp nb_xattrs subcount out sa ra sb Hn Hsub Hc.
    apply layout_components_Returns in Hc.
    destruct Hc as [Hf | ((more & Hm1 & Hm2) & Hitems)];
      [left; exact Hf |].
    right. split.
    - rewrite Hm2, Hm1, length_app, Hsub. lia.
    - intros layout' _ Heq Hv. simplify_eq Heq. intros <-.
      apply Hitems, Hn, Hv. }
  destruct (llot_is_composite layout).
  - apply bind_Returns in H. destruct H as (mc & s9 & Hmc & H).
    destruct mc as [mirror_count |]; [| early H].
    apply bind_Returns in H. destruct H as (f1 & s10 & Hf1 & H).
    apply fill_pair_Returns in Hf1. destruct Hf1 as [[-> _] | [-> _]];
      cbn [fst snd negb Z.eqb] in H; [| early H].
    apply bind_Returns in H. destruct H as (n & s11 & Hnb & H).
    apply layout_get_nb_comp_Returns in Hnb.
    destruct Hnb as [Hf | [Hz Hn]].
    { rewrite Hf in H. early H. }
    rewrite Hz in H. cbn [negb Z.eqb] in H.
    eapply Hfinish; [exact Hn | | exact H].
    rewrite !length_app. cbn. lia.
  - eapply Hfinish; [| | exact H].
    + intros _. unfold INT_MAX. lia.
    + rewrite !length_app. cbn. lia.
Qed.

End Extractor.

Section Callback.

Variable c : collaborators.

Lemma keeps_entry_refl s : keeps_entry s s.
Proof. unfold keeps_entry. auto. Qed.

Lemma keeps_entry_trans s1 s2 s3 :
  keeps_entry s1 s2 -> keeps_entry s2 s3 -> keeps_entry s1 s3.
Proof. unfold keeps_entry. intuition congruence. Qed.

Lemma rbh_sstack_push_keeps b s p s' :
  rbh_sstack_push c b s = Returns p s' -> keeps_entry s s'.
Proof.
  intros H. apply rbh_sstack_push_Returns in H.
  destruct H as [[_ ->] | (_ & _ & Hk & _)]; [| exact Hk].
  unfold keeps_entry. cbn. auto.
Qed.

Lemma fill_pair_keeps k v s r s' :
  fill_pair c k v s = Returns r s' -> keeps_entry s s'.
Proof.
  intros H. apply fill_pair_Returns in H.
  destruct H as [[_ ->] | (_ & _ & Hk & _)]; [| exact Hk].
  unfold keeps_entry. cbn. auto.
Qed.

(** [xattrs_get_fid]: -1, or 1 with one pair; the variables that describe
    the entry are left alone. *)
Lemma xattrs_get_fid_Returns fd s r s' :
  xattrs_get_fid c fd s = Returns r s' ->
  keeps_entry s s' /\ (fst r = -1 \/ (fst r = 1 /\ length (snd r) = 1%nat)).
Proof.
  unfold xattrs_get_fid. intros H.
  apply bind_Returns in H. destruct H as (u & s1 & Hlog & H).
  assert (Hk : keeps_entry s s1).
  { unfold log, update_state in Hlog. simplify_eq Hlog. intros _ <-.
    unfold keeps_entry. cbn. auto. }
  clear Hlog.
  destruct (negb (fst (llapi_fd2fid c fd) =? 0)).
  - apply bind_Returns in H. destruct H as (u' & s2 & He & H).
    unfold ret in H. simplify_eq H. intros <- <-. clear H.
    split; [| left; reflexivity].
    eapply keeps_entry_trans; [exact Hk |].
    unfold set_errno, update_state in He. simplify_eq He. intros _ <-.
    unfold keeps_entry. cbn. auto.
  - apply bind_Returns in H. destruct H as (f & s2 & Hf & H).
    unfold ret in H. simplify_eq H. intros <- <-. clear H.
    split.
    + eapply keeps_entry_trans; [exact Hk |].
      unfold fill_binary_pair in Hf.
      apply bind_Returns in Hf. destruct Hf as (p & s3 & Hp & Hf).
      apply rbh_sstack_push_keeps in Hp.
      destruct p.
      * apply fill_pair_keeps in Hf.
        eapply keeps_entry_trans; [| exact Hf]. exact Hp.
      * unfold ret in Hf. simplify_eq Hf. intros _ <-. exact Hp.
    + apply fill_binary_pair_one in Hf. destruct Hf as [[Hz Hl] | Hm].
      * rewrite Hz. cbn. auto.
      * rewrite Hm. cbn. auto.
Qed.

Lemma xattrs_get_hsm_not_reg fd s :
  is_reg s = false -> xattrs_get_hsm c fd s = Returns (0, []) s.
Proof.
  intros H. unfold xattrs_get_hsm, bind, get_state. rewrite H. reflexivity.
Qed.

Lemma xattrs_get_layout_symlink fd s :
  is_symlink s = true -> xattrs_get_layout c fd s = Returns (0, []) s.
Proof.
  intros H. unfold xattrs_get_layout, bind, get_state. rewrite H. reflexivity.
Qed.

Lemma xattrs_get_mdt_info_symlink fd s :
  is_dir s = false -> is_symlink s = true ->
  xattrs_get_mdt_info c fd s = Returns (0, []) s.
Proof.
  intros Hd Hl. unfold xattrs_get_mdt_info, bind, get_state.
  rewrite Hd, Hl. reflexivity.
Qed.

Lemma symlink_is_nothing_else mode :
  S_ISLNK mode = true -> S_ISREG mode = false /\ S_ISDIR mode = false.
Proof.
  unfold S_ISLNK, S_ISREG, S_ISDIR. intros H. apply Z.eqb_eq in H.
  rewrite H. split; reflexivity.
Qed.

Lemma xattrs_get_hsm_Returns fd s r s' :
  xattrs_get_hsm c fd s = Returns r s' -> counted r.
Proof.
  unfold xattrs_get_hsm, counted. intros H.
  apply bind_Returns in H. destruct H as (sa & sb & Hg & H).
  unfold get_state in Hg. simplify_eq Hg. intros <- <-. clear Hg.
  destruct (negb (is_reg s)).
  { unfold ret in H. simplify_eq H. intros <- _. right. reflexivity. }
  apply bind_Returns in H. destruct H as (u & s1 & _ & H).
  destruct (negb (fst (llapi_hsm_state_get_fd c fd) =? 0)).
  { minv. left. reflexivity. }
  eapply two_pairs in H.
  - destruct H as [Hf | [Hz Hl]]; [left; exact Hf | right].
    rewrite Hz, Hl. reflexivity.
  - intros ? ? ?. apply fill_pair_one.
  - intros ? ? ?. apply fill_pair_one.
Qed.



(** The loop of the callback is the relation [runs]. *)
Lemma xattrs_funcs_loop_runs funcs fd : forall count out s x s',
  xattrs_funcs_loop funcs fd count out s = Returns x s' ->
  exists rs all,
    runs fd funcs s rs s' all /\
    x = (all, (if all then count + total rs else -1, out ++ written rs)).
Proof.
  induction funcs as [| f rest IH]; intros count out s x s' H; cbn in H.
  - unfold ret in H. simplify_eq H. intros <- <-. exists [], true.
    split; [constructor |]. cbn. rewrite Z.add_0_r, app_nil_r. reflexivity.
  - apply bind_Returns in H. destruct H as (r & s1 & Hr & H).
    destruct (fst r =? -1) eqn:E.
    + apply Z.eqb_eq in E. unfold ret in H. simplify_eq H. intros <- <-.
      exists [r], false. split; [constructor; assumption |].
      unfold written. cbn. rewrite app_nil_r. reflexivity.
    + apply Z.eqb_neq in E. apply IH in H.
      destruct H as (rs & all & Hruns & ->).
      exists (r :: rs), all. split; [econstructor; eassumption |].
      unfold written. cbn. rewrite <- app_assoc.
      destruct all; [rewrite Z.add_assoc |]; reflexivity.
Qed.

Lemma runs_xattrs_funcs_loop funcs fd s rs s' all :
  runs fd funcs s rs s' all ->
  forall count out,
    xattrs_funcs_loop funcs fd count out s =
      Returns (all, (if all then count + total rs else -1, out ++ written rs))
        s'.
Proof.
  induction 1 as [s | f rest s r s' Hr Hf | f rest s r s' rs s'' all Hr Hn _ IH];
    intros count out; cbn.
  - unfold ret. rewrite Z.add_0_r, app_nil_r. reflexivity.
  - unfold bind. rewrite Hr. apply Z.eqb_eq in Hf. rewrite Hf.
    unfold ret, written. cbn. rewrite app_nil_r. reflexivity.
  - unfold bind. rewrite Hr. apply Z.eqb_neq in Hn. rewrite Hn.
    rewrite IH. unfold written. cbn. rewrite <- app_assoc.
    destruct all; [rewrite Z.add_assoc |]; reflexivity.
Qed.


End Callback.

(** The resize keeps what the workspace holds and makes room for the
    items that are about to be written. *)
Lemma iter_data_ost_try_resize_room (c : collaborators) d ost_len items s r s' :
  workspace_holds d items ->
  iter_data_ost_try_resize c d ost_len s = Returns r s' ->
  fst r = 0 ->
  workspace_holds (snd r) items /\
  ost_idx (snd r) + ost_len <= ost_size (snd r).
Proof.
  intros Hw H Hz.
  pose proof (iter_data_ost_try_resize_Returns c _ _ _ _ _ H) as [Hf | [_ Hk]];
    [lia |].
  split; [apply Hk, Hw |].
  destruct Hw as (Hl & Hi & Hs & Ht).
  unfold iter_data_ost_try_resize in H. minv; cbn in *; lia.
Qed.

(** With room for them, the loop writes the items without leaving the
    array. *)
Lemma ost_loop_in_bounds replies : forall count i d items s,
  workspace_holds d items ->
  0 <= i ->
  ost_idx d + (count - i) <= ost_size d ->
  ost_size d <= INT_MAX ->
  exists r s', ost_loop count i replies d s = Returns r s'.
Proof.
  induction replies as [| reply rest IH]; intros count i d items s Hw Hi Hr Hm;
    cbn.
  - destruct (i <? count); eexists _, _; reflexivity.
  - destruct (i <? count) eqn:Hlt; [| eexists _, _; reflexivity].
    apply Z.ltb_lt in Hlt.
    destruct reply as [tmp | e].
    + destruct Hw as (Hl & Hx & Hs & Ht).
      assert (Ha : ost_append (create_uint64_value tmp) d s =
                   Returns (set_ost (<[Z.to_nat (ost_idx d) :=
                                        Some (create_uint64_value tmp)]> (ost d))
                              (ost_size d) (ost_idx d + 1) d) s).
      { unfold ost_append.
        assert (E1 : (0 <=? ost_idx d) && (ost_idx d <? Z.of_nat (length (ost d)))
                     = true).
        { apply andb_true_iff. split; [apply Z.leb_le | apply Z.ltb_lt]; lia. }
        assert (E2 : in_int (ost_idx d + 1) = true).
        { unfold in_int, INT_MIN. unfold INT_MAX in *.
          apply andb_true_iff. split; apply Z.leb_le; lia. }
        rewrite E1, E2. reflexivity. }
      unfold bind at 1. rewrite Ha.
      eapply (IH count (i + 1) _ (items ++ [tmp])).
      * eapply workspace_holds_append; [| exact Ha].
        unfold workspace_holds. auto.
      * lia.
      * cbn. lia.
      * cbn. exact Hm.
    + unfold bind, set_errno, update_state.
      destruct (e =? EINVAL); eexists _, _; reflexivity.
Qed.

(** The OST part of [fill_iterator_data] for a stripe count that fits an
    [int]: the resize followed by the loop never writes outside the
    array, whatever liblustre answers and whether or not memory is
    granted. *)
Lemma ost_writes_stay_in_bounds (c : collaborators) d items count replies s :
  workspace_holds d items ->
  0 <= count ->
  ost_size d + count <= INT_MAX ->
  exists r s',
    bind (iter_data_ost_try_resize c d (to_int count))
      (fun r => if negb (fst r =? 0) then ret r
                else ost_loop count 0 replies (snd r)) s
    = Returns r s'.
Proof.
  intros Hw Hc Hmax.
  pose proof Hw as (Hl & Hi & Hs & Ht).
  assert (Hint : to_int count = count) by (apply to_int_small; lia).
  rewrite Hint.
  destruct (iter_data_ost_try_resize c d count s) as [r s1 | e s1] eqn:Hr.
  - unfold bind. rewrite Hr.
    destruct (fst r =? 0) eqn:Hz; cbn [negb].
    + apply Z.eqb_eq in Hz.
      destruct (iter_data_ost_try_resize_room c d count items s r s1 Hw Hr Hz)
        as [Hw' Hroom].
      eapply (ost_loop_in_bounds replies count 0 (snd r) items s1 Hw');
        [lia | lia |].
      unfold iter_data_ost_try_resize in Hr. minv; cbn in *; lia.
    + eexists _, _. reflexivity.
  - exfalso. unfold iter_data_ost_try_resize in Hr.
    assert (E1 : in_int (ost_idx d + count) = true).
    { unfold in_int, INT_MIN. unfold INT_MAX in *.
      apply andb_true_iff. split; apply Z.leb_le; lia. }
    assert (E2 : in_int (ost_size d + count) = true).
    { unfold in_int, INT_MIN. unfold INT_MAX in *.
      apply andb_true_iff. split; apply Z.leb_le; lia. }
    rewrite E1, E2 in Hr. cbn [negb] in Hr.
    destruct (ost_size d <? ost_idx d + count);
      [destruct ((0 <? ost_size d + count) && alloc c (ost_size d + count)) |];
      discriminate.
Qed.

(** *** The layout is extracted when nothing fails *)

Section Progress.

Variable c : collaborators.
Hypothesis Hgen : generous c.

Lemma store_in_bounds off index v d s :
  0 <= off + index < Z.of_nat (length (arr d)) ->
  store (Some off) index v d s =
    Returns (set_arr (<[Z.to_nat (off + index) := Some v]> (arr d)) d) s.
Proof using Type.
  intros H. unfold store.
  assert (E : (0 <=? off + index) && (off + index <? Z.of_nat (length (arr d)))
              = true).
  { apply andb_true_iff. split; [apply Z.leb_le | apply Z.ltb_lt]; lia. }
  rewrite E. reflexivity.
Qed.

Lemma ost_append_in_bounds v d s :
  0 <= ost_idx d < Z.of_nat (length (ost d)) ->
  ost_idx d < INT_MAX ->
  ost_append v d s =
    Returns (set_ost (<[Z.to_nat (ost_idx d) := Some v]> (ost d))
               (ost_size d) (ost_idx d + 1) d) s.
Proof using Type.
  intros Hb Hm. unfold ost_append.
  assert (E1 : (0 <=? ost_idx d) && (ost_idx d <? Z.of_nat (length (ost d)))
               = true).
  { apply andb_true_iff. split; [apply Z.leb_le | apply Z.ltb_lt]; lia. }
  assert (E2 : in_int (ost_idx d + 1) = true).
  { unfold in_int, INT_MIN. unfold INT_MAX in *.
    apply andb_true_iff. split; apply Z.leb_le; lia. }
  rewrite E1, E2. reflexivity.
Qed.

(** The loop over the stripes, with room: it ends with 0 and touches the
    OST array only. *)
Lemma ost_loop_completes replies : forall count i d items s,
  workspace_holds d items ->
  0 <= i ->
  ost_idx d + (count - i) <= ost_size d ->
  ost_size d <= INT_MAX ->
  Forall (fun r => forall e, r = Err e -> e = EINVAL) replies ->
  exists d' s',
    ost_loop count i replies d s = Returns (0, d') s' /\
    shape d' = shape d /\ comp_index d' = comp_index d /\
    ost_size d' = ost_size d /\
    workspace_holds d'
      (items ++ take (Z.to_nat (count - i)) (answered replies)).
Proof using Type.
  induction replies as [| reply rest IH];
    intros count i d items s Hw Hi Hr Hm Hok; cbn [ost_loop].
  - exists d. destruct (i <? count); eexists; (split; [reflexivity |]);
      cbn [answered]; rewrite take_nil, app_nil_r; auto.
  - destruct (i <? count) eqn:Hlt.
    + apply Z.ltb_lt in Hlt. destruct reply as [tmp | e].
      * pose proof Hw as (Hl & Hx & Hs & Ht).
        assert (Ha := ost_append_in_bounds (create_uint64_value tmp) d s).
        unfold bind at 1. rewrite Ha by (unfold INT_MAX in *; lia).
        clear Ha.
        assert (Hw' : workspace_holds
                        (set_ost (<[Z.to_nat (ost_idx d) :=
                                     Some (create_uint64_value tmp)]> (ost d))
                           (ost_size d) (ost_idx d + 1) d) (items ++ [tmp])).
        { eapply (workspace_holds_append tmp d items s); [exact Hw |].
          apply ost_append_in_bounds; unfold INT_MAX in *; lia. }
        destruct (IH count (i + 1) _ (items ++ [tmp]) s Hw')
          as (d' & s' & Hrun & Hsh & Hci & Hsz & Hh).
        { lia. }
        { cbn. lia. }
        { cbn. exact Hm. }
        { exact (Forall_inv_tail Hok). }
        exists d', s'. split; [exact Hrun |].
        split; [exact Hsh |]. split; [exact Hci |]. split; [exact Hsz |].
        replace (Z.to_nat (count - i)) with (S (Z.to_nat (count - (i + 1))))
          by lia.
        cbn [answered take]. rewrite <- app_assoc in Hh. exact Hh.
      * pose proof (Forall_inv Hok e eq_refl) as ->.
        unfold bind, set_errno, update_state. cbn.
        eexists _, _. split; [reflexivity |].
        rewrite take_nil, app_nil_r. auto.
    + apply Z.ltb_ge in Hlt. eexists _, _. split; [reflexivity |].
      replace (Z.to_nat (count - i)) with 0%nat by lia.
      rewrite take_0, app_nil_r. auto.
Qed.

(** The resize, when memory is granted: it ends with 0, with room for
    [len] more items. *)
Lemma iter_data_ost_try_resize_completes d len items s :
  workspace_holds d items ->
  0 <= len ->
  ost_size d + len <= INT_MAX ->
  exists d',
    iter_data_ost_try_resize c d len s = Returns (0, d') s /\
    shape d' = shape d /\ comp_index d' = comp_index d /\
    ost_size d <= ost_size d' <= ost_size d + len /\
    ost_idx d' + len <= ost_size d' /\
    workspace_holds d' items.
Proof using Hgen.
  intros Hw Hlen Hmax. pose proof Hw as (Hl & Hx & Hs & Ht).
  destruct Hgen as [Halloc _].
  unfold iter_data_ost_try_resize.
  assert (E1 : in_int (ost_idx d + len) = true).
  { unfold in_int, INT_MIN. unfold INT_MAX in *.
    apply andb_true_iff. split; apply Z.leb_le; lia. }
  assert (E2 : in_int (ost_size d + len) = true).
  { unfold in_int, INT_MIN. unfold INT_MAX in *.
    apply andb_true_iff. split; apply Z.leb_le; lia. }
  rewrite E1, E2. cbn [negb].
  destruct (ost_size d <? ost_idx d + len) eqn:Hlt.
  - apply Z.ltb_lt in Hlt.
    assert (E3 : (0 <? ost_size d + len) = true) by (apply Z.ltb_lt; lia).
    rewrite E3, Halloc. cbn [andb].
    eexists. split; [reflexivity |]. cbn.
    split; [reflexivity |]. split; [reflexivity |].
    split; [lia |]. split; [lia |].
    unfold workspace_holds. cbn. rewrite length_resize.
    repeat split; try lia.
    rewrite take_resize_le by lia. rewrite resize_le by lia. exact Ht.
  - apply Z.ltb_ge in Hlt. exists d. split; [reflexivity |].
    repeat split; try lia; try exact Hw; apply Hw.
Qed.

Lemma bind_getter {A B} (a : A) (k : option A -> cmd B) s :
  bind (getter (Ok a)) k s = k (Some a) s.
Proof using Type. reflexivity. Qed.

(** A store through one of the pointers, inside the block. *)
Lemma bind_store {B} off index v d (k : iterator_data -> cmd B) s :
  0 <= off + index < Z.of_nat (length (arr d)) ->
  bind (store (Some off) index v d) k s =
    k (set_arr (<[Z.to_nat (off + index) := Some v]> (arr d)) d) s.
Proof using Type.
  intros Hb. unfold bind. rewrite store_in_bounds by exact Hb. reflexivity.
Qed.

Lemma bind_create_string_value {B} str len (k : rbh_value -> cmd B) s :
  bind (create_string_value c str len) k s =
    k (RBH_VT_STRING (Some str))
      (set_values (_values s ++ [BString str len]) s).
Proof using Hgen.
  destruct Hgen as [_ Hpush].
  unfold create_string_value, rbh_sstack_push, get_state, bind. cbn.
  rewrite Hpush. reflexivity.
Qed.

Ltac pointers :=
  cbn [stripe_count stripe_size pattern flags pool mirror_id begin end_
       comp_index set_arr set_ost set_comp_index].

Ltac in_block E :=
  cbn [arr set_arr]; rewrite ?length_insert; rewrite E; nia.

Lemma fill_iterator_data_completes layout comp d index items s n x :
  ready n x d -> 5 <= x -> 0 <= index < n ->
  workspace_holds d items ->
  readable comp ->
  ost_size d + weight layout comp <= INT_MAX ->
  exists d' s',
    fill_iterator_data c layout comp d index s = Returns (0, d') s' /\
    shape d' = shape d /\ comp_index d' = comp_index d /\
    ost_size d <= ost_size d' <= ost_size d + weight layout comp /\
    workspace_holds d' (items ++ comp_osts layout comp).
Proof using Hgen.
  intros Hready Hx Hi Hw Hread Hmax.
  destruct Hread as ((count & Hcount & Hpos) & (ss & Hss) & (pa & Hpa) &
                     (fl & Hfl) & (po & Hpo) & _ & _ & Hok).
  pose proof Hready as Hr. unfold ready, shape in Hr.
  assert (E : Z.of_nat (length (arr d)) = x * n) by congruence.
  assert (P0 : stripe_count d = Some 0) by congruence.
  assert (P1 : stripe_size d = Some n) by congruence.
  assert (P2 : pattern d = Some (2 * n)) by congruence.
  assert (P3 : flags d = Some (3 * n)) by congruence.
  assert (P4 : pool d = Some (4 * n)) by congruence.
  clear Hr.
  pose proof Hw as (Hl & Hidx & Hsz & _).
  unfold weight in *. unfold comp_osts. rewrite Hcount, Hfl in *.
  unfold fill_iterator_data. rewrite Hcount, Hss, Hpa, Hfl, Hpo.
  rewrite bind_getter, P0, bind_store by in_block E.
  rewrite bind_getter. pointers. rewrite P1, bind_store by in_block E.
  rewrite bind_getter. pointers. rewrite P2, bind_store by in_block E.
  rewrite bind_getter. pointers. rewrite P3, bind_store by in_block E.
  rewrite bind_getter, bind_create_string_value.
  pointers. rewrite P4, bind_store by in_block E.
  cbv zeta.
  destruct ((fl =? LCME_FL_INIT) || negb (llot_is_composite layout));
    cbv iota;
    match goal with
    | |- context [bind (iter_data_ost_try_resize c ?D ?len) ?k ?s1] =>
        set (D0 := D); set (s0 := s1)
    end;
    assert (Hw0 : workspace_holds D0 items) by exact Hw;
    assert (Hshape0 : shape D0 = shape d)
      by (unfold D0, shape; cbn; rewrite !length_insert; reflexivity);
    change (ost_size D0) with (ost_size d) in *.
  - (* instantiated, or a plain layout: room for [count] items *)
    assert (Hint : to_int count = count)
      by (apply to_int_small; unfold INT_MAX in *; lia).
    rewrite Hint.
    destruct (iter_data_ost_try_resize_completes D0 count items s0 Hw0 Hpos)
      as (d1 & E1 & S1 & C1 & Z1 & R1 & W1); [exact Hmax |].
    change (ost_size D0) with (ost_size d) in Z1.
    unfold bind at 1. rewrite E1. cbn [fst snd negb Z.eqb].
    destruct (ost_loop_completes (llc_ost_index comp) count 0 d1 items s0 W1)
      as (d2 & s2 & E2 & S2 & C2 & Z2 & W2); [lia | lia | lia | exact Hok |].
    exists d2, s2. split; [exact E2 |].
    split; [congruence |]. split; [rewrite C2, C1; reflexivity |].
    split; [lia |].
    rewrite Z.sub_0_r in W2. exact W2.
  - (* not instantiated: room for one item *)
    destruct (iter_data_ost_try_resize_completes D0 1 items s0 Hw0)
      as (d1 & E1 & S1 & C1 & Z1 & R1 & W1); [lia | exact Hmax |].
    change (ost_size D0) with (ost_size d) in Z1.
    unfold bind at 1. rewrite E1. cbn [fst snd negb Z.eqb].
    pose proof W1 as (Hl1 & Hi1 & Hs1 & _).
    assert (Ha : ost_append (create_uint64_value (-1)) d1 s0 =
                 Returns (set_ost (<[Z.to_nat (ost_idx d1) :=
                                      Some (create_uint64_value (-1))]> (ost d1))
                            (ost_size d1) (ost_idx d1 + 1) d1) s0)
      by (apply ost_append_in_bounds; unfold INT_MAX in *; lia).
    unfold bind at 1. rewrite Ha. unfold ret.
    eexists _, _. split; [reflexivity |].
    split; [rewrite <- Hshape0, <- S1; reflexivity |].
    split; [exact C1 |].
    split; [cbn; lia |].
    eapply (workspace_holds_append (-1) d1 items s0); [exact W1 | exact Ha].
Qed.

Lemma ready_same n x d d' : shape d' = shape d -> ready n x d -> ready n x d'.
Proof using Type. unfold ready. intros ->. auto. Qed.

Lemma xattrs_layout_iterator_completes layout comp d items s n :
  ready n 8 d -> 0 <= comp_index d < n -> n <= INT_MAX ->
  workspace_holds d items ->
  readable comp ->
  ost_size d + weight layout comp <= INT_MAX ->
  exists d' s',
    xattrs_layout_iterator c layout comp d s = Returns (0, d') s' /\
    ready n 8 d' /\ comp_index d' = comp_index d + 1 /\
    ost_size d <= ost_size d' <= ost_size d + weight layout comp /\
    workspace_holds d' (items ++ comp_osts layout comp).
Proof using Hgen.
  intros Hready Hi Hn Hw Hread Hmax.
  destruct (fill_iterator_data_completes layout comp d (comp_index d) items s
              n 8 Hready ltac:(lia) Hi Hw Hread Hmax)
    as (d1 & s1 & E1 & S1 & C1 & Z1 & W1).
  destruct Hread as (_ & _ & _ & _ & _ & ((b & e) & Hex) & (m & Hm) & _).
  pose proof (ready_same n 8 d d1 S1 Hready) as Hr. unfold ready, shape in Hr.
  cbn [Z.leb Z.compare Pos.compare Pos.compare_cont] in Hr.
  assert (E : Z.of_nat (length (arr d1)) = 8 * n) by congruence.
  assert (P5 : mirror_id d1 = Some (5 * n)) by congruence.
  assert (P6 : begin d1 = Some (6 * n)) by congruence.
  assert (P7 : end_ d1 = Some (7 * n)) by congruence.
  unfold xattrs_layout_iterator. unfold bind at 1. rewrite E1.
  cbn [fst snd negb Z.eqb]. cbv zeta.
  rewrite Hex, bind_getter. cbn [fst snd].
  rewrite P6, bind_store by in_block E.
  pointers. rewrite P7, bind_store by in_block E.
  rewrite Hm, bind_getter.
  pointers. rewrite P5, bind_store by in_block E.
  pointers.
  assert (Hint : in_int (comp_index d1 + 1) = true).
  { unfold in_int, INT_MIN. unfold INT_MAX in *.
    apply andb_true_iff. split; apply Z.leb_le; lia. }
  rewrite Hint. unfold ret. eexists _, _. split; [reflexivity |].
  split.
  { unfold ready. rewrite <- Hready, <- S1. unfold shape. cbn.
    rewrite !length_insert. reflexivity. }
  split; [cbn; rewrite C1; reflexivity |].
  split; [exact Z1 | exact W1].
Qed.

Lemma weight_nonneg layout comp : readable comp -> 0 <= weight layout comp.
Proof using Type.
  intros ((count & Hc & Hpos) & _ & _ & (fl & Hfl) & _).
  unfold weight. rewrite Hc, Hfl.
  destruct ((fl =? LCME_FL_INIT) || negb (llot_is_composite layout)); lia.
Qed.

Lemma weights_nonneg layout comps :
  Forall readable comps -> 0 <= weights layout comps.
Proof using Type.
  induction 1 as [| comp rest Hr _ IH]; cbn [weights fold_right]; [lia |].
  pose proof (weight_nonneg layout comp Hr).
  change (fold_right (fun comp0 n => weight layout comp0 + n) 0 rest)
    with (weights layout rest).
  lia.
Qed.

Lemma comp_iterate_completes layout n : forall comps d items s,
  ready n 8 d -> 0 <= comp_index d ->
  comp_index d + Z.of_nat (length comps) <= n -> n <= INT_MAX ->
  workspace_holds d items ->
  Forall readable comps ->
  ost_size d + weights layout comps <= INT_MAX ->
  exists d' s',
    comp_iterate (xattrs_layout_iterator c layout) comps d s
      = Returns (0, d') s' /\
    ready n 8 d' /\
    comp_index d' = comp_index d + Z.of_nat (length comps) /\
    workspace_holds d' (items ++ concat (map (comp_osts layout) comps)).
Proof using Hgen.
  induction comps as [| comp rest IH];
    intros d items s Hready Hi Hlen Hn Hw Hread Hmax.
  - exists d, s. cbn. rewrite app_nil_r, Z.add_0_r. auto.
  - apply Forall_cons in Hread as [Hcomp Hrest].
    pose proof (weight_nonneg layout comp Hcomp) as Hpos.
    pose proof (weights_nonneg layout rest Hrest) as Hposs.
    change (weights layout (comp :: rest))
      with (weight layout comp + weights layout rest) in Hmax.
    cbn [length] in Hlen.
    destruct (xattrs_layout_iterator_completes layout comp d items s n)
      as (d1 & s1 & E1 & R1 & C1 & Z1 & W1); try assumption; try lia.
    destruct (IH d1 (items ++ comp_osts layout comp) s1)
      as (d2 & s2 & E2 & R2 & C2 & W2); try assumption; try lia.
    exists d2, s2. cbn [comp_iterate]. unfold bind at 1. rewrite E1.
    cbn [fst snd Z.eqb]. split; [exact E2 |].
    split; [exact R2 |]. split; [cbn [length]; lia |].
    cbn [map concat]. rewrite app_assoc. exact W2.
Qed.

Lemma init_iterator_data_completes len x s :
  0 <= len -> x = 5 \/ x = 8 -> 8 * len < 2 ^ 32 ->
  exists d,
    init_iterator_data c iterator_data_zero len x s = Returns (0, d) s /\
    ready len x d /\ comp_index d = 0 /\ ost_size d = len /\
    workspace_holds d [].
Proof using Hgen.
  intros Hlen Hx Hsmall. destruct Hgen as [Halloc _].
  assert (U : forall k, 0 <= k <= 8 -> to_uint32 (k * len) = k * len)
    by (intros k Hk; unfold to_uint32; apply Z.mod_small; nia).
  assert (I : to_int len = len)
    by (apply to_int_small; unfold INT_MAX; lia).
  unfold init_iterator_data. cbv zeta. rewrite !Halloc. cbn [negb].
  unfold ret. eexists. split; [reflexivity |].
  split.
  { unfold ready, shape. cbn.
    rewrite length_replicate, !U by lia.
    destruct Hx as [-> | ->]; cbn; rewrite ?U by lia;
      rewrite Z2Nat.id, Z.mul_1_l by lia; reflexivity. }
  split; [reflexivity |]. split; [exact I |].
  unfold workspace_holds. cbn. rewrite length_replicate, I.
  repeat split; lia.
Qed.

Lemma fill_sequence_pair_completes k cells s :
  exists s',
    fill_sequence_pair c k cells s
      = Returns (0, [{| key := k; value := Some (RBH_VT_SEQUENCE cells) |}]) s'.
Proof using Hgen.
  destruct Hgen as [_ Hpush].
  unfold fill_sequence_pair, fill_pair, rbh_sstack_push, get_state, bind.
  cbn. repeat (rewrite Hpush; cbn). eexists. reflexivity.
Qed.

Lemma cells_at_in_bounds d off count s :
  0 <= count -> off + count <= Z.of_nat (length (arr d)) ->
  cells_at d (Some off) count s
    = Returns (take (Z.to_nat count) (drop (Z.to_nat off) (arr d))) s.
Proof using Type.
  intros H1 H2. unfold cells_at.
  assert (E : (0 <=? count) && (off + count <=? Z.of_nat (length (arr d)))
              = true)
    by (apply andb_true_iff; split; apply Z.leb_le; lia).
  rewrite E. reflexivity.
Qed.

Lemma fill_layout_loop_completes d n x :
  Z.of_nat (length (arr d)) = x * n -> 0 <= comp_index d <= n ->
  forall entries subcount out s,
    Forall (fun e => exists k, snd e = Some (k * n) /\ 0 <= k < x) entries ->
    exists r s',
      fill_layout_loop c d entries subcount out s = Returns (true, r) s' /\
      fst r = subcount + Z.of_nat (length entries).
Proof using Hgen.
  intros E Hi. induction entries as [| [k base] rest IH];
    intros subcount out s Hall.
  - eexists _, _. cbn. split; [reflexivity |]. cbn. lia.
  - apply Forall_cons in Hall as [(j & Hj & Hb) Hrest]. cbn [snd] in Hj.
    subst base. cbn [fill_layout_loop].
    unfold bind at 1. rewrite cells_at_in_bounds by nia.
    match goal with
    | |- context [fill_sequence_pair c k ?cells] =>
        destruct (fill_sequence_pair_completes k cells s) as (s1 & E1)
    end.
    unfold bind at 1. rewrite E1. cbn [fst snd negb Z.eqb].
    destruct (IH (subcount + 1)
                (out ++ [{| key := k;
                            value := Some (RBH_VT_SEQUENCE
                              (take (Z.to_nat (comp_index d))
                                 (drop (Z.to_nat (j * n)) (arr d)))) |}])
                s1 Hrest) as (r & s2 & E2 & F2).
    exists r, s2. split; [exact E2 |]. cbn [length]. lia.
Qed.

Lemma xattrs_fill_layout_completes d n x items s :
  ready n x d -> x = 5 \/ x = 8 -> 0 <= comp_index d <= n ->
  workspace_holds d items ->
  exists f s', xattrs_fill_layout c d x s = Returns f s' /\ fst f = x + 1.
Proof using Hgen.
  intros Hready Hx Hi (Hl & Hidx & Hsz & _).
  pose proof Hready as Hr. unfold ready, shape in Hr.
  assert (E : Z.of_nat (length (arr d)) = x * n) by congruence.
  unfold xattrs_fill_layout. cbv zeta.
  match goal with
  | |- context [fill_layout_loop c d ?entries 0 []] =>
      destruct (fill_layout_loop_completes d n x E Hi entries 0 [] s)
        as (r & s1 & E1 & F1)
  end.
  { destruct Hx as [-> | ->]; cbn in Hr; simplify_eq Hr;
      intros _ P0 P1 P2 P3 P4 P5 P6 P7;
      rewrite P0, P1, P2, P3, P4, ?P5, ?P6, ?P7;
      cbn [take firstn Z.to_nat Pos.to_nat Pos.iter_op Init.Nat.add];
      repeat constructor; cbn [snd];
      [exists 0 | exists 1 | exists 2 | exists 3 | exists 4
       | exists 0 | exists 1 | exists 2 | exists 3 | exists 4
       | exists 5 | exists 6 | exists 7];
      (split; [f_equal; lia | lia]). }
  unfold bind at 1. rewrite E1. cbn [fst snd negb].
  assert (Ho : ost_cells d s1 = Returns (take (Z.to_nat (ost_idx d)) (ost d)) s1).
  { unfold ost_cells.
    assert (B : (0 <=? ost_idx d) && (ost_idx d <=? Z.of_nat (length (ost d)))
                = true)
      by (apply andb_true_iff; split; apply Z.leb_le; lia).
    rewrite B. reflexivity. }
  unfold bind at 1. rewrite Ho.
  destruct (fill_sequence_pair_completes "ost"
              (take (Z.to_nat (ost_idx d)) (ost d)) s1) as (s2 & E2).
  unfold bind at 1. rewrite E2. cbn [fst snd negb Z.eqb].
  eexists _, _. split; [reflexivity |]. cbn [fst].
  rewrite F1. destruct Hx as [-> | ->]; reflexivity.
Qed.

(** With memory and arena to spare, components liblustre answers for,
    a block large enough for them and OST counts that fit in an [int],
    the workspace is filled and every pair is written. *)
Lemma layout_components_completes layout nb_comp x subcount out s :
  llot_comps layout <> [] ->
  Forall readable (llot_comps layout) ->
  (if llot_is_composite layout
   then x = 8 /\ Z.of_nat (length (llot_comps layout)) <= nb_comp
   else x = 5 /\ nb_comp = 1) ->
  8 * nb_comp < 2 ^ 32 ->
  nb_comp + weights layout (llot_comps layout) <= INT_MAX ->
  exists r s',
    layout_components c layout nb_comp x subcount out s = Returns r s' /\
    fst r = subcount + x + 1.
Proof using Hgen.
  intros Hne Hread Hx Hsmall Hmax.
  assert (Hnb : 0 <= nb_comp /\ (x = 5 \/ x = 8))
    by (destruct (llot_is_composite layout); lia).
  destruct Hnb as [Hnb Hx'].
  destruct (init_iterator_data_completes nb_comp x s Hnb Hx' Hsmall)
    as (d0 & E0 & R0 & C0 & Z0 & W0).
  unfold layout_components. unfold bind at 1. rewrite E0.
  cbn [fst snd negb Z.eqb].
  match goal with
  | |- context [bind ?every_component _ s] =>
      assert (Hfill : exists d1 s1 items,
        every_component s = Returns (0, d1) s1 /\
        ready nb_comp x d1 /\ 0 <= comp_index d1 <= nb_comp /\
        workspace_holds d1 items)
  end.
  { destruct (llot_is_composite layout).
    - destruct Hx as [-> Hlen].
      destruct (comp_iterate_completes layout nb_comp (llot_comps layout)
                  d0 [] s) as (d1 & s1 & E1 & R1 & C1 & W1);
        try assumption; try (unfold INT_MAX in *; lia).
      exists d1, s1, ([] ++ concat (map (comp_osts layout) (llot_comps layout))).
      unfold llapi_layout_comp_iterate.
      destruct (llot_comps layout) as [| comp rest] eqn:Hc; [congruence |].
      split; [exact E1 |]. split; [exact R1 |]. split; [lia | exact W1].
    - destruct Hx as [-> ->].
      unfold current_comp.
      destruct (llot_comps layout) as [| comp rest] eqn:Hc; [congruence |].
      apply Forall_cons in Hread as [Hcomp Hrest].
      pose proof (weights_nonneg layout rest Hrest) as Hposs.
      change (weights layout (comp :: rest))
        with (weight layout comp + weights layout rest) in Hmax.
      destruct (fill_iterator_data_completes layout comp d0 0 [] s 1 5)
        as (d1 & s1 & E1 & S1 & C1 & Z1 & W1); try assumption; try lia.
      exists d1, s1, ([] ++ comp_osts layout comp).
      split; [exact E1 |]. split; [exact (ready_same 1 5 d0 d1 S1 R0) |].
      split; [lia | exact W1]. }
  destruct Hfill as (d1 & s1 & items & E1 & R1 & C1 & W1).
  unfold bind at 1. rewrite E1. cbn [fst snd negb Z.eqb].
  destruct (xattrs_fill_layout_completes d1 nb_comp x items s1 R1 Hx' C1 W1)
    as (f & s2 & Ef & Ff).
  unfold bind at 1. rewrite Ef.
  assert (Hlt : (fst f <? 0) = false) by (apply Z.ltb_ge; lia).
  rewrite Hlt, Ff. eexists _, _. split; [reflexivity |]. cbn. lia.
Qed.

Lemma fill_pair_completes k v s :
  fill_pair c k v s
    = Returns (0, [{| key := k; value := Some v |}])
        (set_values (_values s ++ [BValue v]) s).
Proof using Hgen.
  destruct Hgen as [_ Hpush].
  unfold fill_pair, rbh_sstack_push, get_state, bind.
  cbn. rewrite Hpush. reflexivity.
Qed.

Lemma fill_string_pair_completes k str len s :
  exists s',
    fill_string_pair c k str len s
      = Returns (0, [{| key := k; value := Some (RBH_VT_STRING (Some str)) |}])
          s'.
Proof using Hgen.
  destruct Hgen as [_ Hpush].
  unfold fill_string_pair, fill_pair, rbh_sstack_push, get_state, bind.
  cbn. repeat (rewrite Hpush; cbn). eexists. reflexivity.
Qed.

Lemma xattrs_get_magic_and_gen_completes fd lov name s :
  fgetxattr_lov c fd = Ok lov -> magic_name (lmm_magic lov) = Some name ->
  exists r s', xattrs_get_magic_and_gen c fd s = Returns r s' /\ fst r = 2.
Proof using Hgen.
  intros Hlov Hname. unfold xattrs_get_magic_and_gen.
  unfold bind at 1, log, update_state. rewrite Hlov, bind_getter, Hname.
  match goal with
  | |- context [bind (fill_string_pair c ?k ?str ?len) _ ?s1] =>
      destruct (fill_string_pair_completes k str len s1) as (s2 & E2)
  end.
  unfold bind at 1. rewrite E2. cbn [fst snd negb Z.eqb].
  unfold fill_uint32_pair, bind at 1. rewrite fill_pair_completes.
  cbn [fst snd negb Z.eqb].
  eexists _, _. split; reflexivity.
Qed.

End Progress.

(** [xattrs_get_layout] goes through, and writes pairs, when nothing it
    relies on fails. *)
Lemma xattrs_get_layout_completes c fd s layout :
  is_symlink s = false ->
  llapi_layout_get_by_fd c fd = Ok layout ->
  extractable c fd s layout ->
  exists r s', xattrs_get_layout c fd s = Returns r s' /\ 0 < fst r.
Proof.
  intros Hsym Hl (Hgen & (fl & Hfl) & Hlov & Hne & Hread & Hcomp).
  unfold xattrs_get_layout.
  unfold bind at 1, get_state. rewrite Hsym.
  unfold bind at 1, log, update_state. rewrite Hl, bind_getter, Hfl, bind_getter.
  unfold fill_uint32_pair at 1. unfold bind at 1.
  rewrite (fill_pair_completes c Hgen). cbn [fst snd negb Z.eqb].
  unfold bind at 1, get_state.
  match goal with
  | |- context [bind ?magic_and_gen _ ?s2] =>
      assert (Hm : exists m s3, magic_and_gen s2 = Returns m s3 /\ 0 <= fst m)
  end.
  { cbn [is_reg set_values]. destruct (is_reg s).
    - destruct (Hlov eq_refl) as (lov & name & Hx & Hname).
      edestruct (xattrs_get_magic_and_gen_completes c Hgen fd lov name)
        as (m & s3 & E3 & F3); [exact Hx | exact Hname |].
      exists m, s3. split; [exact E3 | lia].
    - eexists _, _. split; [reflexivity |]. cbn. lia. }
  destruct Hm as (m & s3 & E3 & F3).
  unfold bind at 1. rewrite E3.
  assert (Hlt : (fst m <? 0) = false) by (apply Z.ltb_ge; lia).
  rewrite Hlt. cbv zeta.
  destruct (llot_is_composite layout) eqn:Hc.
  - destruct Hcomp as ((mc & Hmc) & comp & id & Hlast & Hid & Hlen & Hsmall
                       & Hmax).
    rewrite Hmc, bind_getter.
    unfold fill_uint32_pair at 1. unfold bind at 1.
    rewrite (fill_pair_completes c Hgen). cbn [fst snd negb Z.eqb].
    unfold bind at 1, layout_get_nb_comp. rewrite Hlast, Hid, bind_getter.
    unfold ret at 1. cbn [fst snd negb Z.eqb].
    assert (U : to_uint32 id = id)
      by (unfold to_uint32; apply Z.mod_small; lia).
    rewrite U.
    match goal with
    | |- context [layout_components c layout id ?x ?subcount ?out ?s4] =>
        destruct (layout_components_completes c Hgen layout id x subcount
                    out s4) as (r & s5 & E5 & F5);
          [exact Hne | exact Hread | rewrite Hc; split; [reflexivity | exact Hlen]
          | exact Hsmall | exact Hmax |]
    end.
    exists r, s5. split; [exact E5 | lia].
  - match goal with
    | |- context [layout_components c layout 1 5 ?subcount ?out ?s4] =>
        destruct (layout_components_completes c Hgen layout 1 5 subcount
                    out s4) as (r & s5 & E5 & F5);
          [exact Hne | exact Hread | rewrite Hc; split; reflexivity
          | lia | exact Hcomp |]
    end.
    exists r, s5. split; [exact E5 | lia].
Qed.

Lemma comp_readable id n fl osts :
  0 <= n -> readable (LustreExamples.comp id n fl osts).
Proof.
  intros Hn. unfold readable, LustreExamples.comp. cbn.
  repeat split; eauto.
  induction osts as [| o osts IH]; cbn; constructor; [| exact IH].
  intros e He. discriminate He.
Qed.

(** C5.  For an entry that is not a symbolic link and whose layout has
    sound component ids: when nothing the extractor relies on fails, the
    extraction of the layout succeeds; and every successful extraction
    ends with the pair "ost", a sequence pushed once on the arena that
    holds exactly the OST indices discovered for the layout, as many cells
    as items, in the order of discovery. *)
Theorem ost_sequence_is_exact
    (c : collaborators) (fd : Z) (s : state) (layout : llapi_layout) :
  is_symlink s = false ->
  llapi_layout_get_by_fd c fd = Ok layout ->
  valid_ids layout ->
  let items := layout_osts layout in
  let cells := map (fun i => Some (RBH_VT_UINT64 (to_uint64 i))) items in
  (extractable c fd s layout ->
   exists r s', xattrs_get_layout c fd s = Returns r s' /\ 0 < fst r) /\
  (forall r s',
     xattrs_get_layout c fd s = Returns r s' ->
     fst r <> -1 ->
     (exists before,
        snd r = before ++
          [{| key := "ost"; value := Some (RBH_VT_SEQUENCE cells) |}]) /\
     (exists blocks,
        _values s' =
          blocks ++ [BValues cells; BValue (RBH_VT_SEQUENCE cells)]) /\
     length cells = length items).
Proof.
  intros Hs Hl Hv items cells. split.
  - intros Hext. exact (xattrs_get_layout_completes c fd s layout Hs Hl Hext).
  - intros r s' H Hne.
    apply xattrs_get_layout_Returns in H. destruct H as [Hf | [_ H]];
      [contradiction |].
    destruct (H layout Hs Hl Hv) as [Hb Hblocks].
    split; [exact Hb |]. split; [exact Hblocks |]. apply length_map.
Qed.

Lemma ost_sequence_is_exact_witness :
  exists r s',
    xattrs_get_layout LustreExamples.client 3
      (LustreExamples.entered S_IFREG []) = Returns r s' /\
    0 < fst r /\
    (exists before,
       snd r = before ++
         [{| key := "ost";
             value := Some (RBH_VT_SEQUENCE
                              [Some (RBH_VT_UINT64 3); Some (RBH_VT_UINT64 5);
                               Some (RBH_VT_UINT64 0); Some (RBH_VT_UINT64 1);
                               Some (RBH_VT_UINT64 2); Some (RBH_VT_UINT64 7);
                               Some (RBH_VT_UINT64 18446744073709551615)]) |}]).
Proof.
  assert (Hvalid : valid_ids LustreExamples.pfl_layout).
  { unfold valid_ids. cbn.
    repeat (constructor;
            [intros id E; simplify_eq E; intros <-; unfold LCME_ID_MAX; lia
            |]).
    constructor. }
  assert (Hext : extractable LustreExamples.client 3
                   (LustreExamples.entered S_IFREG [])
                   LustreExamples.pfl_layout).
  { split; [split; intros; reflexivity |].
    split; [exists 0; reflexivity |].
    split; [intros _; eexists _, _; split; reflexivity |].
    split; [intros H; discriminate H |].
    split.
    { repeat (constructor; [apply comp_readable; lia |]). constructor. }
    split; [exists 1; reflexivity |].
    exists (LustreExamples.comp 3 8 0 []), 3.
    split; [reflexivity |]. split; [reflexivity |].
    split; [cbn; lia |]. split; [reflexivity |].
    vm_compute. intros H. discriminate H. }
  pose proof (ost_sequence_is_exact LustreExamples.client 3
                (LustreExamples.entered S_IFREG [])
                LustreExamples.pfl_layout eq_refl eq_refl Hvalid) as H.
  cbv zeta in H. destruct H as [Hrun Hexact].
  destruct (Hrun Hext) as (r & s' & Hr & Hpos).
  exists r, s'. split; [exact Hr |]. split; [exact Hpos |].
  refine (proj1 (Hexact r s' Hr _)). lia.
Defined.

(** Where the type of the entry rules a function out: for an entry that
    is not a regular file [xattrs_get_hsm] writes no pair, returns 0 and
    leaves the state as it is; for a symbolic link so does
    [xattrs_get_layout]; and what the callback returns for a symbolic link
    is what [xattrs_get_fid] alone returned. *)
Lemma ruled_out_by_type
    (c : collaborators) (fd mode : Z) (values : list block) (s : state) :
  let s1 := enter_entry mode values s in
  (S_ISREG mode = false -> xattrs_get_hsm c fd s1 = Returns (0, []) s1) /\
  (S_ISLNK mode = true -> xattrs_get_layout c fd s1 = Returns (0, []) s1) /\
  (S_ISLNK mode = true ->
   forall n out s2,
     xattrs_get_fid c fd s1 = Returns (n, out) s2 ->
     n <> -1 ->
     lustre_ns_xattrs_callback c fd mode values s =
       bind (xattrs_get_retention c) (fun _ => ret (n, out)) s2).
Proof.
  intros s1. split; [| split].
  - intros H. apply xattrs_get_hsm_not_reg. exact H.
  - intros H. apply xattrs_get_layout_symlink. exact H.
  - intros Hl n out s2 Hfid Hn.
    destruct (symlink_is_nothing_else mode Hl) as [Hreg Hdir].
    destruct (xattrs_get_fid_Returns c fd s1 (n, out) s2 Hfid)
      as [(Kd & Kr & Kl & _) _].
    cbn in Kd, Kr, Kl.
    unfold lustre_ns_xattrs_callback.
    unfold bind at 1. unfold update_state. fold s1.
    unfold bind at 1.
    rewrite (runs_xattrs_funcs_loop (xattrs_funcs c) fd s1
               [(n, out); (0, []); (0, []); (0, [])] s2 true).
    + cbn [fst snd negb]. unfold written, total. cbn.
      rewrite app_nil_r.
      replace (0 + (n + (0 + (0 + (0 + 0))))) with n by lia. reflexivity.
    + unfold xattrs_funcs.
      eapply runs_next; [exact Hfid | exact Hn |].
      eapply runs_next;
        [apply xattrs_get_hsm_not_reg; congruence | discriminate |].
      eapply runs_next;
        [apply xattrs_get_layout_symlink; congruence | discriminate |].
      eapply runs_next;
        [apply xattrs_get_mdt_info_symlink; congruence | discriminate |].
      apply runs_done.
Qed.



(** *** The retention pass *)

Arguments strtoul : simpl never.

Lemma isdigit_code b : isdigit b = true -> 48 <= byte_code b <= 57.
Proof.
  unfold isdigit. intros H. apply andb_true_iff in H as [H1 H2].
  apply Z.leb_le in H1. apply Z.leb_le in H2. lia.
Qed.

Lemma digit_is_no_space b : isdigit b = true -> isspace b = false.
Proof.
  intros H. apply isdigit_code in H. unfold isspace.
  apply orb_false_iff. split.
  - apply Z.eqb_neq. lia.
  - apply andb_false_iff. right. apply Z.leb_gt. lia.
Qed.

Lemma span_digits data rest :
  Forall (fun b => isdigit b = true) data ->
  span isdigit (data ++ x00 :: rest) = data.
Proof.
  induction 1 as [| b data Hb _ IH]; cbn.
  - reflexivity.
  - rewrite Hb, IH. reflexivity.
Qed.

Lemma decimal_from acc ds :
  Forall (fun b => isdigit b = true) ds ->
  0 <= acc ->
  0 <= fold_left (fun a d => 10 * a + (byte_code d - 48)) ds acc.
Proof.
  intros H. revert acc.
  induction H as [| b ds Hb _ IH]; intros acc Ha; cbn.
  - exact Ha.
  - apply IH. apply isdigit_code in Hb. lia.
Qed.

Lemma decimal_nonneg ds :
  Forall (fun b => isdigit b = true) ds -> 0 <= decimal ds.
Proof. intros H. apply decimal_from; [exact H | lia]. Qed.

(** A non-empty string of digits whose number fits is converted whole. *)
Lemma strtoul_digits data :
  data <> [] ->
  Forall (fun b => isdigit b = true) data ->
  decimal data <= ULONG_MAX ->
  strtoul (data ++ [x00]) = (decimal data, length data, false).
Proof.
  intros Hne Hd Hmax. destruct data as [| b data]; [contradiction |].
  pose proof (Forall_inv Hd) as Hb.
  unfold strtoul.
  assert (Hsp : span isspace ((b :: data) ++ [x00]) = []).
  { cbn. rewrite (digit_is_no_space b Hb). reflexivity. }
  rewrite Hsp. cbn [length skipn app].
  pose proof (isdigit_code b Hb) as Hcode.
  assert (E1 : (byte_code b =? 45) = false) by (apply Z.eqb_neq; lia).
  assert (E2 : (byte_code b =? 43) = false) by (apply Z.eqb_neq; lia).
  rewrite E1, E2. cbn [fst snd skipn].
  change (b :: data ++ [x00]) with ((b :: data) ++ [x00]).
  rewrite span_digits by exact Hd.
  assert (Hle : (ULONG_MAX <? decimal (b :: data)) = false)
    by (apply Z.ltb_ge; exact Hmax).
  rewrite Hle. reflexivity.
Qed.

Section Retention.

Variable c : collaborators.

Lemma retention_loop_passes before : forall acc rest,
  Forall passed_over before ->
  retention_loop c acc (before ++ rest) = retention_loop c (acc ++ before) rest.
Proof.
  induction before as [| p before IH]; intros acc rest H.
  - cbn. rewrite app_nil_r. reflexivity.
  - pose proof (Forall_inv H) as Hp. pose proof (Forall_inv_tail H) as Ht.
    cbn [app retention_loop].
    replace (acc ++ p :: before) with ((acc ++ [p]) ++ before)
      by (rewrite <- app_assoc; reflexivity).
    destruct (String.eqb (key p) XATTR_CCC_EXPIRES_AT) eqn:E; cbn [negb].
    + destruct Hp as [Hk | (data & Hv & Hlen)].
      * apply String.eqb_eq in E. contradiction.
      * rewrite Hv. apply Z.leb_le in Hlen. rewrite Hlen. apply IH, Ht.
    + apply IH, Ht.
Qed.

(** What the pass does on the first pair it does not step over. *)
Lemma retention_at_candidate s before data after :
  _inode_xattrs s = before ++ expires_at (Some (RBH_VT_BINARY data)) :: after ->
  Forall passed_over before ->
  Z.of_nat (length data) < UINT64_MAX_STR_LEN ->
  xattrs_get_retention c s =
    retention_loop c before
      (expires_at (Some (RBH_VT_BINARY data)) :: after) s.
Proof.
  intros Hx Hb Hl. unfold xattrs_get_retention, bind, get_state.
  rewrite Hx, (retention_loop_passes before [] _ Hb). reflexivity.
Qed.

Lemma retention_candidate_step s before data after :
  Z.of_nat (length data) < UINT64_MAX_STR_LEN ->
  retention_loop c before
    (expires_at (Some (RBH_VT_BINARY data)) :: after) s =
  (let r := strtoul (data ++ [x00]) in
   bind (if snd r then set_errno ERANGE else ret tt) (fun _ =>
   bind get_errno (fun e =>
     if negb (e =? 0)
        || ((fst (fst r) =? 0) && Nat.eqb (snd (fst r)) 0)
        || negb (byte_code (nth (snd (fst r)) (data ++ [x00]) x00) =? 0)
     then ret tt
     else
       bind (fill_uint64_pair c XATTR_CCC_EXPIRES_AT (fst (fst r)))
         (fun new_pair =>
            set_inode_xattrs (before ++ snd new_pair ++ after))))) s.
Proof.
  intros Hl. cbn [retention_loop expires_at key value].
  rewrite String.eqb_refl. cbn [negb].
  apply Z.leb_gt in Hl. rewrite Hl. reflexivity.
Qed.

End Retention.

(** Without a pair to look at, the pass changes nothing. *)
Lemma retention_without_candidate (c : collaborators) (s : state) :
  Forall passed_over (_inode_xattrs s) ->
  xattrs_get_retention c s = Returns tt s.
Proof.
  intros H. unfold xattrs_get_retention, bind, get_state.
  rewrite <- (app_nil_r (_inode_xattrs s)) at 1.
  rewrite (retention_loop_passes c (_inode_xattrs s) [] [] H). reflexivity.
Qed.

(** [errno] is not reset before [strtoul]: a value left by an earlier call
    keeps the pass from rewriting a number that parses.  On the directory
    of the examples it is the ENODATA of the ioctl. *)
Remark retention_after_enodata :
  exists r s',
    lustre_ns_xattrs_callback LustreExamples.client 4 S_IFDIR []
      (LustreExamples.s0 [LustreExamples.expires_pair "1700000000"])
      = Returns r s' /\
    errno s' = ENODATA /\
    _inode_xattrs s' = [LustreExamples.expires_pair "1700000000"].
Proof.
  eexists _, _. split; [vm_compute; reflexivity |]. split; reflexivity.
Qed.

(** The result of [fill_uint64_pair] is not tested either: when the arena
    refuses the value the pair is replaced by one whose value is NULL. *)
Remark retention_with_full_arena (c : collaborators) (s : state) e :
  _inode_xattrs s = [LustreExamples.expires_pair "7"] ->
  errno s = 0 ->
  sstack_try c (_values s) (BValue (RBH_VT_UINT64 7)) = Err e ->
  exists s',
    xattrs_get_retention c s = Returns tt s' /\
    _inode_xattrs s' = [expires_at None].
Proof.
  intros Hx He Hpush.
  unfold xattrs_get_retention, bind at 1, get_state. rewrite Hx.
  change (LustreExamples.expires_pair "7")
    with (expires_at (Some (RBH_VT_BINARY [x37]))).
  rewrite (retention_candidate_step c s [] [x37] []);
    [| cbn; unfold UINT64_MAX_STR_LEN; lia].
  change (strtoul ([x37] ++ [x00])) with (7, 1%nat, false).
  cbv zeta. cbn [fst snd].
  unfold bind at 1. unfold ret at 1. unfold bind at 1. unfold get_errno.
  rewrite He. cbn [Z.eqb negb orb andb Nat.eqb].
  change (negb (byte_code (nth 1 ([x37] ++ [x00]) x00) =? 0)) with false.
  cbv iota.
  unfold fill_uint64_pair, fill_pair, rbh_sstack_push, get_state, bind.
  cbn. change (to_uint64 7) with 7. rewrite Hpush. cbn.
  eexists. split; reflexivity.
Qed.

(** Nor is the push of the pool name in [create_string_value]: the
    string of the value is then NULL and no error is reported. *)
Remark pool_name_with_full_arena (c : collaborators) (s : state) str len e :
  sstack_try c (_values s) (BString str len) = Err e ->
  exists s',
    create_string_value c str len s = Returns (RBH_VT_STRING None) s' /\
    _values s' = _values s.
Proof.
  intros H.
  unfold create_string_value, rbh_sstack_push, get_state, bind. cbn.
  rewrite H. cbn. eexists. split; reflexivity.
Qed.

(** C9, as amended.  The retention pass looks at one pair only, the
    first one whose key is "user.ccc_expires_at" and whose binary value has
    fewer than 22 bytes: whatever happens the pairs before and after it are
    unchanged and it keeps its key.  When the value is a non-empty string
    of decimal digits that denotes a number of at most 2^64 - 1 (and [errno]
    is 0 on entry and the arena takes the new value), the pair becomes
    that number as a UInt64.  When [strtoul] does not convert the value
    as a whole, or the number is out of range, the list is unchanged. *)
Theorem retention_rewrites_one_pair
    (c : collaborators) (s : state) (before after : list rbh_value_pair)
    (data : list byte) :
  _inode_xattrs s = before ++ expires_at (Some (RBH_VT_BINARY data)) :: after ->
  Forall passed_over before ->
  Z.of_nat (length data) < UINT64_MAX_STR_LEN ->
  (exists s' v,
     xattrs_get_retention c s = Returns tt s' /\
     _inode_xattrs s' = before ++ expires_at v :: after)
  /\
  (data <> [] ->
   Forall (fun b => isdigit b = true) data ->
   decimal data <= ULONG_MAX ->
   errno s = 0 ->
   sstack_try c (_values s) (BValue (RBH_VT_UINT64 (decimal data))) = Ok tt ->
   exists s',
     xattrs_get_retention c s = Returns tt s' /\
     _inode_xattrs s' =
       before ++ expires_at (Some (RBH_VT_UINT64 (decimal data))) :: after)
  /\
  (unparsed data ->
   exists s',
     xattrs_get_retention c s = Returns tt s' /\
     _inode_xattrs s' = _inode_xattrs s).
Proof.
  intros Hx Hb Hl.
  rewrite (retention_at_candidate c s before data after Hx Hb Hl).
  rewrite (retention_candidate_step c s before data after Hl).
  cbv zeta. split; [| split].
  - (* the frame *)
    destruct (strtoul (data ++ [x00])) as [[result end_off] range].
    cbn [fst snd]. unfold bind at 1.
    destruct range; cbn [set_errno update_state ret].
    + (* ERANGE: errno is not 0 *)
      unfold bind, get_errno. cbn.
      eexists _, _. split; [reflexivity |]. cbn. exact Hx.
    + unfold bind at 1. unfold get_errno.
      match goal with
      | |- context [if ?b then _ else _] => destruct b
      end.
      * eexists _, _. split; [reflexivity |]. exact Hx.
      * unfold fill_uint64_pair, fill_pair, rbh_sstack_push, get_state, bind.
        cbn.
        match goal with
        | |- context [sstack_try c ?a ?b] => destruct (sstack_try c a b)
        end;
          cbn; eexists _, _; (split; [reflexivity |]); reflexivity.
  - (* a decimal number that fits *)
    intros Hne Hd Hmax He Hpush.
    rewrite (strtoul_digits data Hne Hd Hmax). cbn [fst snd].
    unfold bind at 1. unfold ret at 1. unfold bind at 1. unfold get_errno.
    rewrite He. cbn [Z.eqb negb orb].
    assert (E1 : Nat.eqb (length data) 0 = false).
    { destruct data; [contradiction | reflexivity]. }
    assert (E2 : nth (length data) (data ++ [x00]) x00 = x00).
    { rewrite app_nth2 by lia. rewrite Nat.sub_diag. reflexivity. }
    rewrite E1, E2, andb_false_r. cbn [orb negb byte_code].
    change (Z.of_N (Byte.to_N x00) =? 0) with true. cbn [negb].
    assert (E3 : to_uint64 (decimal data) = decimal data).
    { unfold to_uint64. apply Z.mod_small.
      pose proof (decimal_nonneg data Hd). unfold ULONG_MAX in Hmax. lia. }
    unfold fill_uint64_pair, fill_pair, rbh_sstack_push, get_state, bind.
    cbn. rewrite E3, Hpush. cbn.
    eexists. split; reflexivity.
  - (* nothing converted, bytes left over, or out of range *)
    intros Hu. unfold unparsed in Hu. cbv zeta in Hu.
    destruct (strtoul (data ++ [x00])) as [[result end_off] range].
    cbn [fst snd] in *. unfold bind at 1.
    destruct range; cbn [set_errno update_state ret].
    + unfold bind, get_errno. cbn. eexists. split; reflexivity.
    + unfold bind at 1. unfold get_errno.
      assert (E : ((result =? 0) && Nat.eqb end_off 0)
                  || negb (byte_code (nth end_off (data ++ [x00]) x00) =? 0)
                  = true).
      { destruct Hu as [Hr | [[Hz He] | Hn]]; [discriminate | |].
        - rewrite Hz, He. reflexivity.
        - apply Z.eqb_neq in Hn. rewrite Hn. apply orb_true_r. }
      rewrite <- orb_assoc, E, orb_true_r.
      eexists. split; reflexivity.
Qed.

Lemma retention_rewrites_one_pair_witness :
  exists s',
    xattrs_get_retention LustreExamples.client
      (LustreExamples.s0 [LustreExamples.other_pair;
                          LustreExamples.expires_pair "1700000000"])
      = Returns tt s' /\
    _inode_xattrs s' =
      [LustreExamples.other_pair] ++
      expires_at (Some (RBH_VT_UINT64 1700000000)) :: [].
Proof.
  assert (Hb : Forall passed_over [LustreExamples.other_pair]).
  { constructor; [| constructor]. left. cbn. discriminate. }
  assert (Hd : Forall (fun b => isdigit b = true)
                 (LustreExamples.ascii_bytes "1700000000")).
  { cbn. repeat (constructor; [reflexivity |]). constructor. }
  refine (proj1 (proj2 (retention_rewrites_one_pair LustreExamples.client
            (LustreExamples.s0 [LustreExamples.other_pair;
                                LustreExamples.expires_pair "1700000000"])
            [LustreExamples.other_pair] []
            (LustreExamples.ascii_bytes "1700000000") eq_refl Hb _))
            _ Hd _ eq_refl eq_refl).
  - cbn. unfold UINT64_MAX_STR_LEN. lia.
  - cbn. discriminate.
  - vm_compute. discriminate.
Defined.

(** The claim C9 as it is stated fails: "18446744073709551616" has 20
    bytes, all of them decimal digits, and denotes 2^64; with [errno] at 0
    and room in the arena the pass leaves the pair as it is. *)
Lemma retention_leaves_overflowing_number :
  let data := LustreExamples.ascii_bytes "18446744073709551616" in
  let s := LustreExamples.s0 [LustreExamples.expires_pair
                                "18446744073709551616"] in
  forallb isdigit data = true /\
  Z.of_nat (length data) < UINT64_MAX_STR_LEN /\
  decimal data = 2 ^ 64 /\
  errno s = 0 /\
  exists s',
    xattrs_get_retention LustreExamples.client s = Returns tt s' /\
    _inode_xattrs s' =
      [expires_at (Some (RBH_VT_BINARY data))].
Proof.
  cbv zeta. split; [reflexivity |]. split; [cbn; unfold UINT64_MAX_STR_LEN; lia |].
  split; [reflexivity |]. split; [reflexivity |].
  eexists. split; [vm_compute; reflexivity |]. reflexivity.
Qed.

End LustreProps.

(** ** uri.c: every failure is fatal, and how *)

Module UriErrors.

Import Id Uri UriCases.
Import UriProps.

(** X1.  A successful import of a plug-in is invisible in [errno]: the
    import is entered with [errno] at 0 and, whatever it leaves there,
    [backend_plugin_import] returns with the value [errno] had when it was
    called. *)
Theorem import_leaves_errno_alone
    (c : collaborators) (name : string) (w : world) pl e0 d0 :
  rbh_backend_plugin_import c name 0 = (Some pl, e0, d0) ->
  backend_plugin_import c name w =
    Returns pl {| errno := errno w; dl_pending := d0;
                  calls := calls w ++ [PluginImport name] |}.
Proof.
  intros Hi. step. rewrite Hi. reflexivity.
Qed.

Lemma import_leaves_errno_alone_witness :
  backend_plugin_import unlucky "posix" w7 =
    Returns 1%nat {| errno := 7; dl_pending := None;
                     calls := [PluginImport "posix"] |}.
Proof.
  exact (import_leaves_errno_alone unlucky "posix" w7 1%nat EAGAIN None
           eq_refl).
Defined.

(** X2.  When the plug-in cannot instantiate the backend, the resolution
    ends with [EXIT_FAILURE], the [errno] the plug-in left and the text
    "rbh_backend_plugin_new", with or without an entry path, and no other
    call is made. *)
Theorem plugin_new_failure_is_fatal
    (c : collaborators) (uri : rbh_uri) (path : option string) (w : world)
    pl e0 d0 e1 :
  rbh_backend_plugin_import c (uri_backend uri) 0 = (Some pl, e0, d0) ->
  rbh_backend_plugin_new c pl (uri_fsname uri) (errno w) = (None, e1) ->
  backend_from_uri c uri path w =
    Aborts {| status := EXIT_FAILURE; errnum := e1;
              message := "rbh_backend_plugin_new" |}
      {| errno := e1; dl_pending := d0;
         calls := calls w ++ [PluginImport (uri_backend uri);
                              PluginNew pl (uri_fsname uri)] |}.
Proof.
  intros Hi Hn. step. rewrite Hi. cbn. rewrite Hn. cbn.
  rewrite <- app_assoc. reflexivity.
Qed.

Lemma plugin_new_failure_is_fatal_witness :
  backend_from_uri unlucky offline_uri (Some "/a") w7 =
    Aborts {| status := EXIT_FAILURE; errnum := ENOENT;
              message := "rbh_backend_plugin_new" |}
      {| errno := ENOENT; dl_pending := None;
         calls := [PluginImport "posix"; PluginNew 1%nat "/offline"] |}.
Proof.
  exact (plugin_new_failure_is_fatal unlucky offline_uri (Some "/a") w7
           1%nat EAGAIN None ENOENT eq_refl eq_refl).
Defined.

(** X3.  An entry path that cannot be decoded, or that the backend does
    not resolve, ends the resolution with [EXIT_FAILURE], the [errno] of
    the call that failed and its name; the backend that was instantiated
    is not destroyed: the failing call is the last one made. *)
Theorem path_failures_are_fatal
    (c : collaborators) (uri : rbh_uri) (p : string) (w : world)
    pl e0 d0 b e1 :
  rbh_backend_plugin_import c (uri_backend uri) 0 = (Some pl, e0, d0) ->
  rbh_backend_plugin_new c pl (uri_fsname uri) (errno w) = (Some b, e1) ->
  (forall e2,
     rbh_percent_decode c p e1 = (None, e2) ->
     backend_from_uri c uri (Some p) w =
       Aborts {| status := EXIT_FAILURE; errnum := e2;
                 message := "rbh_percent_decode" |}
         {| errno := e2; dl_pending := d0;
            calls := calls w ++ [PluginImport (uri_backend uri);
                                 PluginNew pl (uri_fsname uri);
                                 PercentDecode p] |})
  /\
  (forall p' e2 e3,
     rbh_percent_decode c p e1 = (Some p', e2) ->
     rbh_backend_fsentry_from_path c b p' (RBH_FP_ID c) 0 e2 = (None, e3) ->
     backend_from_uri c uri (Some p) w =
       Aborts {| status := EXIT_FAILURE; errnum := e3;
                 message := "rbh_backend_fsentry_from_path" |}
         {| errno := e3; dl_pending := d0;
            calls := calls w ++ [PluginImport (uri_backend uri);
                                 PluginNew pl (uri_fsname uri);
                                 PercentDecode p;
                                 FsentryFromPath b p' (RBH_FP_ID c) 0] |}).
Proof.
  intros Hi Hn. split.
  - intros e2 Hd. step. rewrite Hi. cbn. rewrite Hn. cbn. rewrite Hd. cbn.
    rewrite <- !app_assoc. reflexivity.
  - intros p' e2 e3 Hd Hf. step. rewrite Hi. cbn. rewrite Hn. cbn.
    rewrite Hd. cbn. rewrite Hf. cbn.
    rewrite <- !app_assoc. reflexivity.
Qed.

Lemma path_failures_are_fatal_witness :
  backend_from_uri unlucky (mnt_uri {| data := []; size := 0 |})
    (Some "/missing") w7 =
    Aborts {| status := EXIT_FAILURE; errnum := ENOENT;
              message := "rbh_backend_fsentry_from_path" |}
      {| errno := ENOENT; dl_pending := None;
         calls := [PluginImport "posix"; PluginNew 1%nat "/mnt/fs";
                   PercentDecode "/missing";
                   FsentryFromPath 10%nat "/missing" 1 0] |}.
Proof.
  exact (proj2 (path_failures_are_fatal unlucky
                  (mnt_uri {| data := []; size := 0 |}) "/missing" w7
                  1%nat EAGAIN None 10%nat 7 eq_refl eq_refl)
           "/missing" 7 ENOENT eq_refl eq_refl).
Defined.

(** X4.  When the backend cannot be branched, the unbranched backend is
    destroyed all the same, and the resolution then ends with
    [EXIT_FAILURE], the text "rbh_backend_branch" and the [errno] the
    branch left: what [free] and [rbh_backend_destroy] do to [errno] does
    not show. *)
Theorem branch_failure_is_reported_after_destroy
    (c : collaborators) (uri : rbh_uri) (w : world) pl e0 d0 b e1 :
  rbh_backend_plugin_import c (uri_backend uri) 0 = (Some pl, e0, d0) ->
  rbh_backend_plugin_new c pl (uri_fsname uri) (errno w) = (Some b, e1) ->
  (size (uri_id uri) <> 0 ->
   forall e2,
     rbh_backend_branch c b (uri_id uri) e1 = (None, e2) ->
     backend_from_uri c uri None w =
       Aborts {| status := EXIT_FAILURE; errnum := e2;
                 message := "rbh_backend_branch" |}
         {| errno := e2; dl_pending := d0;
            calls := calls w ++ [PluginImport (uri_backend uri);
                                 PluginNew pl (uri_fsname uri);
                                 Branch b (uri_id uri);
                                 Destroy b] |})
  /\
  (forall p p' e2 f e3 e4,
     rbh_percent_decode c p e1 = (Some p', e2) ->
     rbh_backend_fsentry_from_path c b p' (RBH_FP_ID c) 0 e2 = (Some f, e3) ->
     Z.land (fsentry_mask f) (RBH_FP_ID c) <> 0 ->
     rbh_backend_branch c b (fsentry_id f) e3 = (None, e4) ->
     backend_from_uri c uri (Some p) w =
       Aborts {| status := EXIT_FAILURE; errnum := e4;
                 message := "rbh_backend_branch" |}
         {| errno := e4; dl_pending := d0;
            calls := calls w ++ [PluginImport (uri_backend uri);
                                 PluginNew pl (uri_fsname uri);
                                 PercentDecode p;
                                 FsentryFromPath b p' (RBH_FP_ID c) 0;
                                 Branch b (fsentry_id f);
                                 Free;
                                 Destroy b] |}).
Proof.
  intros Hi Hn. split.
  - intros Hs e2 Hb. step. rewrite Hi. cbn. rewrite Hn. cbn.
    apply Z.eqb_neq in Hs. rewrite Hs. cbn. rewrite Hb. cbn.
    rewrite <- !app_assoc. reflexivity.
  - intros p p' e2 f e3 e4 Hd Hf Hm Hb. step. rewrite Hi. cbn.
    rewrite Hn. cbn. rewrite Hd. cbn. rewrite Hf. cbn.
    apply Z.eqb_neq in Hm. rewrite Hm. cbn. rewrite Hb. cbn.
    rewrite <- !app_assoc. reflexivity.
Qed.

Lemma branch_failure_is_reported_after_destroy_witness :
  backend_from_uri unlucky (mnt_uri {| data := []; size := 0 |})
    (Some "/some/dir") w7 =
    Aborts {| status := EXIT_FAILURE; errnum := EINVAL;
              message := "rbh_backend_branch" |}
      {| errno := EINVAL; dl_pending := None;
         calls := [PluginImport "posix"; PluginNew 1%nat "/mnt/fs";
                   PercentDecode "/some/dir";
                   FsentryFromPath 10%nat "/some/dir" 1 0;
                   Branch 10%nat {| data := [x2a]; size := 1 |};
                   Free; Destroy 10%nat] |}.
Proof.
  refine (proj2 (branch_failure_is_reported_after_destroy unlucky
                   (mnt_uri {| data := []; size := 0 |}) w7
                   1%nat EAGAIN None 10%nat 7 eq_refl eq_refl)
            "/some/dir" "/some/dir" 7
            {| fsentry_mask := 1;
               fsentry_id := {| data := [x2a]; size := 1 |} |} 7 EINVAL
            eq_refl eq_refl _ eq_refl).
  cbn. discriminate.
Defined.

(** X5.  A string that is not a URI, or a URI the library cannot
    interpret, ends the resolution with [EXIT_FAILURE], the [errno] of the
    parser and its name, before any plug-in is looked for: the parser is the
    last call made. *)
Theorem parse_failures_are_fatal
    (c : collaborators) (str : string) (w : world) :
  (forall e,
     rbh_parse_raw_uri c str (errno w) = (None, e) ->
     rbh_backend_from_uri c str w =
       Aborts {| status := EXIT_FAILURE; errnum := e;
                 message := "rbh_parse_raw_uri" |}
         {| errno := e; dl_pending := dl_pending w;
            calls := calls w ++ [ParseRawUri str] |})
  /\
  (forall raw e e',
     rbh_parse_raw_uri c str (errno w) = (Some raw, e) ->
     let parsed :=
       if is_entry_path (fragment raw)
       then {| scheme := scheme raw; path := path raw; fragment := None |}
       else raw in
     rbh_parse_uri c parsed e = (None, e') ->
     rbh_backend_from_uri c str w =
       Aborts {| status := EXIT_FAILURE; errnum := e';
                 message := "rbh_parse_uri" |}
         {| errno := e'; dl_pending := dl_pending w;
            calls := calls w ++ [ParseRawUri str; ParseUri parsed] |}).
Proof.
  split.
  - intros e Hp. step. rewrite Hp. reflexivity.
  - intros raw e e' Hp parsed Hu. subst parsed. step. rewrite Hp. cbn.
    destruct (is_entry_path (fragment raw)); step; rewrite Hu; cbn;
      rewrite <- app_assoc; reflexivity.
Qed.

Lemma parse_failures_are_fatal_witness :
  rbh_backend_from_uri unlucky "nfs:///export#/a" w7 =
    Aborts {| status := EXIT_FAILURE; errnum := EINVAL;
              message := "rbh_parse_uri" |}
      {| errno := EINVAL; dl_pending := None;
         calls := [ParseRawUri "nfs:///export#/a";
                   ParseUri {| scheme := "nfs"; path := "/export";
                               fragment := None |}] |}.
Proof.
  exact (proj2 (parse_failures_are_fatal unlucky "nfs:///export#/a" w7)
           {| scheme := "nfs"; path := "/export"; fragment := Some "/a" |}
           7 EINVAL eq_refl eq_refl).
Defined.

(** Commands that end the process with [EXIT_FAILURE] and a known text,
    if they end it. *)
Lemma fatal_ret {A} (a : A) : fatal (ret a).
Proof. intros w d w' H. discriminate H. Qed.

Lemma fatal_get_errno : fatal get_errno.
Proof. intros w d w' H. discriminate H. Qed.

Lemma fatal_set_errno (e : Z) : fatal (set_errno e).
Proof. intros w d w' H. discriminate H. Qed.

Lemma fatal_extern {A} (ev : call) (f : Z -> A * Z) : fatal (extern ev f).
Proof. intros w d w' H. discriminate H. Qed.

Lemma fatal_import_call (c : collaborators) (name : string) :
  fatal (import_call c name).
Proof. intros w d w' H. discriminate H. Qed.

Lemma fatal_dlerror : fatal dlerror.
Proof. intros w d w' H. discriminate H. Qed.

Lemma fatal_error {A} (e : Z) (msg : string) :
  msg ∈ messages -> fatal (@error A EXIT_FAILURE e msg).
Proof.
  intros Hm w d w' H. unfold error, abort in H. simplify_eq H. intros <- _.
  split; [reflexivity | left; exact Hm].
Qed.

Lemma fatal_error_loader {A} (text : option string) :
  fatal (@error A EXIT_FAILURE 0
           ("rbh_backend_plugin_import: " ++ format_s text)).
Proof.
  intros w d w' H. unfold error, abort in H. simplify_eq H. intros <- _.
  split; [reflexivity | right]. split; [reflexivity |]. exists text.
  reflexivity.
Qed.

Lemma fatal_bind {A B} (m : cmd A) (k : A -> cmd B) :
  fatal m -> (forall a, fatal (k a)) -> fatal (bind m k).
Proof.
  intros Hm Hk w d w' H. unfold bind in H.
  destruct (m w) as [a w1 | d1 w1] eqn:E.
  - exact (Hk a w1 d w' H).
  - simplify_eq H. intros <- _. exact (Hm w d1 w1 E).
Qed.

Ltac fatal_tac :=
  repeat first
    [ apply fatal_bind; [| intros ?]
    | apply fatal_ret | apply fatal_get_errno | apply fatal_set_errno
    | apply fatal_extern | apply fatal_import_call | apply fatal_dlerror
    | apply fatal_error_loader
    | apply fatal_error; unfold messages; solve [repeat constructor]
    | match goal with
      | |- fatal (match ?x with _ => _ end) => destruct x
      end ].

Lemma backend_from_uri_fatal
    (c : collaborators) (uri : rbh_uri) (path : option string) :
  fatal (backend_from_uri c uri path).
Proof.
  unfold backend_from_uri, backend_new, backend_plugin_import,
    destroy_and_return.
  fatal_tac.
Qed.

(** X6.  Whatever goes wrong in [rbh_backend_from_uri], the process is
    ended with the status [EXIT_FAILURE] and the name of the library
    function that failed: one of seven texts, or, for an import that left
    [errno] at 0, "rbh_backend_plugin_import: " followed by the text of the
    loader. *)
Theorem every_failure_is_an_exit
    (c : collaborators) (str : string) (w : world) d w' :
  rbh_backend_from_uri c str w = Aborts d w' ->
  status d = EXIT_FAILURE /\
  (message d ∈ messages \/
   (errnum d = 0 /\
    exists text : option string,
      message d = ("rbh_backend_plugin_import: " ++ format_s text)%string)).
Proof.
  assert (H : fatal (rbh_backend_from_uri c str)).
  { unfold rbh_backend_from_uri, backend_from_raw_uri.
    fatal_tac; apply backend_from_uri_fatal. }
  exact (H w d w').
Qed.

Lemma every_failure_is_an_exit_witness :
  status {| status := EXIT_FAILURE; errnum := ENOENT;
            message := "rbh_backend_plugin_new" |} = EXIT_FAILURE /\
  ("rbh_backend_plugin_new" ∈ messages \/
   (ENOENT = 0 /\
    exists text : option string,
      "rbh_backend_plugin_new"
        = ("rbh_backend_plugin_import: " ++ format_s text)%string)).
Proof.
  exact (every_failure_is_an_exit unlucky "posix:///offline" w7
           {| status := EXIT_FAILURE; errnum := ENOENT;
              message := "rbh_backend_plugin_new" |}
           {| errno := ENOENT; dl_pending := None;
              calls := [ParseRawUri "posix:///offline";
                        ParseUri {| scheme := "posix"; path := "/offline";
                                    fragment := None |};
                        PluginImport "posix";
                        PluginNew 1%nat "/offline"] |}
           eq_refl).
Defined.

End UriErrors.

(** ** lustre.c: what each function writes *)

Module LustreWrites.

Import Lustre LustreCases.
Import LustreProps.

Lemma site_is_generous : generous site.
Proof. split; intros; reflexivity. Qed.

(** X7.  [xattrs_get_fid]: when [llapi_fd2fid] fails with [rc], the
    function gives back -1, [errno] is [-rc], and neither a pair nor the
    arena is written; when it succeeds and the arena has room, the function
    gives back 1 and the only pair is "fid", a binary value of the 16 bytes
    of the fid, pushed on the arena before the value that designates
    them. *)
Theorem fid_is_one_binary_pair (c : collaborators) (fd : Z) (s : state) :
  let rc := fst (llapi_fd2fid c fd) in
  let bytes :=
    take (Z.to_nat sizeof_lu_fid) (lu_fid_bytes c (snd (llapi_fd2fid c fd))) in
  (rc <> 0 ->
   xattrs_get_fid c fd s =
     Returns (-1, [])
       {| errno := - rc; _values := _values s; is_dir := is_dir s;
          is_reg := is_reg s; is_symlink := is_symlink s;
          _inode_xattrs := _inode_xattrs s;
          calls := calls s ++ [Fd2fid fd] |})
  /\
  (rc = 0 -> generous c ->
   xattrs_get_fid c fd s =
     Returns (1, [{| key := "fid"; value := Some (RBH_VT_BINARY bytes) |}])
       {| errno := errno s;
          _values := _values s ++ [BBytes bytes; BValue (RBH_VT_BINARY bytes)];
          is_dir := is_dir s; is_reg := is_reg s; is_symlink := is_symlink s;
          _inode_xattrs := _inode_xattrs s;
          calls := calls s ++ [Fd2fid fd] |}).
Proof.
  intros rc bytes. subst rc bytes. split.
  - intros Hrc. apply Z.eqb_neq in Hrc.
    unfold xattrs_get_fid, bind, log, set_errno, update_state, ret.
    rewrite Hrc. reflexivity.
  - intros Hrc [_ Hpush].
    unfold xattrs_get_fid, fill_binary_pair, fill_pair, rbh_sstack_push,
      bind, log, get_state, update_state, ret.
    rewrite Hrc. cbn. rewrite !Hpush. cbn. rewrite <- app_assoc. reflexivity.
Qed.

Lemma fid_is_one_binary_pair_witness :
  xattrs_get_fid site 5 (entry S_IFREG 0 []) =
    Returns (-1, [])
      {| errno := ENOTTY; _values := []; is_dir := false; is_reg := true;
         is_symlink := false; _inode_xattrs := [];
         calls := [Fd2fid 5] |}.
Proof.
  refine (proj1 (fid_is_one_binary_pair site 5 (entry S_IFREG 0 [])) _).
  cbn. discriminate.
Defined.

(** X8.  [xattrs_get_hsm] on a regular file: when
    [llapi_hsm_state_get_fd] fails with [rc] the function gives back -1
    with [errno] at [-rc] and writes nothing; when it succeeds and the
    arena has room the function gives back 2 and the pairs are "hsm_state"
    and "hsm_archive_id", in that order, as UInt32; when the arena takes
    the first value and refuses the second, the function gives back -1
    although the first pair is written and its value stays on the arena. *)
Theorem hsm_is_two_pairs (c : collaborators) (fd : Z) (s : state) :
  is_reg s = true ->
  let rc := fst (llapi_hsm_state_get_fd c fd) in
  let hus := snd (llapi_hsm_state_get_fd c fd) in
  let state_ := RBH_VT_UINT32 (to_uint32 (hus_states hus)) in
  let archive := RBH_VT_UINT32 (to_uint32 (hus_archive_id hus)) in
  (rc <> 0 ->
   exists s',
     xattrs_get_hsm c fd s = Returns (-1, []) s' /\
     errno s' = - rc /\ _values s' = _values s)
  /\
  (rc = 0 -> generous c ->
   exists s',
     xattrs_get_hsm c fd s =
       Returns (2, [{| key := "hsm_state"; value := Some state_ |};
                    {| key := "hsm_archive_id"; value := Some archive |}]) s' /\
     errno s' = errno s /\
     _values s' = _values s ++ [BValue state_; BValue archive])
  /\
  (rc = 0 ->
   forall e,
     sstack_try c (_values s) (BValue state_) = Ok tt ->
     sstack_try c (_values s ++ [BValue state_]) (BValue archive) = Err e ->
     exists s',
       xattrs_get_hsm c fd s =
         Returns (-1, [{| key := "hsm_state"; value := Some state_ |};
                       {| key := "hsm_archive_id"; value := None |}]) s' /\
       errno s' = e /\
       _values s' = _values s ++ [BValue state_]).
Proof.
  intros Hreg rc hus state_ archive. subst rc hus state_ archive.
  unfold xattrs_get_hsm, fill_uint32_pair, fill_pair, rbh_sstack_push,
    bind, log, get_state, set_errno, update_state, ret.
  rewrite Hreg. cbn [negb]. split; [| split].
  - intros Hrc. apply Z.eqb_neq in Hrc. rewrite Hrc. cbn.
    eexists. split; [reflexivity |]. split; reflexivity.
  - intros Hrc [_ Hpush]. rewrite Hrc. cbn. repeat (rewrite Hpush; cbn).
    eexists. split; [reflexivity |]. cbn.
    rewrite <- app_assoc. split; reflexivity.
  - intros Hrc e H1 H2. rewrite Hrc. cbn. rewrite H1. cbn. rewrite H2. cbn.
    eexists. split; [reflexivity |]. split; reflexivity.
Qed.

Lemma hsm_is_two_pairs_witness :
  exists s',
    xattrs_get_hsm site 3 (entry S_IFREG 0 []) =
      Returns (2, [{| key := "hsm_state"; value := Some (RBH_VT_UINT32 9) |};
                   {| key := "hsm_archive_id";
                      value := Some (RBH_VT_UINT32 2) |}]) s' /\
    errno s' = 0 /\
    _values s' = [BValue (RBH_VT_UINT32 9); BValue (RBH_VT_UINT32 2)].
Proof.
  exact (proj1 (proj2 (hsm_is_two_pairs site 3 (entry S_IFREG 0 []) eq_refl))
           eq_refl site_is_generous).
Defined.

(** X9.  [xattrs_get_magic_and_gen], once the "lustre.lov" attribute is
    read: a magic number that is none of the six the function knows makes
    it give back -1 with [errno] at EINVAL and write nothing; a known one,
    when the arena has room, gives the pairs "magic", the name of the
    constant as a string pushed with its final NUL, and "gen", a UInt32;
    and the generation of a foreign layout is 4294967295, the -1 of the
    code seen as a [uint32_t]. *)
Theorem magic_and_gen_pairs
    (c : collaborators) (fd : Z) (s : state) (lov : lov_buf) :
  fgetxattr_lov c fd = Ok lov ->
  (forall m,
     lmm_magic lov = LOV_MAGIC_OTHER m ->
     exists s',
       xattrs_get_magic_and_gen c fd s = Returns (-1, []) s' /\
       errno s' = EINVAL /\ _values s' = _values s)
  /\
  (forall name,
     magic_name (lmm_magic lov) = Some name -> generous c ->
     let magic := RBH_VT_STRING (Some name) in
     let gen := RBH_VT_UINT32 (to_uint32 (magic_gen lov)) in
     exists s',
       xattrs_get_magic_and_gen c fd s =
         Returns (2, [{| key := "magic"; value := Some magic |};
                      {| key := "gen"; value := Some gen |}]) s' /\
       errno s' = errno s /\
       _values s' =
         _values s ++ [BString name (Z.of_nat (String.length name) + 1);
                       BValue magic; BValue gen])
  /\
  (lmm_magic lov = LOV_USER_MAGIC_FOREIGN ->
   magic_name (lmm_magic lov) = Some "LOV_USER_MAGIC_FOREIGN" /\
   to_uint32 (magic_gen lov) = 4294967295).
Proof.
  intros Hlov.
  unfold xattrs_get_magic_and_gen, fill_string_pair, fill_uint32_pair,
    fill_pair, rbh_sstack_push, bind, log, get_state, set_errno,
    update_state.
  rewrite Hlov. cbn [getter ret]. split; [| split].
  - intros m Hm. rewrite Hm. cbn.
    eexists. split; [reflexivity |]. split; reflexivity.
  - intros name Hname [_ Hpush]. cbv zeta.
    rewrite Hname. cbn. repeat (rewrite Hpush; cbn).
    eexists. split; [reflexivity |]. cbn.
    rewrite <- !app_assoc. split; reflexivity.
  - intros Hm. unfold magic_gen. rewrite Hm. split; reflexivity.
Qed.

Lemma magic_and_gen_pairs_witness :
  exists s',
    xattrs_get_magic_and_gen site 6 (entry S_IFREG 0 []) =
      Returns (2, [{| key := "magic";
                      value := Some (RBH_VT_STRING
                                       (Some "LOV_USER_MAGIC_FOREIGN")) |};
                   {| key := "gen";
                      value := Some (RBH_VT_UINT32 4294967295) |}]) s' /\
    errno s' = 0 /\
    _values s' = [BString "LOV_USER_MAGIC_FOREIGN" 23;
                  BValue (RBH_VT_STRING (Some "LOV_USER_MAGIC_FOREIGN"));
                  BValue (RBH_VT_UINT32 4294967295)].
Proof.
  exact (proj1 (proj2 (magic_and_gen_pairs site 6 (entry S_IFREG 0 [])
                         foreign_lov eq_refl))
           "LOV_USER_MAGIC_FOREIGN" eq_refl site_is_generous).
Defined.

(** X10.  [xattrs_get_mdt_info] when memory and arena have room.  For an
    entry that is neither a directory nor a symbolic link the only pair is
    "mdt_index", the Int32 [llapi_file_fget_mdtidx] gave, and a failure of
    that call makes the function give back -1 with nothing written.  For a
    directory the ioctl fills the local variable [lum], whose array
    [lum_objects] has no element: as soon as it reports one stripe or more,
    the loop that fills "mdt_idx" reads [lum.lum_objects[0]] outside
    [lum].  The pairs "mdt_idx", "mdt_hash" and "mdt_count" are written
    without such a read for a stripe count of 0 only, "mdt_idx" being then
    the empty sequence. *)
Theorem mdt_info_pairs (c : collaborators) (fd : Z) (s : state) :
  generous c ->
  (is_dir s = false -> is_symlink s = false ->
   forall mdt,
     llapi_file_fget_mdtidx c fd = Ok mdt ->
     exists s',
       xattrs_get_mdt_info c fd s =
         Returns (1, [{| key := "mdt_index";
                         value := Some (RBH_VT_INT32 (to_int mdt)) |}]) s' /\
       errno s' = errno s)
  /\
  (is_dir s = false -> is_symlink s = false ->
   forall e,
     llapi_file_fget_mdtidx c fd = Err e ->
     exists s',
       xattrs_get_mdt_info c fd s = Returns (-1, []) s' /\
       errno s' = e /\ _values s' = _values s)
  /\
  (is_dir s = true ->
   forall lum,
     ioctl_lmv_getstripe c fd = Ok lum ->
     0 < lum_stripe_count lum ->
     exists s',
       xattrs_get_mdt_info c fd s = Aborts OutOfBounds s' /\
       errno s' = errno s /\ _values s' = _values s /\
       calls s' = calls s ++ [IoctlLmvGetstripe fd])
  /\
  (is_dir s = true ->
   forall lum,
     ioctl_lmv_getstripe c fd = Ok lum ->
     lum_stripe_count lum <= 0 ->
     exists s',
       xattrs_get_mdt_info c fd s =
         Returns (3, [{| key := "mdt_idx";
                         value := Some (RBH_VT_SEQUENCE []) |};
                      {| key := "mdt_hash";
                         value := Some (RBH_VT_UINT32
                                          (to_uint32 (lum_hash_type lum))) |};
                      {| key := "mdt_count";
                         value := Some (RBH_VT_UINT32
                                          (to_uint32
                                             (lum_stripe_count lum))) |}])
           s' /\
       errno s' = errno s).
Proof.
  intros [Halloc Hpush].
  unfold xattrs_get_mdt_info, fill_sequence_pair, fill_int32_pair,
    fill_uint32_pair, fill_pair, rbh_sstack_push, mdt_cells, bind, log,
    get_state, set_errno, update_state.
  split; [| split; [| split]].
  - intros Hd Hl mdt Hm. rewrite Hd, Hl, Hm. cbn. rewrite Hpush. cbn.
    eexists. split; reflexivity.
  - intros Hd Hl e Hm. rewrite Hd, Hl, Hm. cbn.
    eexists. split; [reflexivity |]. split; reflexivity.
  - intros Hd lum Hi Hb.
    rewrite Hd, Hi, Halloc. cbn [negb].
    apply Z.ltb_lt in Hb. rewrite Hb. unfold abort.
    eexists. split; [reflexivity |]. split_and!; reflexivity.
  - intros Hd lum Hi Hb.
    rewrite Hd, Hi, Halloc. cbn [negb].
    apply Z.ltb_ge in Hb. rewrite Hb. cbn. repeat (rewrite Hpush; cbn).
    eexists. split; reflexivity.
Qed.

(** A directory striped over two MDTs. *)
Lemma mdt_info_pairs_witness :
  exists s',
    xattrs_get_mdt_info site 4 (entry S_IFDIR 0 []) = Aborts OutOfBounds s' /\
    calls s' = [IoctlLmvGetstripe 4].
Proof.
  destruct (proj1 (proj2 (proj2 (mdt_info_pairs site 4 (entry S_IFDIR 0 [])
                                   site_is_generous)))
              eq_refl striped_dir eq_refl) as (s' & Hrun & _ & _ & Hcalls).
  - reflexivity.
  - exists s'. split; [exact Hrun | exact Hcalls].
Defined.

(** *** The workspace, cell by cell *)

Import LustreLayout.

Ltac block_kept := unfold same_block, shape; cbn; auto.

Section Blocks.

Variable c : collaborators.

Lemma same_block_refl d : same_block d d.
Proof. unfold same_block. auto. Qed.

Lemma same_block_trans d1 d2 d3 :
  same_block d1 d2 -> same_block d2 d3 -> same_block d1 d3.
Proof. unfold same_block. intros (? & ? & ?) (? & ? & ?). split_and!; congruence. Qed.

Lemma store_exact base index v d s d' s' :
  store base index v d s = Returns d' s' ->
  s' = s /\
  exists off,
    base = Some off /\
    0 <= off + index < Z.of_nat (length (arr d)) /\
    d' = set_arr (<[Z.to_nat (off + index) := Some v]> (arr d)) d.
Proof.
  unfold store. intros H. destruct base as [off |]; [| discriminate H].
  cbv zeta in H.
  destruct ((0 <=? off + index) && (off + index <? Z.of_nat (length (arr d))))
    eqn:E; [| discriminate H].
  unfold ret in H. simplify_eq H. intros <- <-.
  apply andb_true_iff in E as [E1 E2].
  apply Z.leb_le in E1. apply Z.ltb_lt in E2.
  split; [reflexivity |]. exists off. auto.
Qed.

Lemma ost_append_frame v d s d' s' :
  ost_append v d s = Returns d' s' -> same_block d d'.
Proof.
  intros H. apply ost_append_Returns in H as (_ & _ & ->). block_kept.
Qed.

Lemma ost_loop_frame replies : forall count i d s r s',
  ost_loop count i replies d s = Returns r s' -> same_block d (snd r).
Proof.
  induction replies as [| reply rest IH]; intros count i d s r s' H;
    cbn [ost_loop] in H.
  - minv; block_kept.
  - destruct (i <? count); [| minv; block_kept].
    destruct reply as [tmp | e].
    + apply bind_Returns in H. destruct H as (d1 & s1 & Ha & H).
      apply ost_append_frame in Ha. apply IH in H.
      eapply same_block_trans; eassumption.
    + minv; block_kept.
Qed.

Lemma iter_data_ost_try_resize_frame d ost_len s r s' :
  iter_data_ost_try_resize c d ost_len s = Returns r s' ->
  same_block d (snd r).
Proof.
  unfold iter_data_ost_try_resize. intros H. minv; block_kept.
Qed.

Lemma bind_store_Returns {B} off index v d (k : iterator_data -> cmd B)
    s r s' :
  bind (store (Some off) index v d) k s = Returns r s' ->
  0 <= off + index < Z.of_nat (length (arr d)) /\
  k (set_arr (<[Z.to_nat (off + index) := Some v]> (arr d)) d) s
    = Returns r s'.
Proof.
  intros H. apply bind_Returns in H. destruct H as (d1 & s1 & Hs & H).
  apply store_exact in Hs. destruct Hs as (-> & o & Ho & Hb & ->).
  simplify_eq Ho. intros <-. auto.
Qed.

Lemma create_string_value_Returns str len s v s' :
  create_string_value c str len s = Returns v s' ->
  exists p, v = RBH_VT_STRING p.
Proof.
  unfold create_string_value. intros H. minv; eauto.
Qed.

Ltac next_store P H B :=
  rewrite ?bind_getter in H;
  cbn [stripe_count stripe_size pattern flags pool mirror_id begin end_
       comp_index set_arr] in H;
  rewrite P in H; apply bind_store_Returns in H; destruct H as [B H].

(** The five cells [fill_iterator_data] writes at [index]. *)
Lemma fill_iterator_data_block layout comp d index s d' s' n x :
  fill_iterator_data c layout comp d index s = Returns (0, d') s' ->
  ready n x d ->
  exists str,
    arr d' =
      <[Z.to_nat (4 * n + index) := Some (RBH_VT_STRING str)]>
        (<[Z.to_nat (3 * n + index) :=
             got create_uint32_value (llc_flags comp)]>
           (<[Z.to_nat (2 * n + index) :=
                got create_uint64_value (llc_pattern comp)]>
              (<[Z.to_nat (n + index) :=
                   got create_uint64_value (llc_stripe_size comp)]>
                 (<[Z.to_nat (0 + index) :=
                      got create_uint64_value (llc_stripe_count comp)]>
                    (arr d))))) /\
    shape d' = shape d /\ comp_index d' = comp_index d /\
    0 <= index /\ 4 * n + index < Z.of_nat (length (arr d)).
Proof.
  intros H Hready. unfold ready, shape in Hready.
  assert (P0 : stripe_count d = Some 0) by congruence.
  assert (P1 : stripe_size d = Some n) by congruence.
  assert (P2 : pattern d = Some (2 * n)) by congruence.
  assert (P3 : flags d = Some (3 * n)) by congruence.
  assert (P4 : pool d = Some (4 * n)) by congruence.
  clear Hready.
  unfold fill_iterator_data in H.
  destruct (llc_stripe_count comp) as [sc | e0]; [| minv].
  next_store P0 H B0.
  destruct (llc_stripe_size comp) as [ss | e1]; [| minv].
  next_store P1 H B1.
  destruct (llc_pattern comp) as [pa | e2]; [| minv].
  next_store P2 H B2.
  destruct (llc_flags comp) as [fl | e3]; [| minv].
  next_store P3 H B3.
  destruct (llc_pool_name comp) as [po | e4]; [| minv].
  rewrite bind_getter in H.
  apply bind_Returns in H. destruct H as (v & s1 & Hv & H).
  apply create_string_value_Returns in Hv. destruct Hv as [str ->].
  next_store P4 H B4.
  cbv zeta in H.
  apply bind_Returns in H. destruct H as (r & s2 & Hr & H).
  apply iter_data_ost_try_resize_frame in Hr.
  assert (Hd : same_block (snd r) d').
  { destruct (negb (fst r =? 0)).
    - unfold ret in H. simplify_eq H. intros -> _. apply same_block_refl.
    - destruct ((fl =? LCME_FL_INIT) || negb (llot_is_composite layout)).
      + apply ost_loop_frame in H. exact H.
      + apply bind_Returns in H. destruct H as (d4 & s3 & Ha & H).
        unfold ret in H. simplify_eq H. intros <- _.
        eapply ost_append_frame, Ha. }
  pose proof (same_block_trans _ _ _ Hr Hd) as (Ha & Hs & Hc).
  cbn [arr set_arr] in *. rewrite !length_insert in *.
  exists str. split; [exact Ha |].
  split; [rewrite Hs; unfold shape; cbn; rewrite !length_insert; reflexivity |].
  split; [exact Hc |]. lia.
Qed.

Ltac look :=
  repeat (rewrite list_lookup_insert_ne by lia);
  first [ rewrite list_lookup_insert_eq by (rewrite ?length_insert; lia);
          reflexivity
        | assumption ].

(** One more component visited: its cells are written, those of the
    components before it are not touched. *)
Lemma xattrs_layout_iterator_columns layout comp d s d' s' n done :
  xattrs_layout_iterator c layout comp d s = Returns (0, d') s' ->
  columns n done d ->
  Z.of_nat (length done) < n ->
  columns n (done ++ [comp]) d'.
Proof.
  intros H (Hready & Hci & Hcells) Hroom.
  unfold xattrs_layout_iterator in H.
  apply bind_Returns in H. destruct H as ([rc d1] & s1 & Hf & H).
  cbn [fst snd] in H.
  destruct (rc =? 0) eqn:Hrc; cbn [negb] in H;
    [| unfold ret in H; simplify_eq H].
  apply Z.eqb_eq in Hrc. subst rc. cbv zeta in H.
  destruct (fill_iterator_data_block _ _ _ _ _ _ _ n 8 Hf Hready)
    as (str & Ha & Hs & Hc & Hi & Hb).
  pose proof Hready as Hr. unfold ready in Hr. rewrite <- Hs in Hr.
  unfold shape in Hr. cbn [Z.leb Z.compare Pos.compare Pos.compare_cont] in Hr.
  assert (E : Z.of_nat (length (arr d1)) = 8 * n) by congruence.
  assert (P5 : mirror_id d1 = Some (5 * n)) by congruence.
  assert (P6 : begin d1 = Some (6 * n)) by congruence.
  assert (P7 : end_ d1 = Some (7 * n)) by congruence.
  destruct (llc_extent comp) as [[b e] | ee] eqn:Hex; [| minv].
  rewrite bind_getter in H. cbn [fst snd] in H.
  next_store P6 H B6. next_store P7 H B7.
  destruct (llc_mirror_id comp) as [m | em] eqn:Hm; [| minv].
  next_store P5 H B5.
  cbn [comp_index arr set_arr] in H.
  destruct (in_int (comp_index d1 + 1));
    [| unfold abort in H; discriminate H].
  unfold ret in H. simplify_eq H. intros <- _.
  rewrite Hc, Hci in *. clear Hc.
  unfold columns. split; [| split].
  - unfold ready. rewrite <- Hready, <- Hs. unfold shape. cbn.
    rewrite !length_insert. reflexivity.
  - cbn. rewrite length_app. cbn. lia.
  - intros i comp0 Hl. cbn [arr set_arr set_comp_index]. rewrite Ha.
    apply lookup_app_Some in Hl.
    destruct Hl as [Hl | [Hge Hl]].
    + (* a component visited before *)
      pose proof (lookup_lt_Some _ _ _ Hl) as Hlt.
      destruct (Hcells i comp0 Hl) as (C0 & C1 & C2 & C3 & C5 & C6 & C7).
      split_and!; look.
    + (* the one just visited *)
      apply list_lookup_singleton_Some in Hl. destruct Hl as [Hz <-].
      assert (i = length done) by lia. subst i.
      rewrite Hex, Hm. unfold shape in Hs. 
      assert (El : Z.of_nat (length (arr d)) = 8 * n) by congruence.
      split_and!; look.
Qed.

Lemma comp_iterate_columns layout n : forall comps done d s d' s',
  comp_iterate (xattrs_layout_iterator c layout) comps d s
    = Returns (0, d') s' ->
  columns n done d ->
  Z.of_nat (length done) + Z.of_nat (length comps) <= n ->
  columns n (done ++ comps) d'.
Proof.
  induction comps as [| comp rest IH]; intros done d s d' s' H Hcol Hroom;
    cbn [comp_iterate] in H.
  - unfold ret in H. simplify_eq H. intros <- _. rewrite app_nil_r.
    exact Hcol.
  - cbn [length] in Hroom.
    apply bind_Returns in H. destruct H as ([rc d1] & s1 & Hit & H).
    cbn [fst snd] in H.
    destruct (rc =? 0) eqn:Hrc;
      [| unfold ret in H; simplify_eq H; intros -> _ _; discriminate Hrc].
    apply Z.eqb_eq in Hrc. subst rc.
    eapply xattrs_layout_iterator_columns in Hit; [| exact Hcol | lia].
    replace (done ++ comp :: rest) with ((done ++ [comp]) ++ rest)
      by (rewrite <- app_assoc; reflexivity).
    eapply IH; [exact H | exact Hit |].
    rewrite length_app. cbn [length]. lia.
Qed.

(** The workspace [init_iterator_data] hands over. *)
Lemma init_iterator_data_ready len x s d0 s' :
  init_iterator_data c iterator_data_zero len x s = Returns (0, d0) s' ->
  0 <= len -> x = 5 \/ x = 8 -> 8 * len < 2 ^ 32 ->
  ready len x d0 /\ comp_index d0 = 0 /\ s' = s.
Proof.
  intros H Hlen Hx Hsmall.
  assert (U : forall k, 0 <= k <= 8 -> to_uint32 (k * len) = k * len)
    by (intros k Hk; unfold to_uint32; apply Z.mod_small; nia).
  unfold init_iterator_data in H. cbv zeta in H.
  destruct (alloc c (to_uint32 (x * len))); cbn [negb] in H; [| minv].
  destruct (alloc c len); cbn [negb] in H; [| minv].
  unfold ret in H. simplify_eq H. intros <- <-.
  split; [| split; reflexivity].
  unfold ready, shape. cbn. rewrite length_replicate, !U by lia.
  destruct Hx as [-> | ->]; cbn; rewrite ?U by lia;
    rewrite Z2Nat.id, Z.mul_1_l by lia; reflexivity.
Qed.

Lemma cells_at_Returns d base count s cells s' :
  cells_at d base count s = Returns cells s' ->
  s' = s /\
  exists off,
    base = Some off /\
    cells = take (Z.to_nat count) (drop (Z.to_nat off) (arr d)).
Proof.
  unfold cells_at. intros H. destruct base as [off |]; [| discriminate H].
  destruct ((0 <=? count) && (off + count <=? Z.of_nat (length (arr d))));
    [| discriminate H].
  unfold ret in H. simplify_eq H. intros <- <-. eauto.
Qed.

(** The pairs the loop of [xattrs_fill_layout] writes when it goes
    through. *)
Lemma fill_layout_loop_exact d entries : forall subcount out s r s',
  fill_layout_loop c d entries subcount out s = Returns (true, r) s' ->
  r = (subcount + Z.of_nat (length entries),
       out ++ map (fun e => sequence (fst e) (column_at d (snd e))) entries).
Proof.
  induction entries as [| [k base] rest IH]; intros subcount out s r s' H;
    cbn [fill_layout_loop] in H.
  - unfold ret in H. simplify_eq H. intros <- _. cbn.
    rewrite app_nil_r, Z.add_0_r. reflexivity.
  - apply bind_Returns in H. destruct H as (cells & s1 & Hc & H).
    apply cells_at_Returns in Hc. destruct Hc as (-> & off & -> & ->).
    apply bind_Returns in H. destruct H as (f & s2 & Hf & H).
    apply fill_sequence_pair_Returns in Hf. destruct Hf as [[-> _] | Hf].
    + cbn [fst snd negb Z.eqb] in H. apply IH in H. subst r.
      cbn [map length fst snd column_at]. rewrite <- app_assoc.
      f_equal. lia.
    + rewrite Hf in H. cbn in H. unfold ret in H. simplify_eq H.
Qed.

Lemma xattrs_fill_layout_exact d x s f s' :
  xattrs_fill_layout c d x s = Returns f s' ->
  fst f <> -1 ->
  let entries :=
    take (Z.to_nat x)
      [("stripe_count", stripe_count d); ("stripe_size", stripe_size d);
       ("pattern", pattern d); ("comp_flags", flags d); ("pool", pool d);
       ("mirror_id", mirror_id d); ("begin", begin d); ("end", end_ d)] in
  f = (Z.of_nat (length entries) + 1,
       map (fun e => sequence (fst e) (column_at d (snd e))) entries
       ++ [sequence "ost" (take (Z.to_nat (ost_idx d)) (ost d))]).
Proof.
  intros H Hne entries. unfold xattrs_fill_layout in H. cbv zeta in H.
  fold entries in H.
  apply bind_Returns in H. destruct H as ([ok r] & s1 & Hl & H).
  cbn [fst snd] in H. destruct ok; cbn [negb] in H.
  - apply fill_layout_loop_exact in Hl. subst r. cbn [fst snd app] in H.
    apply bind_Returns in H. destruct H as (cells & s2 & Hc & H).
    unfold ost_cells in Hc.
    destruct ((0 <=? ost_idx d) && (ost_idx d <=? Z.of_nat (length (ost d))));
      [| discriminate Hc].
    unfold ret in Hc. simplify_eq Hc. intros <- <-.
    apply bind_Returns in H. destruct H as (g & s3 & Hg & H).
    apply fill_sequence_pair_Returns in Hg. destruct Hg as [[-> _] | Hg].
    + cbn [fst snd negb Z.eqb] in H. unfold ret in H. simplify_eq H.
      intros <- _. reflexivity.
    + rewrite Hg in H. cbn in H. unfold ret in H. simplify_eq H.
      intros <- _. contradiction Hne. reflexivity.
  - apply fill_layout_loop_Returns in Hl.
    destruct Hl as [[_ Hm] | [Ht _]]; [| discriminate Ht].
    unfold ret in H. simplify_eq H. intros <- _. contradiction.
Qed.

(** Reading a column of the block. *)
Lemma column_read {A} (cells : list cell) (done : list A) (f : A -> cell)
    (off : nat) :
  (forall i a, done !! i = Some a -> cells !! (off + i)%nat = Some (f a)) ->
  take (length done) (drop off cells) = map f done.
Proof.
  revert off. induction done as [| a done IH]; intros off H.
  - reflexivity.
  - pose proof (H 0%nat a eq_refl) as H0. rewrite Nat.add_0_r in H0.
    rewrite (drop_S _ _ _ H0). cbn. f_equal.
    apply IH. intros i b Hb.
    replace (S off + i)%nat with (off + S i)%nat by lia.
    apply H. exact Hb.
Qed.

(** *** The stages of a successful [xattrs_get_layout] *)

Ltac failed H Hne :=
  exfalso; cbn in H; unfold ret in H; simplify_eq H; intros <- _;
  apply Hne; reflexivity.

Lemma layout_components_stages layout nb x subcount out s r s' :
  layout_components c layout nb x subcount out s = Returns r s' ->
  fst r <> -1 ->
  exists d0 d1 s1 f s2,
    init_iterator_data c iterator_data_zero nb x s = Returns (0, d0) s /\
    (if llot_is_composite layout
     then llapi_layout_comp_iterate layout (xattrs_layout_iterator c) d0
     else fill_iterator_data c layout (current_comp layout) d0 0) s
      = Returns (0, d1) s1 /\
    xattrs_fill_layout c d1 x s1 = Returns f s2 /\
    fst f <> -1 /\ 0 <= fst f /\
    r = (subcount + fst f, out ++ snd f).
Proof.
  intros H Hne. unfold layout_components in H.
  apply bind_Returns in H. destruct H as ([rc d0] & s0 & Hi & H).
  pose proof Hi as Hi'.
  apply init_iterator_data_Returns in Hi'. cbn [fst snd] in Hi', H.
  destruct Hi' as [-> | [-> _]]; [failed H Hne |].
  assert (s0 = s).
  { unfold init_iterator_data in Hi. cbv zeta in Hi.
    destruct (alloc c (to_uint32 (x * nb))); cbn [negb] in Hi; [| minv].
    destruct (alloc c nb); cbn [negb] in Hi; [| minv].
    unfold ret in Hi. simplify_eq Hi. auto. }
  subst s0. cbn [negb Z.eqb] in H.
  apply bind_Returns in H. destruct H as ([rc d1] & s1 & Hr & H).
  pose proof Hr as Hr'.
  apply every_component_Returns in Hr'. cbn [fst snd] in Hr', H.
  destruct Hr' as [-> | [-> _]]; [failed H Hne |].
  cbn [negb Z.eqb] in H.
  apply bind_Returns in H. destruct H as (f & s2 & Hf & H).
  pose proof Hf as Hf'.
  apply xattrs_fill_layout_Returns in Hf'.
  destruct Hf' as [Hm | [Hc _]].
  { rewrite Hm in H. failed H Hne. }
  assert (Hpos : (fst f <? 0) = false) by (apply Z.ltb_ge; lia).
  rewrite Hpos in H.
  apply layout_free_data_Returns in H. destruct H as [-> _].
  cbn [negb Z.eqb].
  exists d0, d1, s1, f, s2.
  split; [exact Hi |]. split; [exact Hr |]. split; [exact Hf |].
  split; [lia |]. split; [lia | reflexivity].
Qed.

Lemma xattrs_get_layout_stages fd s layout r s' :
  is_symlink s = false ->
  llapi_layout_get_by_fd c fd = Ok layout ->
  xattrs_get_layout c fd s = Returns r s' ->
  fst r <> -1 ->
  exists head nb s0,
    Z.of_nat (length head) =
      1 + (if is_reg s then 2 else 0)
        + (if llot_is_composite layout then 1 else 0) /\
    (if llot_is_composite layout
     then exists comp id,
            last (llot_comps layout) = Some comp /\ llc_id comp = Ok id /\
            nb = to_uint32 id
     else nb = 1) /\
    layout_components c layout nb
      (if llot_is_composite layout then 8 else 5)
      (Z.of_nat (length head)) head s0 = Returns r s'.
Proof.
  intros Hs Hl H Hne. unfold xattrs_get_layout in H.
  apply bind_Returns in H. destruct H as (sa & sb & Hg & H).
  unfold get_state in Hg. simplify_eq Hg. intros <- <-. clear Hg.
  rewrite Hs in H.
  apply bind_Returns in H. destruct H as (u & s2 & Hlog & H).
  assert (R2 : is_reg s2 = is_reg s).
  { unfold log, update_state in Hlog. simplify_eq Hlog. intros _ <-.
    reflexivity. }
  clear Hlog. rewrite Hl, bind_getter in H.
  apply bind_Returns in H. destruct H as (fl & s4 & Hfl & H).
  assert (R4 : is_reg s4 = is_reg s2).
  { unfold getter in Hfl. destruct (llot_flags layout); minv; reflexivity. }
  clear Hfl.
  destruct fl as [fl |]; [| failed H Hne].
  apply bind_Returns in H. destruct H as (f0 & s5 & Hf0 & H).
  apply fill_pair_Returns in Hf0. destruct Hf0 as [[-> ->] | [-> _]];
    cbn [fst snd negb Z.eqb] in H; [| failed H Hne].
  apply bind_Returns in H. destruct H as (s6 & s7 & Hg & H).
  unfold get_state in Hg. simplify_eq Hg. intros <- <-. clear Hg.
  cbn [is_reg set_values] in H. rewrite R4, R2 in H.
  apply bind_Returns in H. destruct H as (m & s8 & Hm & H).
  assert (Hm' : fst m = -1 \/
                fst m = (if is_reg s then 2 else 0) /\
                Z.of_nat (length (snd m)) = fst m).
  { destruct (is_reg s).
    - apply xattrs_get_magic_and_gen_Returns in Hm.
      destruct Hm as [? | [-> ->]]; [auto | right; cbn; lia].
    - unfold ret in Hm. simplify_eq Hm. intros <- _. right. cbn. lia. }
  clear Hm. destruct Hm' as [Hf | [Hm1 Hm2]].
  { rewrite Hf in H. failed H Hne. }
  assert (Hlt : (fst m <? 0) = false)
    by (apply Z.ltb_ge; destruct (is_reg s); lia).
  rewrite Hlt in H. cbv zeta in H.
  destruct (llot_is_composite layout).
  - apply bind_Returns in H. destruct H as (mc & s9 & _ & H).
    destruct mc as [mirror_count |]; [| failed H Hne].
    apply bind_Returns in H. destruct H as (f1 & s10 & Hf1 & H).
    apply fill_pair_Returns in Hf1. destruct Hf1 as [[-> _] | [-> _]];
      cbn [fst snd negb Z.eqb] in H; [| failed H Hne].
    apply bind_Returns in H. destruct H as ([rc nb] & s11 & Hnb & H).
    cbn [fst snd] in H.
    unfold layout_get_nb_comp in Hnb.
    destruct (last (llot_comps layout)) as [comp |] eqn:Hlast.
    2: { unfold bind, set_errno, update_state, ret in Hnb.
         simplify_eq Hnb. intros <- <- <-. failed H Hne. }
    destruct (llc_id comp) as [id | e] eqn:Hid.
    2: { unfold bind, getter, bind, set_errno, update_state, ret in Hnb.
         simplify_eq Hnb. intros <- <- <-. failed H Hne. }
    rewrite bind_getter in Hnb. unfold ret in Hnb. simplify_eq Hnb.
    intros <- <- <-. cbn [negb Z.eqb] in H.
    eexists _, (to_uint32 id), s10.
    split; [| split; [exists comp, id; auto |]].
    2: { match goal with
         | H : layout_components _ _ _ _ ?sub ?out _ = _ |- _ =>
             replace sub with (Z.of_nat (length out)) in H; [exact H |]
         end.
         rewrite !length_app. cbn [length]. lia. }
    rewrite !length_app. cbn [length]. lia.
  - eexists _, 1, s8.
    split; [| split; [reflexivity |]].
    2: { match goal with
         | H : layout_components _ _ _ _ ?sub ?out _ = _ |- _ =>
             replace sub with (Z.of_nat (length out)) in H; [exact H |]
         end.
         rewrite !length_app. cbn [length]. lia. }
    rewrite !length_app. cbn [length]. lia.
Qed.

End Blocks.

Lemma xattrs_get_layout_count
    (c : collaborators) (fd : Z) (s : state) (layout : llapi_layout)
    (r : filled) (s' : state) :
  is_symlink s = false ->
  llapi_layout_get_by_fd c fd = Ok layout ->
  xattrs_get_layout c fd s = Returns r s' ->
  fst r <> -1 ->
  fst r = (if llot_is_composite layout then 11 else 7)
          + (if is_reg s then 2 else 0) /\
  Z.of_nat (length (snd r)) = fst r.
Proof.
  intros Hs Hl H Hne.
  destruct (xattrs_get_layout_stages c fd s layout r s' Hs Hl H Hne)
    as (head & nb & s0 & Hhead & _ & Hc).
  destruct (layout_components_stages c _ _ _ _ _ _ _ _ Hc Hne)
    as (d0 & d1 & s1 & f & s2 & _ & _ & Hf & Hfne & _ & ->).
  apply xattrs_fill_layout_exact in Hf; [| exact Hfne]. cbv zeta in Hf.
  subst f. cbn [fst snd]. rewrite !length_app, length_map. cbn [length].
  destruct (llot_is_composite layout);
    [change (Z.to_nat 8) with 8%nat | change (Z.to_nat 5) with 5%nat];
    cbn [length take firstn]; lia.
Qed.

(** X11.  The number of pairs a successful [xattrs_get_layout] writes
    for an entry that is not a symbolic link depends on two things only:
    7 for a plain layout and 11 for a composite one, and 2 more for a
    regular file; it is the value given back. *)
Theorem layout_pair_count
    (c : collaborators) (fd : Z) (s : state) (layout : llapi_layout)
    (r : filled) (s' : state) :
  is_symlink s = false ->
  llapi_layout_get_by_fd c fd = Ok layout ->
  xattrs_get_layout c fd s = Returns r s' ->
  fst r <> -1 ->
  fst r = (if llot_is_composite layout then 11 else 7)
          + (if is_reg s then 2 else 0) /\
  Z.of_nat (length (snd r)) = fst r.
Proof.
  apply xattrs_get_layout_count.
Qed.

Lemma layout_pair_count_witness :
  exists r s',
    xattrs_get_layout site 3 (entry S_IFREG 0 []) = Returns r s' /\
    fst r = 13 /\ Z.of_nat (length (snd r)) = fst r.
Proof.
  destruct (xattrs_get_layout site 3 (entry S_IFREG 0 []))
    as [r s' | e s'] eqn:Hrun.
  - exists r, s'. split; [reflexivity |].
    assert (Hne : fst r <> -1).
    { pose proof Hrun as Hc. vm_compute in Hc. simplify_eq Hc.
      intros <- _. cbn. discriminate. }
    exact (layout_pair_count site 3 (entry S_IFREG 0 [])
             LustreExamples.pfl_layout r s' eq_refl eq_refl Hrun Hne).
  - vm_compute in Hrun. discriminate Hrun.
Defined.

(** X12.  For a layout that is not composite the five attributes of the
    component come out as empty sequences: [fill_iterator_data] stores
    them at index 0 but does not move [comp_index], and [comp_index] is the
    length [xattrs_fill_layout] gives every sequence.  The pair "ost",
    whose length is [ost_idx], does hold the OST indices. *)
Theorem plain_layout_attributes_are_empty
    (c : collaborators) (fd : Z) (s : state) (layout : llapi_layout)
    (r : filled) (s' : state) :
  is_symlink s = false ->
  llapi_layout_get_by_fd c fd = Ok layout ->
  llot_is_composite layout = false ->
  xattrs_get_layout c fd s = Returns r s' ->
  fst r <> -1 ->
  exists head,
    snd r = head ++
      [sequence "stripe_count" []; sequence "stripe_size" [];
       sequence "pattern" []; sequence "comp_flags" []; sequence "pool" [];
       sequence "ost" (ost_values (layout_osts layout))].
Proof.
  intros Hs Hl Hplain H Hne.
  destruct (xattrs_get_layout_stages c fd s layout r s' Hs Hl H Hne)
    as (head & nb & s0 & _ & Hnb & Hc).
  rewrite Hplain in Hnb, Hc. subst nb.
  destruct (layout_components_stages c _ _ _ _ _ _ _ _ Hc Hne)
    as (d0 & d1 & s1 & f & s2 & Hi & Hr & Hf & Hfne & _ & ->).
  rewrite Hplain in Hr.
  pose proof Hi as Hw. apply init_iterator_data_Returns in Hw.
  destruct Hw as [Hw | [_ Hw]]; [discriminate Hw |].
  cbn [fst snd] in Hw. specialize (Hw ltac:(unfold INT_MAX; lia)).
  apply init_iterator_data_ready in Hi; [| lia | auto | lia].
  destruct Hi as (Hready & Hci & _).
  pose proof Hr as Ho. apply fill_iterator_data_Returns in Ho.
  destruct Ho as [Ho | [_ Ho]]; [discriminate Ho |].
  cbn [fst snd] in Ho. specialize (Ho [] Hw). cbn [app] in Ho.
  destruct (fill_iterator_data_block c _ _ _ _ _ _ _ 1 5 Hr Hready)
    as (str & _ & Hshape & Hci' & _).
  apply xattrs_fill_layout_exact in Hf; [| exact Hfne]. cbv zeta in Hf.
  subst f. cbn [snd]. exists head. f_equal.
  change (Z.to_nat 5) with 5%nat. cbn [take firstn map fst snd app].
  unfold column_at. rewrite Hci', Hci.
  change (Z.to_nat 0) with 0%nat.
  unfold ready in Hready. rewrite <- Hshape in Hready. unfold shape in Hready.
  simplify_eq Hready. intros _ -> -> -> -> -> _ _ _.
  cbn [take firstn].
  destruct Ho as (_ & Hidx & _ & Htake).
  rewrite Hidx, Nat2Z.id, Htake.
  unfold layout_osts. rewrite Hplain. reflexivity.
Qed.

Lemma plain_layout_attributes_are_empty_witness :
  exists r s' head,
    xattrs_get_layout site 8 (entry S_IFREG 0 []) = Returns r s' /\
    snd r = head ++
      [sequence "stripe_count" []; sequence "stripe_size" [];
       sequence "pattern" []; sequence "comp_flags" []; sequence "pool" [];
       sequence "ost" [Some (RBH_VT_UINT64 4); Some (RBH_VT_UINT64 6);
                       Some (RBH_VT_UINT64 9)]].
Proof.
  destruct (xattrs_get_layout site 8 (entry S_IFREG 0 []))
    as [r s' | e s'] eqn:Hrun.
  - assert (Hne : fst r <> -1).
    { pose proof Hrun as Hc. vm_compute in Hc. simplify_eq Hc.
      intros <- _. cbn. discriminate. }
    destruct (plain_layout_attributes_are_empty site 8 (entry S_IFREG 0 [])
                LustreExamples.plain_layout r s' eq_refl eq_refl eq_refl
                Hrun Hne) as [head Hhead].
    exists r, s', head. split; [reflexivity | exact Hhead].
  - vm_compute in Hrun. discriminate Hrun.
Defined.

(** X13.  For a composite layout whose last component has an id that is
    no less than the number of components, the attributes come out as
    eight sequences with one cell per component, in the order of the
    components: cell [i] of "stripe_count", "stripe_size", "pattern",
    "comp_flags", "mirror_id", "begin" and "end" is what liblustre
    answered for component [i]; "pool" has as many cells, and "ost"
    follows. *)
Theorem composite_attributes_follow_components
    (c : collaborators) (fd : Z) (s : state) (layout : llapi_layout)
    (r : filled) (s' : state) (last_comp : llapi_comp) (n : Z) :
  is_symlink s = false ->
  llapi_layout_get_by_fd c fd = Ok layout ->
  llot_is_composite layout = true ->
  last (llot_comps layout) = Some last_comp ->
  llc_id last_comp = Ok n ->
  Z.of_nat (length (llot_comps layout)) <= n ->
  8 * n < 2 ^ 32 ->
  xattrs_get_layout c fd s = Returns r s' ->
  fst r <> -1 ->
  let column {A} (mk : A -> rbh_value) (get : llapi_comp -> res A) :=
    map (fun comp => got mk (get comp)) (llot_comps layout) in
  exists head pools osts,
    snd r = head ++
      [sequence "stripe_count" (column create_uint64_value llc_stripe_count);
       sequence "stripe_size" (column create_uint64_value llc_stripe_size);
       sequence "pattern" (column create_uint64_value llc_pattern);
       sequence "comp_flags" (column create_uint32_value llc_flags);
       sequence "pool" pools;
       sequence "mirror_id" (column create_uint32_value llc_mirror_id);
       sequence "begin"
         (column (fun be => create_uint64_value (fst be)) llc_extent);
       sequence "end"
         (column (fun be => create_uint64_value (snd be)) llc_extent);
       sequence "ost" osts] /\
    length pools = length (llot_comps layout).
Proof.
  intros Hs Hl Hcomp Hlast Hid Hlen Hsmall H Hne column.
  destruct (xattrs_get_layout_stages c fd s layout r s' Hs Hl H Hne)
    as (head & nb & s0 & _ & Hnb & Hc).
  rewrite Hcomp in Hnb, Hc.
  destruct Hnb as (comp & id & Hlast' & Hid' & ->).
  rewrite Hlast in Hlast'. simplify_eq Hlast'. intros <-.
  rewrite Hid in Hid'. simplify_eq Hid'. intros <-.
  assert (U : to_uint32 n = n)
    by (unfold to_uint32; apply Z.mod_small; lia).
  rewrite U in Hc.
  destruct (layout_components_stages c _ _ _ _ _ _ _ _ Hc Hne)
    as (d0 & d1 & s1 & f & s2 & Hi & Hr & Hf & Hfne & _ & ->).
  rewrite Hcomp in Hr.
  apply init_iterator_data_ready in Hi; [| lia | auto | lia].
  destruct Hi as (Hready & Hci & _).
  assert (Hcol : columns n (llot_comps layout) d1).
  { unfold llapi_layout_comp_iterate in Hr.
    destruct (llot_comps layout) as [| comp0 rest] eqn:Hcomps;
      [discriminate Hlast |].
    eapply (comp_iterate_columns c layout n (comp0 :: rest) [] d0);
      [exact Hr | | cbn [length] in *; lia].
    split; [exact Hready |]. split; [exact Hci |].
    intros i a Hi. discriminate Hi. }
  destruct Hcol as (Hready1 & Hci1 & Hcells).
  apply xattrs_fill_layout_exact in Hf; [| exact Hfne]. cbv zeta in Hf.
  subst f. cbn [snd].
  unfold ready, shape in Hready1.
  cbn [Z.leb Z.compare Pos.compare Pos.compare_cont] in Hready1.
  simplify_eq Hready1. intros Elen -> -> -> -> -> -> -> ->.
  change (Z.to_nat 8) with 8%nat. cbn [take firstn map fst snd].
  unfold column_at. rewrite Hci1, Nat2Z.id.
  assert (Hread : forall (k : Z) (f : llapi_comp -> cell),
            0 <= k ->
            (forall i a, llot_comps layout !! i = Some a ->
                         arr d1 !! Z.to_nat (k * n + Z.of_nat i)
                           = Some (f a)) ->
            take (length (llot_comps layout)) (drop (Z.to_nat (k * n)) (arr d1))
              = map f (llot_comps layout)).
  { intros k f Hk Hf. apply column_read. intros i a Ha.
    replace (Z.to_nat (k * n) + i)%nat with (Z.to_nat (k * n + Z.of_nat i))
      by nia.
    apply Hf, Ha. }
  exists head,
    (take (length (llot_comps layout)) (drop (Z.to_nat (4 * n)) (arr d1))),
    (take (Z.to_nat (ost_idx d1)) (ost d1)).
  split.
  - f_equal. subst column. cbv beta.
    rewrite <- (Hread 0), <- (Hread 1), <- (Hread 2), <- (Hread 3),
      <- (Hread 5), <- (Hread 6), <- (Hread 7);
      try lia;
      try (intros i a Ha; destruct (Hcells i a Ha)
             as (C0 & C1 & C2 & C3 & C5 & C6 & C7);
           rewrite ?Z.mul_1_l, ?Z.mul_0_l, ?Z.add_0_l; assumption).
    rewrite Z.mul_1_l, Z.mul_0_l. reflexivity.
  - rewrite length_take, length_drop. nia.
Qed.

Lemma composite_attributes_follow_components_witness :
  exists r s' head pools osts,
    xattrs_get_layout site 3 (entry S_IFREG 0 []) = Returns r s' /\
    snd r = head ++
      [sequence "stripe_count"
         [Some (RBH_VT_UINT64 2); Some (RBH_VT_UINT64 4);
          Some (RBH_VT_UINT64 8)];
       sequence "stripe_size"
         [Some (RBH_VT_UINT64 1048576); Some (RBH_VT_UINT64 1048576);
          Some (RBH_VT_UINT64 1048576)];
       sequence "pattern"
         [Some (RBH_VT_UINT64 0); Some (RBH_VT_UINT64 0);
          Some (RBH_VT_UINT64 0)];
       sequence "comp_flags"
         [Some (RBH_VT_UINT32 16); Some (RBH_VT_UINT32 16);
          Some (RBH_VT_UINT32 0)];
       sequence "pool" pools;
       sequence "mirror_id"
         [Some (RBH_VT_UINT32 1); Some (RBH_VT_UINT32 1);
          Some (RBH_VT_UINT32 1)];
       sequence "begin"
         [Some (RBH_VT_UINT64 0); Some (RBH_VT_UINT64 0);
          Some (RBH_VT_UINT64 0)];
       sequence "end"
         [Some (RBH_VT_UINT64 4194304); Some (RBH_VT_UINT64 4194304);
          Some (RBH_VT_UINT64 4194304)];
       sequence "ost" osts] /\
    length pools = 3%nat.
Proof.
  destruct (xattrs_get_layout site 3 (entry S_IFREG 0 []))
    as [r s' | e s'] eqn:Hrun.
  - assert (Hne : fst r <> -1).
    { pose proof Hrun as Hc. vm_compute in Hc. simplify_eq Hc.
      intros <- _. cbn. discriminate. }
    destruct (composite_attributes_follow_components site 3
                (entry S_IFREG 0 []) LustreExamples.pfl_layout r s'
                (LustreExamples.comp 3 8 0 []) 3
                eq_refl eq_refl eq_refl eq_refl eq_refl
                ltac:(cbn; lia) eq_refl Hrun Hne)
      as (head & pools & osts & Hpairs & Hpools).
    exists r, s', head, pools, osts.
    split; [reflexivity |]. split; [exact Hpairs | exact Hpools].
  - vm_compute in Hrun. discriminate Hrun.
Defined.

(** *** More components than the block has room for *)

Import LustreCrowded.

Section Crowded.

Variable c : collaborators.
Hypothesis Hgen : generous c.

Ltac pointers :=
  cbn [stripe_count stripe_size pattern flags pool mirror_id begin end_
       comp_index set_arr set_ost set_comp_index].

Ltac in_block E :=
  cbn [arr set_arr]; rewrite ?length_insert; rewrite E; nia.

(** [fill_iterator_data] at an index for which the five stores fall in
    the block, be it past the cells of the attribute. *)
Lemma fill_iterator_data_within layout comp d index items s n x :
  ready n x d -> 0 <= n -> 0 <= index -> 4 * n + index < x * n ->
  workspace_holds d items ->
  readable comp ->
  ost_size d + weight layout comp <= INT_MAX ->
  exists d' s',
    fill_iterator_data c layout comp d index s = Returns (0, d') s' /\
    shape d' = shape d /\ comp_index d' = comp_index d.
Proof using Hgen.
  intros Hready Hn Hi Hin Hw Hread Hmax.
  destruct Hread as ((count & Hcount & Hpos) & (ss & Hss) & (pa & Hpa) &
                     (fl & Hfl) & (po & Hpo) & _ & _ & Hok).
  pose proof Hready as Hr. unfold ready, shape in Hr.
  assert (E : Z.of_nat (length (arr d)) = x * n) by congruence.
  assert (P0 : stripe_count d = Some 0) by congruence.
  assert (P1 : stripe_size d = Some n) by congruence.
  assert (P2 : pattern d = Some (2 * n)) by congruence.
  assert (P3 : flags d = Some (3 * n)) by congruence.
  assert (P4 : pool d = Some (4 * n)) by congruence.
  clear Hr.
  pose proof Hw as (Hl & Hidx & Hsz & _).
  unfold weight in *. rewrite Hcount, Hfl in *.
  unfold fill_iterator_data. rewrite Hcount, Hss, Hpa, Hfl, Hpo.
  rewrite bind_getter, P0, bind_store by in_block E.
  rewrite bind_getter. pointers. rewrite P1, bind_store by in_block E.
  rewrite bind_getter. pointers. rewrite P2, bind_store by in_block E.
  rewrite bind_getter. pointers. rewrite P3, bind_store by in_block E.
  rewrite bind_getter, (bind_create_string_value c Hgen).
  pointers. rewrite P4, bind_store by in_block E.
  cbv zeta.
  destruct ((fl =? LCME_FL_INIT) || negb (llot_is_composite layout));
    cbv iota;
    match goal with
    | |- context [bind (iter_data_ost_try_resize c ?D ?len) ?k ?s1] =>
        set (D0 := D); set (s0 := s1)
    end;
    assert (Hw0 : workspace_holds D0 items) by exact Hw;
    assert (Hshape0 : shape D0 = shape d)
      by (unfold D0, shape; cbn; rewrite !length_insert; reflexivity);
    change (ost_size D0) with (ost_size d) in *.
  - assert (Hint : to_int count = count)
      by (apply to_int_small; unfold INT_MAX in *; lia).
    rewrite Hint.
    destruct (iter_data_ost_try_resize_completes c Hgen D0 count items s0
                Hw0 Hpos)
      as (d1 & E1 & S1 & C1 & Z1 & R1 & W1); [exact Hmax |].
    change (ost_size D0) with (ost_size d) in Z1.
    unfold bind at 1. rewrite E1. cbn [fst snd negb Z.eqb].
    destruct (ost_loop_completes (llc_ost_index comp) count 0 d1 items s0 W1)
      as (d2 & s2 & E2 & S2 & C2 & Z2 & W2); [lia | lia | lia | exact Hok |].
    exists d2, s2. split; [exact E2 |].
    split; [congruence |]. rewrite C2, C1. reflexivity.
  - destruct (iter_data_ost_try_resize_completes c Hgen D0 1 items s0 Hw0)
      as (d1 & E1 & S1 & C1 & Z1 & R1 & W1); [lia | exact Hmax |].
    change (ost_size D0) with (ost_size d) in Z1.
    unfold bind at 1. rewrite E1. cbn [fst snd negb Z.eqb].
    pose proof W1 as (Hl1 & Hi1 & Hs1 & _).
    unfold bind at 1.
    rewrite ost_append_in_bounds by (unfold INT_MAX in *; lia).
    unfold ret. eexists _, _. split; [reflexivity |].
    split; [rewrite <- Hshape0, <- S1; reflexivity | exact C1].
Qed.

(** The component after the last one the block has room for: the store
    through [end] falls past the end of the block. *)
Lemma xattrs_layout_iterator_overflows layout comp d items s n :
  ready n 8 d -> 0 < n -> comp_index d = n ->
  workspace_holds d items ->
  readable comp ->
  ost_size d + weight layout comp <= INT_MAX ->
  exists s', xattrs_layout_iterator c layout comp d s = Aborts OutOfBounds s'.
Proof using Hgen.
  intros Hready Hn Hci Hw Hread Hmax.
  destruct (fill_iterator_data_within layout comp d (comp_index d) items s
              n 8 Hready ltac:(lia) ltac:(lia) ltac:(lia) Hw Hread Hmax)
    as (d1 & s1 & E1 & S1 & C1).
  destruct Hread as (_ & _ & _ & _ & _ & ((b & e) & Hex) & _).
  pose proof Hready as Hr. unfold ready in Hr. rewrite <- S1 in Hr.
  unfold shape in Hr. cbn [Z.leb Z.compare Pos.compare Pos.compare_cont] in Hr.
  assert (E : Z.of_nat (length (arr d1)) = 8 * n) by congruence.
  assert (P6 : begin d1 = Some (6 * n)) by congruence.
  assert (P7 : end_ d1 = Some (7 * n)) by congruence.
  unfold xattrs_layout_iterator. unfold bind at 1. rewrite E1.
  cbn [fst snd negb Z.eqb]. cbv zeta.
  rewrite Hex, bind_getter. cbn [fst snd].
  rewrite P6, bind_store by in_block E.
  pointers. rewrite P7, C1, Hci.
  unfold bind at 1, store. cbn [arr set_arr]. rewrite length_insert, E.
  assert (B : (0 <=? 7 * n + n) && (7 * n + n <? 8 * n) = false).
  { apply andb_false_iff. right. apply Z.ltb_ge. lia. }
  rewrite B. eexists. reflexivity.
Qed.

(** The components the block has room for, with the size of the OST
    array. *)
Lemma comp_iterate_within layout n : forall comps d items s,
  ready n 8 d -> 0 <= comp_index d ->
  comp_index d + Z.of_nat (length comps) <= n -> n <= INT_MAX ->
  workspace_holds d items ->
  Forall readable comps ->
  ost_size d + weights layout comps <= INT_MAX ->
  exists d' s' items',
    comp_iterate (xattrs_layout_iterator c layout) comps d s
      = Returns (0, d') s' /\
    ready n 8 d' /\
    comp_index d' = comp_index d + Z.of_nat (length comps) /\
    ost_size d' <= ost_size d + weights layout comps /\
    workspace_holds d' items'.
Proof using Hgen.
  induction comps as [| comp rest IH];
    intros d items s Hready Hi Hlen Hn Hw Hread Hmax.
  - exists d, s, items. cbn. rewrite Z.add_0_r.
    split_and!; auto; lia.
  - apply Forall_cons in Hread as [Hcomp Hrest].
    pose proof (weight_nonneg layout comp Hcomp) as Hpos.
    pose proof (weights_nonneg layout rest Hrest) as Hposs.
    change (weights layout (comp :: rest))
      with (weight layout comp + weights layout rest) in *.
    cbn [length] in Hlen.
    destruct (xattrs_layout_iterator_completes c Hgen layout comp d items s n)
      as (d1 & s1 & E1 & R1 & C1 & Z1 & W1); try assumption; try lia.
    destruct (IH d1 (items ++ comp_osts layout comp) s1)
      as (d2 & s2 & items2 & E2 & R2 & C2 & Z2 & W2);
      try assumption; try lia.
    exists d2, s2, items2. cbn [comp_iterate]. unfold bind at 1. rewrite E1.
    cbn [fst snd Z.eqb]. split; [exact E2 |].
    split; [exact R2 |]. split; [cbn [length]; lia |].
    split; [lia | exact W2].
Qed.

Lemma comp_iterate_app (cb : llapi_comp -> iterator_data -> cmd workspace) :
  forall l1 l2 d s d' s',
    comp_iterate cb l1 d s = Returns (0, d') s' ->
    comp_iterate cb (l1 ++ l2) d s = comp_iterate cb l2 d' s'.
Proof using Type.
  induction l1 as [| a l1 IH]; intros l2 d s d' s' H; cbn [comp_iterate app] in *.
  - unfold ret in H. simplify_eq H. intros <- <-. reflexivity.
  - unfold bind in *. destruct (cb a d s) as [[rc d1] s1 | e s1];
      [| discriminate H].
    cbn [fst snd] in *. destruct (rc =? 0) eqn:Hrc; [| unfold ret in H].
    + apply IH, H.
    + simplify_eq H. intros -> _ _. discriminate Hrc.
Qed.

Lemma weights_app layout l1 l2 :
  weights layout (l1 ++ l2) = weights layout l1 + weights layout l2.
Proof using Type.
  induction l1 as [| a l1 IH]; [reflexivity |].
  cbn [app]. change (weights layout (a :: l1 ++ l2))
    with (weight layout a + weights layout (l1 ++ l2)).
  change (weights layout (a :: l1))
    with (weight layout a + weights layout l1).
  lia.
Qed.

(** The iteration over more components than the block has room for. *)
Lemma comp_iterate_overflows layout n comps d s :
  ready n 8 d -> comp_index d = 0 -> 0 < n -> n <= INT_MAX ->
  n < Z.of_nat (length comps) ->
  workspace_holds d [] ->
  Forall readable comps ->
  ost_size d + weights layout comps <= INT_MAX ->
  exists s',
    comp_iterate (xattrs_layout_iterator c layout) comps d s
      = Aborts OutOfBounds s'.
Proof using Hgen.
  intros Hready Hci Hn Hmaxn Hlen Hw Hread Hmax.
  rewrite <- (take_drop (Z.to_nat n) comps) in Hread, Hmax |- *.
  apply Forall_app in Hread as [Hfirst Hrest].
  rewrite weights_app in Hmax.
  assert (Hl1 : Z.of_nat (length (take (Z.to_nat n) comps)) = n)
    by (rewrite length_take; lia).
  destruct (drop (Z.to_nat n) comps) as [| comp rest] eqn:Hdrop.
  { apply (f_equal length) in Hdrop. rewrite length_drop in Hdrop.
    cbn in Hdrop. lia. }
  apply Forall_cons in Hrest as [Hcomp Hrest].
  pose proof (weights_nonneg layout _ Hfirst) as Hp1.
  pose proof (weight_nonneg layout comp Hcomp) as Hp2.
  pose proof (weights_nonneg layout rest Hrest) as Hp3.
  change (weights layout (comp :: rest))
    with (weight layout comp + weights layout rest) in Hmax.
  destruct (comp_iterate_within layout n (take (Z.to_nat n) comps) d [] s)
    as (d1 & s1 & items1 & E1 & R1 & C1 & Z1 & W1);
    try assumption; try lia.
  rewrite (comp_iterate_app _ _ (comp :: rest) _ _ _ _ E1).
  cbn [comp_iterate].
  destruct (xattrs_layout_iterator_overflows layout comp d1 items1 s1 n)
    as (s2 & E2); try assumption; try lia.
  exists s2. unfold bind. rewrite E2. reflexivity.
Qed.

End Crowded.

(** X14.  The block [init_iterator_data] allocates for a composite
    layout has room for as many components as the id of the last one.
    When the layout has more components than that, and nothing else
    fails, the iteration writes past the end of the block: the store
    through [end] for the first component the block has no room for is
    outside it. *)
Theorem more_components_than_the_last_id
    (c : collaborators) (fd : Z) (s : state) (layout : llapi_layout) (n : Z) :
  is_symlink s = false ->
  llapi_layout_get_by_fd c fd = Ok layout ->
  crowded c fd s layout n ->
  exists s', xattrs_get_layout c fd s = Aborts OutOfBounds s'.
Proof.
  intros Hsym Hl (Hgen & (fl & Hfl) & Hlov & Hcomp & (mc & Hmc) & Hread
                  & (comp & Hlast & Hid) & Hn & Hsmall & Hmax).
  unfold xattrs_get_layout.
  unfold bind at 1, get_state. rewrite Hsym.
  unfold bind at 1, log, update_state. rewrite Hl, bind_getter, Hfl, bind_getter.
  unfold fill_uint32_pair at 1. unfold bind at 1.
  rewrite (fill_pair_completes c Hgen). cbn [fst snd negb Z.eqb].
  unfold bind at 1, get_state.
  match goal with
  | |- context [bind ?magic_and_gen _ ?s2] =>
      assert (Hm : exists m s3, magic_and_gen s2 = Returns m s3 /\ 0 <= fst m)
  end.
  { cbn [is_reg set_values]. destruct (is_reg s).
    - destruct (Hlov eq_refl) as (lov & name & Hx & Hname).
      edestruct (xattrs_get_magic_and_gen_completes c Hgen fd lov name)
        as (m & s3 & E3 & F3); [exact Hx | exact Hname |].
      exists m, s3. split; [exact E3 | lia].
    - eexists _, _. split; [reflexivity |]. cbn. lia. }
  destruct Hm as (m & s3 & E3 & F3).
  unfold bind at 1. rewrite E3.
  assert (Hlt : (fst m <? 0) = false) by (apply Z.ltb_ge; lia).
  rewrite Hlt. cbv zeta. rewrite Hcomp.
  rewrite Hmc, bind_getter.
  unfold fill_uint32_pair at 1. unfold bind at 1.
  rewrite (fill_pair_completes c Hgen). cbn [fst snd negb Z.eqb].
  unfold bind at 1, layout_get_nb_comp. rewrite Hlast, Hid, bind_getter.
  unfold ret at 1. cbn [fst snd negb Z.eqb].
  assert (U : to_uint32 n = n)
    by (unfold to_uint32; apply Z.mod_small; lia).
  rewrite U.
  unfold layout_components.
  match goal with
  | |- context [bind (init_iterator_data c _ n ?x) _ ?s4] =>
      destruct (init_iterator_data_completes c Hgen n x s4)
        as (d0 & E0 & R0 & C0 & Z0 & W0); [lia | auto | lia |]
  end.
  unfold bind at 1. rewrite E0. cbn [fst snd negb Z.eqb]. rewrite Hcomp.
  unfold llapi_layout_comp_iterate.
  destruct (llot_comps layout) as [| comp0 rest] eqn:Hcomps;
    [discriminate Hlast |].
  match goal with
  | |- context [bind (comp_iterate _ _ d0) _ ?s5] =>
      destruct (comp_iterate_overflows c Hgen layout n (comp0 :: rest) d0 s5)
        as (s6 & E6); try assumption; try lia
  end.
  { unfold INT_MAX. lia. }
  exists s6. unfold bind at 1. rewrite E6. reflexivity.
Qed.

Lemma more_components_than_the_last_id_witness :
  exists s',
    xattrs_get_layout renumbered_site 3 (entry S_IFREG 0 [])
      = Aborts OutOfBounds s'.
Proof.
  refine (more_components_than_the_last_id renumbered_site 3
            (entry S_IFREG 0 []) renumbered_layout 2 eq_refl eq_refl _).
  split; [split; intros; reflexivity |].
  split; [exists 0; reflexivity |].
  split; [intros _; eexists _, _; split; reflexivity |].
  split; [reflexivity |].
  split; [exists 1; reflexivity |].
  split.
  { repeat (constructor; [apply comp_readable; lia |]). constructor. }
  split; [eexists; split; reflexivity |].
  split; [cbn; lia |]. split; [reflexivity |].
  vm_compute. intros H. discriminate H.
Defined.

(** *** What the functions leave alone *)

Section Kept.

Variable R : state -> state -> Prop.
Hypothesis R_refl : forall s, R s s.
Hypothesis R_trans : forall s1 s2 s3, R s1 s2 -> R s2 s3 -> R s1 s3.
Hypothesis R_errno : forall s e,
  R s {| errno := e; _values := _values s; is_dir := is_dir s;
         is_reg := is_reg s; is_symlink := is_symlink s;
         _inode_xattrs := _inode_xattrs s; calls := calls s |}.
Hypothesis R_values : forall s v, R s (set_values v s).

Lemma kept_ret {A} (a : A) : kept R (ret a).
Proof using R_refl.
  intros s b s' H. unfold ret in H. simplify_eq H. intros _ <-. apply R_refl.
Qed.

Lemma kept_abort {A} (e : fault) : kept R (@abort fault state A e).
Proof using Type. intros s b s' H. discriminate H. Qed.

Lemma kept_get_state : kept R (@get_state fault state).
Proof using R_refl.
  intros s b s' H. unfold get_state in H. simplify_eq H. intros _ <-.
  apply R_refl.
Qed.

Lemma kept_get_errno : kept R get_errno.
Proof using R_refl.
  intros s b s' H. unfold get_errno in H. simplify_eq H. intros _ <-.
  apply R_refl.
Qed.

Lemma kept_set_errno (e : Z) : kept R (set_errno e).
Proof using R_errno.
  intros s b s' H. unfold set_errno, update_state in H. simplify_eq H.
  intros _ <-. apply R_errno.
Qed.

Lemma kept_bind {A B} (m : cmd A) (k : A -> cmd B) :
  kept R m -> (forall a, kept R (k a)) -> kept R (bind m k).
Proof using R_trans.
  intros Hm Hk s b s' H. apply bind_Returns in H.
  destruct H as (a & s1 & H1 & H2).
  eapply R_trans; [eapply Hm, H1 | eapply Hk, H2].
Qed.

Lemma kept_getter {A} (r : res A) : kept R (getter r).
Proof using R_refl R_trans R_errno.
  destruct r; cbn [getter]; [apply kept_ret |].
  apply kept_bind; [apply kept_set_errno | intros ?; apply kept_ret].
Qed.

Lemma kept_push (c : collaborators) (b : block) :
  kept R (rbh_sstack_push c b).
Proof using R_refl R_trans R_errno R_values.
  unfold rbh_sstack_push.
  apply kept_bind; [apply kept_get_state |]. intros s.
  destruct (sstack_try c (_values s) b).
  - apply kept_bind; [| intros ?; apply kept_ret].
    intros s1 u s2 H. unfold update_state in H. simplify_eq H. intros _ <-.
    apply R_values.
  - apply kept_bind; [apply kept_set_errno | intros ?; apply kept_ret].
Qed.

Ltac kept_tac :=
  repeat match goal with
         | |- kept _ _ => assumption
         | H : forall _, _ |- kept _ _ => solve [apply H]
         | |- kept _ (rbh_sstack_push _ _) => apply kept_push
         | |- kept _ (getter _) => apply kept_getter
         | |- kept _ (ret _) => apply kept_ret
         | |- kept _ (abort _) => apply kept_abort
         | |- kept _ get_state => apply kept_get_state
         | |- kept _ get_errno => apply kept_get_errno
         | |- kept _ (set_errno _) => apply kept_set_errno
         | |- kept _ (bind _ _) => apply kept_bind; [| intros ?]
         | |- kept _ (match ?x with _ => _ end) => destruct x
         | |- kept _ (let _ := _ in _) => cbv zeta
         end.

Variable c : collaborators.

Lemma kept_fill_pair k v : kept R (fill_pair c k v).
Proof using R_refl R_trans R_errno R_values. unfold fill_pair. kept_tac. Qed.

Lemma kept_fill_sequence_pair k cells :
  kept R (fill_sequence_pair c k cells).
Proof using R_refl R_trans R_errno R_values.
  unfold fill_sequence_pair, fill_pair. kept_tac.
Qed.

Lemma kept_ost_loop replies : forall count i d,
  kept R (ost_loop count i replies d).
Proof using R_refl R_trans R_errno.
  induction replies as [| reply rest IH]; intros count i d; cbn [ost_loop].
  - kept_tac.
  - destruct (i <? count); [| kept_tac]. destruct reply; [| kept_tac].
    apply kept_bind; [unfold ost_append; cbv zeta; kept_tac |].
    intros d'. apply IH.
Qed.

Lemma kept_fill_iterator_data layout comp d index :
  kept R (fill_iterator_data c layout comp d index).
Proof using R_refl R_trans R_errno R_values.
  pose proof kept_ost_loop as Hloop.
  unfold fill_iterator_data, store, create_string_value,
    iter_data_ost_try_resize, ost_append.
  kept_tac; apply Hloop.
Qed.

Lemma kept_xattrs_layout_iterator layout comp d :
  kept R (xattrs_layout_iterator c layout comp d).
Proof using R_refl R_trans R_errno R_values.
  unfold xattrs_layout_iterator.
  apply kept_bind; [apply kept_fill_iterator_data |]. intros r.
  unfold store. kept_tac.
Qed.

Lemma kept_comp_iterate layout comps : forall d,
  kept R (comp_iterate (xattrs_layout_iterator c layout) comps d).
Proof using R_refl R_trans R_errno R_values.
  induction comps as [| comp rest IH]; intros d; cbn [comp_iterate].
  - kept_tac.
  - apply kept_bind; [apply kept_xattrs_layout_iterator |].
    intros r. destruct (fst r =? 0); [apply IH | kept_tac].
Qed.

Lemma kept_fill_layout_loop d entries : forall subcount out,
  kept R (fill_layout_loop c d entries subcount out).
Proof using R_refl R_trans R_errno R_values.
  induction entries as [| [k base] rest IH]; intros subcount out;
    cbn [fill_layout_loop].
  - kept_tac.
  - apply kept_bind; [unfold cells_at; kept_tac |]. intros cells.
    apply kept_bind; [apply kept_fill_sequence_pair |]. intros f.
    destruct (negb (fst f =? 0)); [kept_tac | apply IH].
Qed.

Lemma kept_layout_components layout nb x subcount out :
  kept R (layout_components c layout nb x subcount out).
Proof using R_refl R_trans R_errno R_values.
  unfold layout_components.
  apply kept_bind; [unfold init_iterator_data; kept_tac |]. intros i.
  destruct (negb (fst i =? 0)); [unfold layout_err; kept_tac |].
  apply kept_bind.
  { destruct (llot_is_composite layout).
    - unfold llapi_layout_comp_iterate.
      destruct (llot_comps layout); [kept_tac |].
      apply kept_comp_iterate.
    - apply kept_fill_iterator_data. }
  intros r.
  destruct (negb (fst r =? 0));
    [unfold layout_free_data, layout_err; kept_tac |].
  apply kept_bind.
  { unfold xattrs_fill_layout. cbv zeta.
    apply kept_bind; [apply kept_fill_layout_loop |]. intros l.
    destruct (negb (fst l)); [kept_tac |].
    apply kept_bind; [unfold ost_cells; kept_tac |]. intros cells.
    apply kept_bind; [apply kept_fill_sequence_pair |]. intros f.
    kept_tac. }
  intros f. unfold layout_free_data, layout_err. kept_tac.
Qed.

(** Given what it does of [log], every function of the callback. *)
Hypothesis kept_log : forall ev, kept R (log ev).

Lemma kept_xattrs_get_magic_and_gen fd :
  kept R (xattrs_get_magic_and_gen c fd).
Proof using R_refl R_trans R_errno R_values kept_log.
  unfold xattrs_get_magic_and_gen, fill_string_pair, fill_uint32_pair,
    fill_pair.
  kept_tac.
Qed.

Lemma kept_xattrs_get_layout fd : kept R (xattrs_get_layout c fd).
Proof using R_refl R_trans R_errno R_values kept_log.
  pose proof (kept_xattrs_get_magic_and_gen fd) as Hmagic.
  pose proof kept_layout_components as Hcomps.
  unfold xattrs_get_layout, fill_uint32_pair, fill_pair, layout_err,
    layout_get_nb_comp.
  kept_tac; apply Hcomps.
Qed.

Lemma kept_xattrs_get_hsm fd : kept R (xattrs_get_hsm c fd).
Proof using R_refl R_trans R_errno R_values kept_log.
  unfold xattrs_get_hsm, fill_uint32_pair, fill_pair. kept_tac.
Qed.

End Kept.

Lemma keeps_entry_log ev : kept keeps_entry (log ev).
Proof.
  intros s b s' H. unfold log, update_state in H. simplify_eq H.
  intros _ <-. unfold keeps_entry. cbn. auto.
Qed.

Lemma tame_xattrs_get_hsm (c : collaborators) fd :
  tame (xattrs_get_hsm c fd).
Proof.
  apply kept_xattrs_get_hsm;
    [apply keeps_entry_refl | apply keeps_entry_trans | | | apply keeps_entry_log];
    intros; unfold keeps_entry; cbn; auto.
Qed.

Lemma tame_xattrs_get_layout (c : collaborators) fd :
  tame (xattrs_get_layout c fd).
Proof.
  apply kept_xattrs_get_layout;
    [apply keeps_entry_refl | apply keeps_entry_trans | | | apply keeps_entry_log];
    intros; unfold keeps_entry; cbn; auto.
Qed.

(** *** How many pairs the callback writes *)

Section Counts.

Variable c : collaborators.

Lemma xattrs_get_hsm_count fd s r s' :
  xattrs_get_hsm c fd s = Returns r s' ->
  fst r = -1 \/ fst r = (if is_reg s then 2 else 0).
Proof.
  unfold xattrs_get_hsm. intros H.
  apply bind_Returns in H. destruct H as (sa & sb & Hg & H).
  unfold get_state in Hg. simplify_eq Hg. intros <- <-. clear Hg.
  destruct (is_reg s); cbn [negb] in H.
  - apply bind_Returns in H. destruct H as (u & s1 & _ & H).
    destruct (negb (fst (llapi_hsm_state_get_fd c fd) =? 0)).
    { minv. left. reflexivity. }
    eapply two_pairs in H.
    + destruct H as [Hf | [Hz _]]; auto.
    + intros ? ? ?. apply fill_pair_one.
    + intros ? ? ?. apply fill_pair_one.
  - unfold ret in H. simplify_eq H. intros <- _. right. reflexivity.
Qed.

Lemma xattrs_get_mdt_info_count fd s r s' :
  xattrs_get_mdt_info c fd s = Returns r s' ->
  fst r = -1 \/
  (if is_dir s then fst r = 0 \/ fst r = 3
   else if is_symlink s then fst r = 0 else fst r = 1).
Proof.
  unfold xattrs_get_mdt_info, fill_uint32_pair, fill_int32_pair.
  intros H.
  apply bind_Returns in H. destruct H as (sa & sb & Hg & H).
  unfold get_state in Hg. simplify_eq Hg. intros <- <-. clear Hg.
  destruct (is_dir s).
  - apply bind_Returns in H. destruct H as (u & s1 & _ & H).
    destruct (ioctl_lmv_getstripe c fd) as [lum | e].
    + destruct (negb (alloc c (lum_stripe_count lum))).
      { minv. left. reflexivity. }
      apply bind_Returns in H. destruct H as (cells & s2 & _ & H).
      apply bind_Returns in H. destruct H as (f1 & s3 & H1 & H).
      apply fill_sequence_pair_one in H1. destruct H1 as [[Hz1 Hl1] | Hm1];
        [rewrite Hz1 in H; cbn [negb Z.eqb] in H
        | rewrite Hm1 in H; early H].
      apply bind_Returns in H. destruct H as (f2 & s4 & H2 & H).
      apply fill_pair_one in H2. destruct H2 as [[Hz2 Hl2] | Hm2];
        [rewrite Hz2 in H; cbn [negb Z.eqb] in H
        | rewrite Hm2 in H; early H].
      apply bind_Returns in H. destruct H as (f3 & s5 & H3 & H).
      apply fill_pair_one in H3. destruct H3 as [[Hz3 Hl3] | Hm3];
        [rewrite Hz3 in H; cbn [negb Z.eqb] in H
        | rewrite Hm3 in H; early H].
      unfold ret in H. simplify_eq H. intros <- _. right. right. reflexivity.
    + minv; [right; left | left]; reflexivity.
  - destruct (is_symlink s); cbn [negb] in H.
    + unfold ret in H. simplify_eq H. intros <- _. right. reflexivity.
    + apply bind_Returns in H. destruct H as (u & s1 & _ & H).
      apply bind_Returns in H. destruct H as (m & s2 & _ & H).
      destruct m as [mdt |]; [| minv; left; reflexivity].
      apply bind_Returns in H. destruct H as (f & s3 & Hf & H).
      apply fill_pair_one in Hf. destruct Hf as [[Hz Hl] | Hm].
      * rewrite Hz in H. cbn in H. unfold ret in H. simplify_eq H.
        intros <- _. right. reflexivity.
      * rewrite Hm in H. cbn in H. unfold ret in H. simplify_eq H.
        intros <- _. left. reflexivity.
Qed.

Lemma xattrs_get_layout_kind fd s r s' :
  xattrs_get_layout c fd s = Returns r s' ->
  fst r = -1 \/
  (if is_symlink s then fst r = 0
   else fst r = 7 + (if is_reg s then 2 else 0) \/
        fst r = 11 + (if is_reg s then 2 else 0)).
Proof.
  intros H. destruct (Z.eq_dec (fst r) (-1)) as [Hm | Hne]; [auto | right].
  destruct (is_symlink s) eqn:Hs.
  - rewrite xattrs_get_layout_symlink in H by exact Hs.
    simplify_eq H. intros <- _. reflexivity.
  - destruct (llapi_layout_get_by_fd c fd) as [layout | e] eqn:Hl.
    + destruct (xattrs_get_layout_count c fd s layout r s' Hs Hl H Hne)
        as [Hc _].
      destruct (llot_is_composite layout); auto.
    + exfalso. apply Hne. unfold xattrs_get_layout in H.
      unfold bind at 1, get_state in H. rewrite Hs in H.
      unfold bind at 1, log, update_state in H. rewrite Hl in H.
      cbn in H. simplify_eq H. intros <- _. reflexivity.
Qed.

End Counts.

Lemma file_kinds mode :
  (S_ISLNK mode = true -> S_ISREG mode = false /\ S_ISDIR mode = false) /\
  (S_ISREG mode = true -> S_ISDIR mode = false /\ S_ISLNK mode = false) /\
  (S_ISDIR mode = true -> S_ISREG mode = false /\ S_ISLNK mode = false).
Proof.
  unfold S_ISLNK, S_ISREG, S_ISDIR.
  split_and!; intros H; apply Z.eqb_eq in H; rewrite H; split; reflexivity.
Qed.

(** The four functions of a callback that does not give back -1, and
    the retention pass after them. *)
Lemma callback_stages
    (c : collaborators) (fd mode : Z) (values : list block) (s : state)
    (r : filled) (s' : state) :
  lustre_ns_xattrs_callback c fd mode values s = Returns r s' ->
  fst r <> -1 ->
  exists r1 s2 r2 s3 r3 s4 r4 s5,
    xattrs_get_fid c fd (enter_entry mode values s) = Returns r1 s2 /\
    xattrs_get_hsm c fd s2 = Returns r2 s3 /\
    xattrs_get_layout c fd s3 = Returns r3 s4 /\
    xattrs_get_mdt_info c fd s4 = Returns r4 s5 /\
    xattrs_get_retention c s5 = Returns tt s' /\
    fst r1 <> -1 /\ fst r2 <> -1 /\ fst r3 <> -1 /\ fst r4 <> -1 /\
    fst r = fst r1 + fst r2 + fst r3 + fst r4 /\
    keeps_entry (enter_entry mode values s) s4.
Proof.
  intros H Hne. unfold lustre_ns_xattrs_callback in H.
  apply bind_Returns in H. destruct H as (u & s1 & Hu & H).
  unfold update_state in Hu. simplify_eq Hu. intros _ <-. clear Hu.
  apply bind_Returns in H. destruct H as ([ok x] & s5 & Hloop & H).
  cbn [fst snd] in H.
  assert (Hx : ok = true /\ r = x /\ xattrs_get_retention c s5 = Returns tt s').
  { destruct ok; cbn [negb] in H.
    - apply bind_Returns in H. destruct H as ([] & s6 & Hret & H).
      unfold ret in H. simplify_eq H. intros <- <-. auto.
    - exfalso. unfold ret in H. simplify_eq H. intros <- _.
      apply xattrs_funcs_loop_runs in Hloop.
      destruct Hloop as (rs & all & _ & Hx).
      assert (all = false) by congruence. subst all.
      assert (Hy : x = (-1, [] ++ written rs)) by congruence.
      apply Hne. rewrite Hy. reflexivity. }
  destruct Hx as (-> & <- & Hret). clear H.
  unfold xattrs_funcs in Hloop. cbn [xattrs_funcs_loop] in Hloop.
  apply bind_Returns in Hloop. destruct Hloop as (r1 & s2 & H1 & H).
  destruct (fst r1 =? -1) eqn:E1; [unfold ret in H; simplify_eq H |].
  apply bind_Returns in H. destruct H as (r2 & s3 & H2 & H).
  destruct (fst r2 =? -1) eqn:E2; [unfold ret in H; simplify_eq H |].
  apply bind_Returns in H. destruct H as (r3 & s4 & H3 & H).
  destruct (fst r3 =? -1) eqn:E3; [unfold ret in H; simplify_eq H |].
  apply bind_Returns in H. destruct H as (r4 & s6 & H4 & H).
  destruct (fst r4 =? -1) eqn:E4; [unfold ret in H; simplify_eq H |].
  unfold ret in H. simplify_eq H. intros <- <-. cbn [fst].
  apply Z.eqb_neq in E1, E2, E3, E4.
  exists r1, s2, r2, s3, r3, s4, r4, s6.
  split_and!; try assumption; try lia.
  pose proof (xattrs_get_fid_Returns c fd _ _ _ H1) as [K1 _].
  pose proof (tame_xattrs_get_hsm c fd _ _ _ H2) as K2.
  pose proof (tame_xattrs_get_layout c fd _ _ _ H3) as K3.
  eapply keeps_entry_trans; [| exact K3].
  eapply keeps_entry_trans; eassumption.
Qed.

(** X15.  The number of pairs the callback gives back, when it is not
    -1, is decided by the kind of the entry, by whether its layout is
    composite and, for a directory, by whether LL_IOC_LMV_GETSTRIPE
    answers: 1 for a symbolic link; 13 or 17 for a regular file; 8, 11, 12
    or 15 for a directory; 9 or 13 for anything else.  It is never more
    than 17. *)
Theorem callback_pair_count
    (c : collaborators) (fd mode : Z) (values : list block) (s : state)
    (r : filled) (s' : state) :
  lustre_ns_xattrs_callback c fd mode values s = Returns r s' ->
  fst r <> -1 ->
  (if S_ISLNK mode then fst r = 1
   else if S_ISREG mode then fst r = 13 \/ fst r = 17
   else if S_ISDIR mode then
     fst r = 8 \/ fst r = 11 \/ fst r = 12 \/ fst r = 15
   else fst r = 9 \/ fst r = 13) /\
  1 <= fst r <= 17.
Proof.
  intros H Hne.
  destruct (callback_stages c fd mode values s r s' H Hne)
    as (r1 & s2 & r2 & s3 & r3 & s4 & r4 & s5 & H1 & H2 & H3 & H4 & _
        & E1 & E2 & E3 & E4 & -> & K4).
  pose proof (xattrs_get_fid_Returns c fd _ _ _ H1) as [K1 [C1 | [C1 _]]];
    [contradiction |].
  pose proof (tame_xattrs_get_hsm c fd _ _ _ H2) as K2.
  pose proof (keeps_entry_trans _ _ _ K1 K2) as K12.
  destruct K1 as (D1 & R1 & L1 & _). destruct K12 as (D2 & R2 & L2 & _).
  destruct K4 as (D3 & R3 & L3 & _).
  cbn [is_dir is_reg is_symlink enter_entry] in D1, R1, L1, D2, R2, L2,
    D3, R3, L3.
  apply xattrs_get_hsm_count in H2. destruct H2 as [C2 | C2];
    [contradiction |].
  apply xattrs_get_layout_kind in H3. destruct H3 as [C3 | C3];
    [contradiction |].
  apply xattrs_get_mdt_info_count in H4. destruct H4 as [C4 | C4];
    [contradiction |].
  rewrite R1 in C2. rewrite L2, R2 in C3. rewrite D3, L3 in C4.
  destruct (file_kinds mode) as (Klnk & Kreg & Kdir).
  destruct (S_ISLNK mode) eqn:Elnk.
  { destruct (Klnk eq_refl) as [Er Ed]. rewrite Er in *. rewrite Ed in *.
    lia. }
  destruct (S_ISREG mode) eqn:Ereg.
  { destruct (Kreg eq_refl) as [Ed _]. rewrite Ed in *. lia. }
  destruct (S_ISDIR mode) eqn:Edir; lia.
Qed.

Lemma callback_pair_count_witness :
  exists r s',
    lustre_ns_xattrs_callback site 3 S_IFREG [] (entry 0 0 []) = Returns r s' /\
    fst r = 17.
Proof.
  destruct (lustre_ns_xattrs_callback site 3 S_IFREG [] (entry 0 0 []))
    as [r s' | e s'] eqn:Hrun.
  - exists r, s'. split; [reflexivity |].
    assert (Hne : fst r <> -1).
    { pose proof Hrun as Hc. vm_compute in Hc. simplify_eq Hc.
      intros <- _. cbn. discriminate. }
    assert (H13 : fst r <> 13).
    { pose proof Hrun as Hc. vm_compute in Hc. simplify_eq Hc.
      intros <- _. cbn. discriminate. }
    pose proof (proj1 (callback_pair_count site 3 S_IFREG [] (entry 0 0 [])
                         r s' Hrun Hne)) as H.
    change (S_ISLNK S_IFREG) with false in H.
    change (S_ISREG S_IFREG) with true in H.
    cbv iota in H. destruct H as [H | H]; [contradiction | exact H].
  - vm_compute in Hrun. discriminate Hrun.
Defined.

(** X16.  When the memory for the array of OST indices is refused,
    [errno] is set to -ENOMEM, a negative value: by
    [iter_data_ost_try_resize], which gives back -1 and leaves the
    workspace as it was, and by [init_iterator_data], after which
    [xattrs_get_layout] gives back -1 with the pair "flags" written and
    [errno] still at -ENOMEM. *)
Theorem refused_memory_leaves_minus_enomem (c : collaborators) :
  (forall d len s,
     in_int (ost_idx d + len) = true ->
     in_int (ost_size d + len) = true ->
     ost_size d < ost_idx d + len ->
     alloc c (ost_size d + len) = false ->
     iter_data_ost_try_resize c d len s =
       Returns (-1, d)
         {| errno := - ENOMEM; _values := _values s; is_dir := is_dir s;
            is_reg := is_reg s; is_symlink := is_symlink s;
            _inode_xattrs := _inode_xattrs s; calls := calls s |})
  /\
  (forall fd s layout fl,
     is_symlink s = false -> is_reg s = false ->
     llapi_layout_get_by_fd c fd = Ok layout ->
     llot_is_composite layout = false ->
     llot_flags layout = Ok fl ->
     sstack_try c (_values s) (BValue (RBH_VT_UINT32 (to_uint32 fl))) = Ok tt ->
     alloc c 5 = true -> alloc c 1 = false ->
     exists s',
       xattrs_get_layout c fd s =
         Returns (-1, [{| key := "flags";
                          value := Some (RBH_VT_UINT32 (to_uint32 fl)) |}])
           s' /\
       errno s' = - ENOMEM).
Proof.
  split.
  - intros d len s H1 H2 Hlt Ha. unfold iter_data_ost_try_resize.
    apply Z.ltb_lt in Hlt. rewrite H1, H2, Hlt, Ha. cbn [negb].
    rewrite andb_false_r. reflexivity.
  - intros fd s layout fl Hs Hr Hl Hc Hfl Hpush A5 A1.
    unfold xattrs_get_layout, layout_components, init_iterator_data,
      layout_err, fill_uint32_pair, fill_pair, rbh_sstack_push, bind, log,
      get_state, get_errno, set_errno, update_state.
    rewrite Hs. cbn [is_reg is_symlink _values]. rewrite Hl. cbn [getter ret].
    rewrite Hfl. cbn [getter ret _values]. rewrite Hpush.
    cbn [fst snd negb Z.eqb is_reg _values]. rewrite Hr. cbn [ret fst snd].
    rewrite Hc. cbv zeta.
    change (to_uint32 (5 * 1)) with 5. rewrite A5, A1. cbn.
    eexists. split; reflexivity.
Qed.

Lemma refused_memory_leaves_minus_enomem_witness :
  exists s',
    xattrs_get_layout tight 4 (entry S_IFDIR 0 []) =
      Returns (-1, [{| key := "flags"; value := Some (RBH_VT_UINT32 0) |}])
        s' /\
    errno s' = -12.
Proof.
  exact (proj2 (refused_memory_leaves_minus_enomem tight) 4
           (entry S_IFDIR 0 []) LustreExamples.dir_layout 0
           eq_refl eq_refl eq_refl eq_refl eq_refl eq_refl eq_refl eq_refl).
Defined.

End LustreWrites.

(** ** lustre.c: the retention pass, beyond plain numbers *)

Module LustreRetention.

Import Lustre LustreCases.
Import LustreProps LustreWrites.

(** A value [strtoul] converts as a whole, with [errno] at 0: the pass
    goes on to replace the pair. *)
Lemma retention_converts (c : collaborators) (s : state)
    (before after : list rbh_value_pair) (data : list byte)
    (result : Z) (end_off : nat) :
  _inode_xattrs s = before ++ expires_at (Some (RBH_VT_BINARY data)) :: after ->
  Forall passed_over before ->
  Z.of_nat (length data) < UINT64_MAX_STR_LEN ->
  strtoul (data ++ [x00]) = (result, end_off, false) ->
  end_off <> 0%nat ->
  nth end_off (data ++ [x00]) x00 = x00 ->
  errno s = 0 ->
  xattrs_get_retention c s =
    bind (fill_uint64_pair c XATTR_CCC_EXPIRES_AT result)
      (fun new_pair => set_inode_xattrs (before ++ snd new_pair ++ after)) s.
Proof.
  intros Hx Hb Hl Hs He Hn Herr.
  rewrite (retention_at_candidate c s before data after Hx Hb Hl).
  rewrite (retention_candidate_step c s before data after Hl).
  cbv zeta. rewrite Hs. cbn [fst snd].
  unfold bind at 1. unfold ret at 1. unfold bind at 1. unfold get_errno.
  rewrite Herr, Hn. cbn [Z.eqb negb orb].
  apply Nat.eqb_neq in He. rewrite He, andb_false_r. cbn [orb negb byte_code].
  change (Z.of_N (Byte.to_N x00) =? 0) with true. reflexivity.
Qed.

Lemma strtoul_minus (ds : list byte) :
  ds <> [] ->
  Forall (fun b => isdigit b = true) ds ->
  decimal ds <= ULONG_MAX ->
  strtoul ((x2d :: ds) ++ [x00])
    = (to_uint64 (- decimal ds), S (length ds), false).
Proof.
  intros Hne Hd Hmax. unfold strtoul.
  change (span isspace ((x2d :: ds) ++ [x00])) with (@nil byte).
  cbn [length skipn app].
  change (byte_code x2d =? 45) with true. cbn [fst snd skipn].
  change (drop 0 (ds ++ [x00])) with (ds ++ [x00]).
  rewrite span_digits by exact Hd.
  destruct ds as [| b ds]; [contradiction |].
  assert (Hle : (ULONG_MAX <? decimal (b :: ds)) = false)
    by (apply Z.ltb_ge; exact Hmax).
  rewrite Hle. reflexivity.
Qed.

(** X17.  The retention pass takes what [strtoul] takes, a minus sign
    included: a value made of "-" and a non-empty string of digits that
    denotes [v], at most 2^64 - 1, is replaced by the UInt64 [-v] modulo
    2^64, so that "-1" expires at 18446744073709551615. *)
Theorem retention_takes_a_minus_sign
    (c : collaborators) (s : state) (before after : list rbh_value_pair)
    (ds : list byte) :
  _inode_xattrs s =
    before ++ expires_at (Some (RBH_VT_BINARY (x2d :: ds))) :: after ->
  Forall passed_over before ->
  Z.of_nat (length ds) < UINT64_MAX_STR_LEN - 1 ->
  ds <> [] ->
  Forall (fun b => isdigit b = true) ds ->
  decimal ds <= ULONG_MAX ->
  errno s = 0 ->
  sstack_try c (_values s)
    (BValue (RBH_VT_UINT64 (to_uint64 (- decimal ds)))) = Ok tt ->
  exists s',
    xattrs_get_retention c s = Returns tt s' /\
    _inode_xattrs s' =
      before
      ++ expires_at (Some (RBH_VT_UINT64 (to_uint64 (- decimal ds)))) :: after.
Proof.
  intros Hx Hb Hl Hne Hd Hmax Herr Hpush.
  rewrite (retention_converts c s before after (x2d :: ds)
             (to_uint64 (- decimal ds)) (S (length ds)) Hx Hb).
  - assert (E : to_uint64 (to_uint64 (- decimal ds)) = to_uint64 (- decimal ds))
      by (unfold to_uint64; apply Z.mod_mod; lia).
    unfold fill_uint64_pair, fill_pair, rbh_sstack_push, get_state, bind.
    cbn. rewrite E, Hpush. cbn. eexists. split; reflexivity.
  - cbn [length]. lia.
  - apply strtoul_minus; assumption.
  - discriminate.
  - change ((x2d :: ds) ++ [x00]) with (x2d :: (ds ++ [x00])).
    cbn [nth]. rewrite app_nth2 by lia. rewrite Nat.sub_diag. reflexivity.
  - exact Herr.
Qed.

Lemma retention_takes_a_minus_sign_witness :
  exists s',
    xattrs_get_retention site
      (entry S_IFREG 0 [LustreExamples.expires_pair "-1"]) = Returns tt s' /\
    _inode_xattrs s' =
      [expires_at (Some (RBH_VT_UINT64 18446744073709551615))].
Proof.
  refine (retention_takes_a_minus_sign site
            (entry S_IFREG 0 [LustreExamples.expires_pair "-1"]) [] [] [x31]
            eq_refl _ _ _ _ _ eq_refl eq_refl).
  - constructor.
  - cbn. unfold UINT64_MAX_STR_LEN. lia.
  - discriminate.
  - repeat constructor.
  - vm_compute. intros H. discriminate H.
Defined.

(** X18.  When the arena refuses the new value, the retention pass
    replaces the pair all the same: a value that is a number loses it, the
    pair is left with its key and a NULL value, and [errno] is what the
    arena set. *)
Theorem retention_loses_the_value_when_the_arena_is_full
    (c : collaborators) (s : state) (before after : list rbh_value_pair)
    (data : list byte) (e : Z) :
  _inode_xattrs s = before ++ expires_at (Some (RBH_VT_BINARY data)) :: after ->
  Forall passed_over before ->
  Z.of_nat (length data) < UINT64_MAX_STR_LEN ->
  data <> [] ->
  Forall (fun b => isdigit b = true) data ->
  decimal data <= ULONG_MAX ->
  errno s = 0 ->
  sstack_try c (_values s) (BValue (RBH_VT_UINT64 (decimal data))) = Err e ->
  exists s',
    xattrs_get_retention c s = Returns tt s' /\
    _inode_xattrs s' = before ++ expires_at None :: after /\
    errno s' = e /\ _values s' = _values s.
Proof.
  intros Hx Hb Hl Hne Hd Hmax Herr Hpush.
  rewrite (retention_converts c s before after data (decimal data)
             (length data) Hx Hb Hl).
  - assert (E : to_uint64 (decimal data) = decimal data).
    { unfold to_uint64. apply Z.mod_small.
      pose proof (decimal_nonneg data Hd). unfold ULONG_MAX in Hmax. lia. }
    unfold fill_uint64_pair, fill_pair, rbh_sstack_push, get_state, bind.
    cbn. rewrite E, Hpush. cbn. eexists. split; [reflexivity |].
    cbn. auto.
  - apply strtoul_digits; assumption.
  - destruct data; [contradiction | discriminate].
  - rewrite app_nth2 by lia. rewrite Nat.sub_diag. reflexivity.
  - exact Herr.
Qed.

Lemma retention_loses_the_value_when_the_arena_is_full_witness :
  exists s',
    xattrs_get_retention full_arena
      (entry S_IFREG 0 [LustreExamples.other_pair;
                        LustreExamples.expires_pair "1700000000"])
      = Returns tt s' /\
    _inode_xattrs s' = [LustreExamples.other_pair] ++ expires_at None :: [] /\
    errno s' = ENOMEM /\ _values s' = [].
Proof.
  refine (retention_loses_the_value_when_the_arena_is_full full_arena
            (entry S_IFREG 0 [LustreExamples.other_pair;
                              LustreExamples.expires_pair "1700000000"])
            [LustreExamples.other_pair] []
            (LustreExamples.ascii_bytes "1700000000") ENOMEM
            eq_refl _ _ _ _ _ eq_refl eq_refl).
  - constructor; [left; discriminate | constructor].
  - cbn. unfold UINT64_MAX_STR_LEN. lia.
  - discriminate.
  - repeat constructor.
  - vm_compute. intros H. discriminate H.
Defined.

(** With [errno] not at 0 the pass changes no pair. *)
Lemma retention_loop_stale (c : collaborators) : forall rest acc s s',
  retention_loop c acc rest s = Returns tt s' ->
  errno s <> 0 ->
  _inode_xattrs s' = _inode_xattrs s.
Proof.
  induction rest as [| p rest IH]; intros acc s s' H He;
    cbn [retention_loop] in H.
  - unfold ret in H. simplify_eq H. intros <-. reflexivity.
  - destruct (negb (String.eqb (key p) XATTR_CCC_EXPIRES_AT));
      [eapply IH; eassumption |].
    destruct (value p) as [[data | | | | |] |];
      try (unfold abort in H; discriminate H).
    destruct (UINT64_MAX_STR_LEN <=? Z.of_nat (length data));
      [eapply IH; eassumption |].
    cbv zeta in H.
    destruct (strtoul (data ++ [x00])) as [[result end_off] range].
    cbn [fst snd] in H. unfold bind at 1 in H.
    destruct range; cbn [set_errno update_state ret] in H.
    + unfold bind, get_errno in H. cbn in H. unfold ret in H.
      simplify_eq H. intros <-. reflexivity.
    + unfold bind at 1 in H. unfold get_errno in H.
      apply Z.eqb_neq in He. rewrite He in H. cbn [negb orb] in H.
      unfold ret in H. simplify_eq H. intros <-. reflexivity.
Qed.

(** X19.  [errno] is not cleared before [strtoul], and the pass gives up
    when it is not 0 afterwards: entered with [errno] at another value
    than 0, [xattrs_get_retention] changes no pair, whatever the values.
    That is the case at the end of the callback for every directory that
    is not striped, LL_IOC_LMV_GETSTRIPE having left ENODATA: the callback
    leaves the extended attributes of such a directory as they were. *)
Theorem stale_errno_disables_retention (c : collaborators) :
  (forall s s',
     errno s <> 0 ->
     xattrs_get_retention c s = Returns tt s' ->
     _inode_xattrs s' = _inode_xattrs s)
  /\
  (forall fd mode values s r s',
     S_ISDIR mode = true ->
     ioctl_lmv_getstripe c fd = Err ENODATA ->
     lustre_ns_xattrs_callback c fd mode values s = Returns r s' ->
     fst r <> -1 ->
     _inode_xattrs s' = _inode_xattrs s).
Proof.
  assert (Hstale : forall s s',
            errno s <> 0 ->
            xattrs_get_retention c s = Returns tt s' ->
            _inode_xattrs s' = _inode_xattrs s).
  { intros s s' He H. unfold xattrs_get_retention, bind, get_state in H.
    eapply retention_loop_stale; eassumption. }
  split; [exact Hstale |].
  intros fd mode values s r s' Hdir Hioctl H Hne.
  destruct (callback_stages c fd mode values s r s' H Hne)
    as (r1 & s2 & r2 & s3 & r3 & s4 & r4 & s5 & _ & _ & _ & H4 & Hret
        & _ & _ & _ & _ & _ & K4).
  destruct K4 as (D4 & _ & _ & X4).
  cbn [is_dir _inode_xattrs enter_entry] in D4, X4.
  unfold xattrs_get_mdt_info, bind, get_state, log, set_errno, update_state
    in H4.
  rewrite D4, Hdir, Hioctl in H4. cbn in H4. unfold ret in H4.
  simplify_eq H4. intros _ <-.
  eapply Hstale in Hret; [| cbn; unfold ENODATA; lia].
  rewrite Hret. cbn. exact X4.
Qed.

Lemma stale_errno_disables_retention_witness :
  exists r s',
    lustre_ns_xattrs_callback site 9 S_IFDIR []
      (entry 0 0 [LustreExamples.expires_pair "1700000000"]) = Returns r s' /\
    _inode_xattrs s' = [LustreExamples.expires_pair "1700000000"].
Proof.
  destruct (lustre_ns_xattrs_callback site 9 S_IFDIR []
              (entry 0 0 [LustreExamples.expires_pair "1700000000"]))
    as [r s' | e s'] eqn:Hrun.
  - exists r, s'. split; [reflexivity |].
    assert (Hne : fst r <> -1).
    { pose proof Hrun as Hc. vm_compute in Hc. simplify_eq Hc.
      intros <- _. cbn. discriminate. }
    exact (proj2 (stale_errno_disables_retention site) 9 S_IFDIR []
             (entry 0 0 [LustreExamples.expires_pair "1700000000"]) r s'
             eq_refl eq_refl Hrun Hne).
  - vm_compute in Hrun. discriminate Hrun.
Defined.

End LustreRetention.

(** ** lustre.c: [fill_iterator_data] stays in its arrays *)

Module LustreSafety.

Import Lustre LustreCases LustreLayout.
Import LustreProps LustreWrites.

Section Safety.

Variable c : collaborators.

Lemma create_string_value_runs str len s :
  exists v s', create_string_value c str len s = Returns v s'.
Proof.
  unfold create_string_value, rbh_sstack_push, bind, get_state.
  destruct (sstack_try c (_values s) (BString str len));
    eexists _, _; reflexivity.
Qed.

(** The resize does not fault when the sizes fit an [int], and when it
    gives back 0 there is room. *)
Lemma iter_data_ost_try_resize_runs d len items s :
  workspace_holds d items ->
  0 <= len ->
  ost_size d + len <= INT_MAX ->
  exists r s',
    iter_data_ost_try_resize c d len s = Returns r s' /\
    (fst r = 0 ->
     workspace_holds (snd r) items /\
     ost_idx (snd r) + len <= ost_size (snd r) /\
     ost_size (snd r) <= INT_MAX).
Proof.
  intros Hw Hlen Hmax. pose proof Hw as (Hl & Hi & Hs & Ht).
  destruct (iter_data_ost_try_resize c d len s) as [r s1 | e s1] eqn:Hr.
  - exists r, s1. split; [reflexivity |]. intros Hz.
    destruct (iter_data_ost_try_resize_room c d len items s r s1 Hw Hr Hz)
      as [Hw' Hroom].
    split; [exact Hw' |]. split; [exact Hroom |].
    unfold iter_data_ost_try_resize in Hr. minv; cbn in *; lia.
  - exfalso. unfold iter_data_ost_try_resize in Hr.
    assert (E1 : in_int (ost_idx d + len) = true).
    { unfold in_int, INT_MIN. unfold INT_MAX in *.
      apply andb_true_iff. split; apply Z.leb_le; lia. }
    assert (E2 : in_int (ost_size d + len) = true).
    { unfold in_int, INT_MIN. unfold INT_MAX in *.
      apply andb_true_iff. split; apply Z.leb_le; lia. }
    rewrite E1, E2 in Hr. cbn [negb] in Hr.
    destruct (ost_size d <? ost_idx d + len);
      [destruct ((0 <? ost_size d + len) && alloc c (ost_size d + len)) |];
      discriminate.
Qed.

Ltac pointers :=
  cbn [stripe_count stripe_size pattern flags pool mirror_id begin end_
       comp_index set_arr set_ost set_comp_index].

Ltac in_block E :=
  cbn [arr set_arr]; rewrite ?length_insert; rewrite E; nia.

Ltac gave_up := cbn; eexists _, _; reflexivity.

(** X20.  Whatever liblustre answers, and whether or not memory and
    arena are granted, [fill_iterator_data] returns without an access
    outside the block or the OST array, provided that [index] is below the
    number of components the block was allocated for and that the number
    of stripes, added to the size of the OST array, fits an [int]. *)
Theorem fill_iterator_data_is_safe
    (layout : llapi_layout) (comp : llapi_comp) (d : iterator_data)
    (index : Z) (items : list Z) (s : state) (n x : Z) :
  ready n x d -> 5 <= x -> 0 <= index < n ->
  workspace_holds d items ->
  (forall count,
     llc_stripe_count comp = Ok count ->
     0 <= count /\ ost_size d + count <= INT_MAX) ->
  ost_size d < INT_MAX ->
  exists r s', fill_iterator_data c layout comp d index s = Returns r s'.
Proof.
  intros Hready Hx Hi Hw Hcount Hone.
  pose proof Hready as Hr. unfold ready, shape in Hr.
  assert (E : Z.of_nat (length (arr d)) = x * n) by congruence.
  assert (P0 : stripe_count d = Some 0) by congruence.
  assert (P1 : stripe_size d = Some n) by congruence.
  assert (P2 : pattern d = Some (2 * n)) by congruence.
  assert (P3 : flags d = Some (3 * n)) by congruence.
  assert (P4 : pool d = Some (4 * n)) by congruence.
  clear Hr.
  unfold fill_iterator_data.
  destruct (llc_stripe_count comp) as [count | e0]; [| gave_up].
  destruct (Hcount count eq_refl) as [Hpos Hmax].
  rewrite bind_getter, P0, bind_store by in_block E.
  destruct (llc_stripe_size comp) as [ss | e1]; [| gave_up].
  rewrite bind_getter. pointers. rewrite P1, bind_store by in_block E.
  destruct (llc_pattern comp) as [pa | e2]; [| gave_up].
  rewrite bind_getter. pointers. rewrite P2, bind_store by in_block E.
  destruct (llc_flags comp) as [fl | e3]; [| gave_up].
  rewrite bind_getter. pointers. rewrite P3, bind_store by in_block E.
  destruct (llc_pool_name comp) as [po | e4]; [| gave_up].
  rewrite bind_getter.
  match goal with
  | |- context [bind (create_string_value c ?str ?len) _ ?s0] =>
      destruct (create_string_value_runs str len s0) as (v & s1 & Ev)
  end.
  unfold bind at 1. rewrite Ev.
  pointers. rewrite P4, bind_store by in_block E.
  cbv zeta.
  destruct ((fl =? LCME_FL_INIT) || negb (llot_is_composite layout));
    cbv iota;
    match goal with
    | |- context [bind (iter_data_ost_try_resize c ?D ?len) ?k ?s2] =>
        set (D0 := D)
    end;
    assert (Hw0 : workspace_holds D0 items) by exact Hw.
  - exact (ost_writes_stay_in_bounds c D0 items count (llc_ost_index comp) s1
             Hw0 Hpos Hmax).
  - destruct (iter_data_ost_try_resize_runs D0 1 items s1 Hw0)
      as (r & s2 & Er & Hroom); [lia | change (ost_size D0) with (ost_size d); lia |].
    unfold bind at 1. rewrite Er.
    destruct (fst r =? 0) eqn:Hz; cbn [negb]; [| eexists _, _; reflexivity].
    apply Z.eqb_eq in Hz. destruct (Hroom Hz) as (W1 & R1 & M1).
    pose proof W1 as (Hl1 & Hi1 & Hs1 & _).
    unfold bind at 1.
    rewrite ost_append_in_bounds by (unfold INT_MAX in *; lia).
    eexists _, _. reflexivity.
Qed.

End Safety.

Lemma fill_iterator_data_is_safe_witness :
  exists r s',
    fill_iterator_data full_arena LustreExamples.plain_layout
      (LustreExamples.comp 0 3 0 [4; 6; 9]) plain_workspace
      0 (entry S_IFREG 0 []) = Returns r s'.
Proof.
  refine (fill_iterator_data_is_safe full_arena LustreExamples.plain_layout
            (LustreExamples.comp 0 3 0 [4; 6; 9]) plain_workspace 0 []
            (entry S_IFREG 0 []) 1 5 eq_refl _ _ _ _ _).
  - lia.
  - lia.
  - unfold workspace_holds. cbn. split_and!; auto; lia.
  - intros count Hc. cbn in Hc. simplify_eq Hc. intros <-. cbn.
    unfold INT_MAX. lia.
  - cbn. unfold INT_MAX. lia.
Defined.

Section Swallowed.

Variable c : collaborators.
Hypothesis Halloc : forall m, alloc c m = true.

Lemma iter_data_ost_try_resize_granted d len items s :
  workspace_holds d items ->
  0 <= len ->
  ost_size d + len <= INT_MAX ->
  exists d',
    iter_data_ost_try_resize c d len s = Returns (0, d') s /\
    same_block d d' /\
    ost_idx d' + len <= ost_size d' /\ ost_size d' <= INT_MAX /\
    workspace_holds d' items.
Proof using Halloc.
  intros Hw Hlen Hmax.
  destruct (iter_data_ost_try_resize_runs c d len items s Hw Hlen Hmax)
    as (r & s1 & Er & Hroom).
  pose proof (iter_data_ost_try_resize_frame c _ _ _ _ _ Er) as Hframe.
  assert (Hz : r = (0, snd r) /\ s1 = s).
  { destruct Hw as (Hl & Hi & Hs & Ht).
    unfold iter_data_ost_try_resize in Er.
    destruct (negb (in_int (ost_idx d + len))); [discriminate Er |].
    destruct (ost_size d <? ost_idx d + len) eqn:Hlt.
    - destruct (negb (in_int (ost_size d + len))); [discriminate Er |].
      cbv zeta in Er. apply Z.ltb_lt in Hlt.
      assert (E3 : (0 <? ost_size d + len) = true) by (apply Z.ltb_lt; lia).
      rewrite E3, Halloc in Er. cbn [andb] in Er.
      unfold ret in Er. simplify_eq Er. intros <- <-. auto.
    - unfold ret in Er. simplify_eq Er. intros <- <-. auto. }
  destruct Hz as [Hr ->]. exists (snd r). rewrite <- Hr.
  split; [exact Er |]. split; [exact Hframe |].
  destruct (Hroom ltac:(rewrite Hr; reflexivity)) as (W & R & M). auto.
Qed.

Lemma bind_create_string_value_refused {B} str len e
    (k : rbh_value -> cmd B) s :
  sstack_try c (_values s) (BString str len) = Err e ->
  bind (create_string_value c str len) k s =
    k (RBH_VT_STRING None)
      {| errno := e; _values := _values s; is_dir := is_dir s;
         is_reg := is_reg s; is_symlink := is_symlink s;
         _inode_xattrs := _inode_xattrs s; calls := calls s |}.
Proof using Type.
  intros H.
  unfold create_string_value, rbh_sstack_push, bind, get_state, set_errno,
    update_state.
  rewrite H. reflexivity.
Qed.

Ltac pointers :=
  cbn [stripe_count stripe_size pattern flags pool mirror_id begin end_
       comp_index set_arr set_ost set_comp_index].

Ltac in_block E :=
  cbn [arr set_arr]; rewrite ?length_insert; rewrite E; nia.

(** X21.  The push of the pool name is not tested: when the arena
    refuses it and nothing else fails, [fill_iterator_data] gives back 0
    all the same, and the cell of the pool holds a string value whose
    pointer is NULL. *)
Theorem refused_pool_name_is_not_an_error
    (layout : llapi_layout) (comp : llapi_comp) (d : iterator_data)
    (index : Z) (items : list Z) (s : state) (n x : Z) (po : string) (e : Z) :
  ready n x d -> 5 <= x -> 0 <= index < n ->
  workspace_holds d items ->
  readable comp ->
  ost_size d + weight layout comp <= INT_MAX ->
  llc_pool_name comp = Ok po ->
  sstack_try c (_values s) (BString po (Z.of_nat (String.length po) + 1))
    = Err e ->
  exists d' s',
    fill_iterator_data c layout comp d index s = Returns (0, d') s' /\
    arr d' !! Z.to_nat (4 * n + index) = Some (Some (RBH_VT_STRING None)).
Proof using Halloc.
  intros Hready Hx Hi Hw Hread Hmax Hpo Hpush.
  destruct Hread as ((count & Hcount & Hpos) & (ss & Hss) & (pa & Hpa) &
                     (fl & Hfl) & _ & _ & _ & Hok).
  pose proof Hready as Hr. unfold ready, shape in Hr.
  assert (E : Z.of_nat (length (arr d)) = x * n) by congruence.
  assert (P0 : stripe_count d = Some 0) by congruence.
  assert (P1 : stripe_size d = Some n) by congruence.
  assert (P2 : pattern d = Some (2 * n)) by congruence.
  assert (P3 : flags d = Some (3 * n)) by congruence.
  assert (P4 : pool d = Some (4 * n)) by congruence.
  clear Hr.
  pose proof Hw as (Hl & Hidx & Hsz & _).
  unfold weight in *. rewrite Hcount, Hfl in *.
  unfold fill_iterator_data. rewrite Hcount, Hss, Hpa, Hfl, Hpo.
  rewrite bind_getter, P0, bind_store by in_block E.
  rewrite bind_getter. pointers. rewrite P1, bind_store by in_block E.
  rewrite bind_getter. pointers. rewrite P2, bind_store by in_block E.
  rewrite bind_getter. pointers. rewrite P3, bind_store by in_block E.
  rewrite bind_getter, (bind_create_string_value_refused _ _ e) by exact Hpush.
  pointers. rewrite P4, bind_store by in_block E.
  cbv zeta.
  assert (Hcell : forall d',
            same_block
              (set_arr
                 (<[Z.to_nat (4 * n + index) := Some (RBH_VT_STRING None)]>
                    (<[Z.to_nat (3 * n + index) :=
                         Some (create_uint32_value fl)]>
                       (<[Z.to_nat (2 * n + index) :=
                            Some (create_uint64_value pa)]>
                          (<[Z.to_nat (n + index) :=
                               Some (create_uint64_value ss)]>
                             (<[Z.to_nat (0 + index) :=
                                  Some (create_uint64_value count)]>
                                (arr d))))))
                 d) d' ->
            arr d' !! Z.to_nat (4 * n + index)
              = Some (Some (RBH_VT_STRING None))).
  { intros d' (Ha & _ & _). rewrite Ha. cbn [arr set_arr].
    apply list_lookup_insert_eq. rewrite !length_insert.
    assert (4 * n + index < x * n) by nia. unfold cell in *. lia. }
  destruct ((fl =? LCME_FL_INIT) || negb (llot_is_composite layout));
    cbv iota;
    match goal with
    | |- context [bind (iter_data_ost_try_resize c ?D ?len) ?k ?s1] =>
        set (D0 := D) in *; set (s0 := s1)
    end;
    assert (Hw0 : workspace_holds D0 items) by exact Hw;
    change (ost_size D0) with (ost_size d) in *.
  - assert (Hint : to_int count = count)
      by (apply to_int_small; unfold INT_MAX in *; lia).
    rewrite Hint.
    destruct (iter_data_ost_try_resize_granted D0 count items s0 Hw0 Hpos)
      as (d1 & E1 & F1 & R1 & M1 & W1); [exact Hmax |].
    unfold bind at 1. rewrite E1. cbn [fst snd negb Z.eqb].
    destruct (ost_loop_completes (llc_ost_index comp) count 0 d1 items s0 W1)
      as (d2 & s2 & E2 & S2 & C2 & Z2 & W2); [lia | lia | lia | exact Hok |].
    exists d2, s2. split; [exact E2 |].
    apply Hcell. eapply same_block_trans; [exact F1 |].
    eapply (ost_loop_frame _ _ _ _ _ _ _ E2).
  - destruct (iter_data_ost_try_resize_granted D0 1 items s0 Hw0)
      as (d1 & E1 & F1 & R1 & M1 & W1); [lia | exact Hmax |].
    unfold bind at 1. rewrite E1. cbn [fst snd negb Z.eqb].
    pose proof W1 as (Hl1 & Hi1 & Hs1 & _).
    unfold bind at 1.
    rewrite ost_append_in_bounds by (unfold INT_MAX in *; lia).
    unfold ret. eexists _, _. split; [reflexivity |].
    apply Hcell. eapply same_block_trans; [exact F1 |]. block_kept.
Qed.

End Swallowed.

Lemma refused_pool_name_is_not_an_error_witness :
  exists d' s',
    fill_iterator_data no_strings LustreExamples.plain_layout
      (LustreExamples.comp 0 3 0 [4; 6; 9]) plain_workspace 0
      (entry S_IFREG 0 []) = Returns (0, d') s' /\
    arr d' !! Z.to_nat (4 * 1 + 0) = Some (Some (RBH_VT_STRING None)).
Proof.
  refine (refused_pool_name_is_not_an_error no_strings _
            LustreExamples.plain_layout (LustreExamples.comp 0 3 0 [4; 6; 9])
            plain_workspace 0 [] (entry S_IFREG 0 []) 1 5 "flash" ENOMEM
            eq_refl _ _ _ _ _ eq_refl eq_refl).
  - intros m. reflexivity.
  - lia.
  - lia.
  - unfold workspace_holds. cbn. split_and!; auto; lia.
  - apply comp_readable. lia.
  - vm_compute. intros H. discriminate H.
Defined.

End LustreSafety.


(** ** lustre.c: the calls on the file descriptor *)

Module LustreCalls.
Import Lustre LustreCases LustreProps LustreLayout LustreWrites.

Lemma same_calls_refl s : same_calls s s.
Proof. reflexivity. Qed.

Lemma same_calls_trans s1 s2 s3 :
  same_calls s1 s2 -> same_calls s2 s3 -> same_calls s1 s3.
Proof. unfold same_calls. congruence. Qed.

Lemma same_calls_errno s e :
  same_calls s
    {| errno := e; _values := _values s; is_dir := is_dir s;
       is_reg := is_reg s; is_symlink := is_symlink s;
       _inode_xattrs := _inode_xattrs s; calls := calls s |}.
Proof. reflexivity. Qed.

Lemma same_calls_values s v : same_calls s (set_values v s).
Proof. reflexivity. Qed.

Lemma silent_ret {A} (a : A) : silent (ret a).
Proof. apply kept_ret, same_calls_refl. Qed.

Lemma silent_abort {A} (e : fault) : silent (@abort fault state A e).
Proof. apply kept_abort. Qed.

Lemma silent_get_state : silent (@get_state fault state).
Proof. apply kept_get_state, same_calls_refl. Qed.

Lemma silent_get_errno : silent get_errno.
Proof. apply kept_get_errno, same_calls_refl. Qed.

Lemma silent_set_errno e : silent (set_errno e).
Proof. apply kept_set_errno, same_calls_errno. Qed.

Lemma silent_bind {A B} (m : cmd A) (k : A -> cmd B) :
  silent m -> (forall a, silent (k a)) -> silent (bind m k).
Proof. apply kept_bind, same_calls_trans. Qed.

Lemma silent_getter {A} (r : res A) : silent (getter r).
Proof.
  apply kept_getter;
    [apply same_calls_refl | apply same_calls_trans | apply same_calls_errno].
Qed.

Ltac calls_kept :=
  first [ apply same_calls_refl | apply same_calls_trans
        | apply same_calls_errno | apply same_calls_values ].

Lemma silent_fill_pair c k v : silent (fill_pair c k v).
Proof. apply kept_fill_pair; calls_kept. Qed.

Lemma silent_fill_string_pair c k str len :
  silent (fill_string_pair c k str len).
Proof.
  unfold fill_string_pair. apply silent_bind.
  - apply kept_push; calls_kept.
  - intros [|]; [apply silent_fill_pair | apply silent_ret].
Qed.

Lemma silent_fill_binary_pair c k data len :
  silent (fill_binary_pair c k data len).
Proof.
  unfold fill_binary_pair. cbv zeta. apply silent_bind.
  - apply kept_push; calls_kept.
  - intros [|]; [apply silent_fill_pair | apply silent_ret].
Qed.

Lemma silent_fill_sequence_pair c k cells :
  silent (fill_sequence_pair c k cells).
Proof. apply kept_fill_sequence_pair; calls_kept. Qed.

Lemma silent_layout_components c layout nb x subcount out :
  silent (layout_components c layout nb x subcount out).
Proof. apply kept_layout_components; calls_kept. Qed.

Lemma silent_layout_err save rc subcount out :
  silent (layout_err save rc subcount out).
Proof.
  unfold layout_err.
  apply silent_bind; [apply silent_get_errno | intros ?].
  apply silent_bind; [apply silent_set_errno | intros ?]. apply silent_ret.
Qed.

Ltac silent_tac :=
  repeat match goal with
         | |- silent _ => assumption
         | |- silent (fill_pair _ _ _) => apply silent_fill_pair
         | |- silent (fill_uint32_pair _ _ _) => apply silent_fill_pair
         | |- silent (fill_int32_pair _ _ _) => apply silent_fill_pair
         | |- silent (fill_uint64_pair _ _ _) => apply silent_fill_pair
         | |- silent (fill_string_pair _ _ _ _) =>
             apply silent_fill_string_pair
         | |- silent (fill_binary_pair _ _ _ _) =>
             apply silent_fill_binary_pair
         | |- silent (fill_sequence_pair _ _ _) =>
             apply silent_fill_sequence_pair
         | |- silent (layout_components _ _ _ _ _ _) =>
             apply silent_layout_components
         | |- silent (layout_err _ _ _ _) => apply silent_layout_err
         | |- silent (getter _) => apply silent_getter
         | |- silent (ret _) => apply silent_ret
         | |- silent (abort _) => apply silent_abort
         | |- silent get_state => apply silent_get_state
         | |- silent get_errno => apply silent_get_errno
         | |- silent (set_errno _) => apply silent_set_errno
         | |- silent (bind _ _) => apply silent_bind; [| intros ?]
         | |- silent (match ?x with _ => _ end) => destruct x
         | |- silent (let _ := _ in _) => cbv zeta
         end.

Lemma emits_silent {A} (m : cmd A) : silent m -> emits [] m.
Proof.
  intros Hm s a s' H. rewrite app_nil_r. eapply Hm, H.
Qed.

Lemma emits_log_bind {A} (ev : call) (l : list call) (k : unit -> cmd A) :
  (forall u, emits l (k u)) -> emits (ev :: l) (bind (log ev) k).
Proof.
  intros Hk s a s' H. apply bind_Returns in H.
  destruct H as (u & s1 & Hlog & H).
  unfold log, update_state in Hlog. simplify_eq Hlog. intros _ <-.
  rewrite (Hk _ _ _ _ H). cbn [calls]. rewrite <- app_assoc. reflexivity.
Qed.

Lemma emits_bind_silent {A B} (l : list call) (m : cmd A) (k : A -> cmd B) :
  emits l m -> (forall a, silent (k a)) -> emits l (bind m k).
Proof.
  intros Hm Hk s b s' H. apply bind_Returns in H.
  destruct H as (a & s1 & H1 & H2).
  rewrite (Hk _ _ _ _ H2). eapply Hm, H1.
Qed.

Section Calls.

Variable c : collaborators.

Lemma xattrs_get_fid_emits fd : emits [Fd2fid fd] (xattrs_get_fid c fd).
Proof using Type.
  unfold xattrs_get_fid. apply emits_log_bind. intros u. cbv zeta.
  apply emits_silent. silent_tac.
Qed.

Lemma xattrs_get_hsm_calls fd s r s' :
  xattrs_get_hsm c fd s = Returns r s' ->
  calls s' = calls s ++ (if is_reg s then [HsmStateGet fd] else []).
Proof using Type.
  unfold xattrs_get_hsm. intros H. apply bind_Returns in H.
  destruct H as (s0 & s1 & Hs & H).
  unfold get_state in Hs. simplify_eq Hs. intros <- <-.
  destruct (is_reg s); cbn [negb] in H.
  - revert H. apply emits_log_bind. intros u. cbv zeta.
    apply emits_silent. silent_tac.
  - revert H. apply emits_silent. silent_tac.
Qed.

Lemma xattrs_get_magic_and_gen_emits fd :
  emits [FgetxattrLov fd] (xattrs_get_magic_and_gen c fd).
Proof using Type.
  unfold xattrs_get_magic_and_gen. apply emits_log_bind. intros u.
  apply emits_silent. silent_tac.
Qed.

Lemma xattrs_get_mdt_info_calls fd s r s' :
  xattrs_get_mdt_info c fd s = Returns r s' ->
  calls s' =
    calls s ++ (if is_dir s then [IoctlLmvGetstripe fd]
                else if is_symlink s then [] else [FgetMdtidx fd]).
Proof using Type.
  unfold xattrs_get_mdt_info. intros H. apply bind_Returns in H.
  destruct H as (s0 & s1 & Hs & H).
  unfold get_state in Hs. simplify_eq Hs. intros <- <-.
  destruct (is_dir s); [| destruct (is_symlink s); cbn [negb] in H].
  - revert H. apply emits_log_bind. intros u.
    apply emits_silent. unfold mdt_cells. silent_tac.
  - revert H. apply emits_silent. silent_tac.
  - revert H. apply emits_log_bind. intros u.
    apply emits_silent. silent_tac.
Qed.

Lemma retention_loop_silent rest : forall before,
  silent (retention_loop c before rest).
Proof using Type.
  induction rest as [| p rest IH]; intros before; cbn [retention_loop].
  - apply silent_ret.
  - destruct (negb (String.eqb (key p) XATTR_CCC_EXPIRES_AT)); [apply IH |].
    destruct (value p) as [v |]; [| apply silent_abort].
    destruct v; try apply silent_abort.
    destruct (UINT64_MAX_STR_LEN <=? _); [apply IH |]. cbv zeta.
    silent_tac.
    intros s u s' H. unfold set_inode_xattrs, update_state in H.
    simplify_eq H. intros _ <-. reflexivity.
Qed.

Lemma xattrs_get_retention_silent : silent (xattrs_get_retention c).
Proof using Type.
  unfold xattrs_get_retention.
  apply silent_bind; [apply silent_get_state | intros s].
  apply retention_loop_silent.
Qed.

Lemma xattrs_get_layout_calls fd s r s' :
  xattrs_get_layout c fd s = Returns r s' ->
  exists done,
    calls s' = calls s ++ done /\
    done `prefix_of` layout_calls fd s /\
    (fst r <> -1 -> done = layout_calls fd s) /\
    (is_symlink s = false -> exists rest, done = LayoutGetByFd fd :: rest).
Proof using Type.
  unfold xattrs_get_layout, layout_calls. intros H.
  apply bind_Returns in H. destruct H as (s0 & s1 & Hs & H).
  unfold get_state in Hs. simplify_eq Hs. intros <- <-. clear Hs.
  destruct (is_symlink s).
  { unfold ret in H. simplify_eq H. intros <- <-.
    exists []. rewrite app_nil_r. split_and!; auto. discriminate. }
  apply bind_Returns in H. destruct H as (u & s1 & Hlog & H).
  unfold log, update_state in Hlog. simplify_eq Hlog. intros _ <-.
  clear Hlog.
  match type of H with
  | _ ?s1 = _ =>
      assert (Hs1 : calls s1 = calls s ++ [LayoutGetByFd fd]) by reflexivity;
      assert (Hr1 : is_reg s1 = is_reg s) by reflexivity;
      generalize dependent s1
  end.
  intros s1 H Hs1 Hr1.
  assert (Hfail : forall s2,
            calls s2 = calls s1 -> s2 = s' -> fst r = -1 ->
            exists done,
              calls s' = calls s ++ done /\
              done `prefix_of`
                LayoutGetByFd fd :: (if is_reg s then [FgetxattrLov fd] else []) /\
              (fst r <> -1 ->
               done =
                 LayoutGetByFd fd :: (if is_reg s then [FgetxattrLov fd] else [])) /\
              (false = false -> exists rest, done = LayoutGetByFd fd :: rest)).
  { intros s2 Hc <- Hr. exists [LayoutGetByFd fd].
    split; [congruence |]. split; [apply prefix_cons, prefix_nil |].
    split; [tauto |]. intros _. exists []. reflexivity. }
  apply bind_Returns in H. destruct H as (l & s2 & Hl & H).
  pose proof (silent_getter _ _ _ _ Hl) as K2. unfold same_calls in K2.
  assert (R2 : is_reg s2 = is_reg s1).
  { destruct (llapi_layout_get_by_fd c fd); unfold getter in Hl; minv;
      reflexivity. }
  destruct l as [layout |].
  2: { unfold ret in H. simplify_eq H. intros <- <-.
       eapply Hfail; [exact K2 | reflexivity | reflexivity]. }
  apply bind_Returns in H. destruct H as (fl & s3 & Hfl & H).
  pose proof (silent_getter _ _ _ _ Hfl) as K3. unfold same_calls in K3.
  assert (R3 : is_reg s3 = is_reg s2).
  { destruct (llot_flags layout); unfold getter in Hfl; minv; reflexivity. }
  destruct fl as [fl |].
  2: { pose proof (silent_layout_err _ _ _ _ _ _ _ H) as K4.
       unfold same_calls in K4.
       eapply (Hfail s'); [congruence | reflexivity |].
       unfold layout_err in H. minv. reflexivity. }
  apply bind_Returns in H. destruct H as (f0 & s4 & Hf0 & H).
  pose proof (silent_fill_pair _ _ _ _ _ _ Hf0) as K4. unfold same_calls in K4.
  pose proof (fill_pair_keeps c _ _ _ _ _ Hf0) as (_ & R4 & _).
  pose proof (fill_pair_one c _ _ _ _ _ Hf0) as F0.
  destruct (negb (fst f0 =? 0)) eqn:E0.
  { pose proof (silent_layout_err _ _ _ _ _ _ _ H) as K5.
    unfold same_calls in K5.
    eapply (Hfail s'); [congruence | reflexivity |].
    unfold layout_err in H. minv. cbn [fst].
    destruct F0 as [[F0 _] | F0]; rewrite F0 in *; [discriminate |].
    reflexivity. }
  apply bind_Returns in H. destruct H as (s5' & s5 & Hs & H).
  unfold get_state in Hs. simplify_eq Hs. intros <- <-. clear Hs.
  apply bind_Returns in H. destruct H as (m & s6 & Hm & H).
  assert (Hrest : calls s' = calls s6).
  { revert H.
    match goal with
    | |- ?k s6 = Returns r s' -> _ =>
        assert (Hk : silent k); [| intros H; exact (Hk _ _ _ H)]
    end.
    unfold layout_get_nb_comp. silent_tac. }
  assert (Rall : is_reg s4 = is_reg s) by congruence. rewrite Rall in Hm.
  destruct (is_reg s).
  - apply xattrs_get_magic_and_gen_emits in Hm.
    exists [LayoutGetByFd fd; FgetxattrLov fd].
    split; [| split; [reflexivity | split; [reflexivity | eauto]]].
    rewrite Hrest, Hm, K4, K3, K2, Hs1, <- app_assoc. reflexivity.
  - unfold ret in Hm. simplify_eq Hm. intros _ <-.
    exists [LayoutGetByFd fd].
    split; [| split; [reflexivity | split; [reflexivity | eauto]]].
    rewrite Hrest, K4, K3, K2, Hs1. reflexivity.
Qed.

End Calls.

(** X22.  Six functions are handed the file descriptor of the entry,
    and they are the only accesses lustre.c makes to the entry itself (the
    getters of liblustre that read a layout already in memory are not
    counted).  Whenever [lustre_ns_xattrs_callback] returns, the calls it
    has made on the descriptor are a prefix of: [llapi_fd2fid];
    [llapi_hsm_state_get_fd] for a regular file only;
    [llapi_layout_get_by_fd] unless the entry is a symbolic link, followed
    by [fgetxattr] of the lov attribute for a regular file only; then the
    [LL_IOC_LMV_GETSTRIPE] ioctl for a directory,
    [llapi_file_fget_mdtidx] for what is neither a directory nor a
    symbolic link.  When the result is not -1 it has made all of them. *)
Theorem callback_calls_in_order
    (c : collaborators) (fd mode : Z) (values : list block) (s : state)
    (r : filled) (s' : state) :
  lustre_ns_xattrs_callback c fd mode values s = Returns r s' ->
  exists done,
    calls s' = calls s ++ done /\
    done `prefix_of` expected_calls fd mode /\
    (fst r <> -1 -> done = expected_calls fd mode).
Proof.
  intros H. unfold lustre_ns_xattrs_callback in H.
  apply bind_Returns in H. destruct H as (u & s1 & Hu & H).
  unfold update_state in Hu. simplify_eq Hu. intros _ <-. clear Hu.
  apply bind_Returns in H. destruct H as ([ok x] & s5 & Hloop & H).
  cbn [fst snd] in H.
  assert (Hend : r = x /\ calls s' = calls s5 /\ (ok = false -> s' = s5)).
  { destruct ok; cbn [negb] in H.
    - apply bind_Returns in H. destruct H as ([] & s6 & Hret & H).
      unfold ret in H. simplify_eq H. intros <- <-.
      split; [reflexivity |]. split; [| discriminate].
      exact (xattrs_get_retention_silent c _ _ _ Hret).
    - unfold ret in H. simplify_eq H. intros <- <-. auto. }
  destruct Hend as (-> & Hend & _). rewrite Hend. clear H Hend s'.
  set (s0 := enter_entry mode values s) in *.
  assert (C0 : calls s0 = calls s) by reflexivity.
  assert (E0 : is_dir s0 = S_ISDIR mode /\ is_reg s0 = S_ISREG mode /\
               is_symlink s0 = S_ISLNK mode) by (split_and!; reflexivity).
  destruct E0 as (D0 & R0 & L0). clearbody s0.
  unfold expected_calls.
  set (hsm := if S_ISREG mode then [HsmStateGet fd] else []).
  set (lay := if S_ISLNK mode then []
              else LayoutGetByFd fd
                   :: (if S_ISREG mode then [FgetxattrLov fd] else [])).
  set (mdt := if S_ISDIR mode then [IoctlLmvGetstripe fd]
              else if S_ISLNK mode then [] else [FgetMdtidx fd]).
  unfold xattrs_funcs in Hloop. cbn [xattrs_funcs_loop] in Hloop.
  apply bind_Returns in Hloop. destruct Hloop as (r1 & s2 & H1 & H).
  pose proof (xattrs_get_fid_emits c fd _ _ _ H1) as C1.
  pose proof (xattrs_get_fid_Returns c fd _ _ _ H1) as [(D1 & R1 & L1 & _) _].
  destruct (fst r1 =? -1) eqn:E1.
  { unfold ret in H. simplify_eq H. intros _ <- <-.
    exists [Fd2fid fd]. split; [congruence |].
    split; [apply prefix_app_r; reflexivity |].
    cbn [fst]. intros Hne. contradiction Hne. reflexivity. }
  apply bind_Returns in H. destruct H as (r2 & s3 & H2 & H).
  pose proof (xattrs_get_hsm_calls c fd _ _ _ H2) as C2.
  pose proof (tame_xattrs_get_hsm c fd _ _ _ H2) as (D2 & R2 & L2 & _).
  assert (C2' : calls s3 = calls s ++ [Fd2fid fd] ++ hsm).
  { rewrite C2, C1, C0, R1, R0, <- app_assoc. reflexivity. }
  destruct (fst r2 =? -1) eqn:E2.
  { unfold ret in H. simplify_eq H. intros _ <- <-.
    exists ([Fd2fid fd] ++ hsm). split; [exact C2' |].
    split; [apply prefix_app, prefix_app_r; reflexivity |].
    cbn [fst]. intros Hne. contradiction Hne. reflexivity. }
  apply bind_Returns in H. destruct H as (r3 & s4 & H3 & H).
  pose proof (xattrs_get_layout_calls c fd _ _ _ H3)
    as (done3 & C3 & P3 & F3 & _).
  pose proof (tame_xattrs_get_layout c fd _ _ _ H3) as (D3 & R3 & L3 & _).
  assert (Hlay : layout_calls fd s3 = lay).
  { unfold layout_calls, lay. rewrite L2, L1, L0, R2, R1, R0. reflexivity. }
  rewrite Hlay in P3, F3.
  assert (C3' : calls s4 = calls s ++ [Fd2fid fd] ++ hsm ++ done3).
  { rewrite C3, C2', <- !app_assoc. reflexivity. }
  destruct (fst r3 =? -1) eqn:E3.
  { unfold ret in H. simplify_eq H. intros _ <- <-.
    exists ([Fd2fid fd] ++ hsm ++ done3). split; [exact C3' |].
    split; [do 2 apply prefix_app; apply prefix_app_r; exact P3 |].
    cbn [fst]. intros Hne. contradiction Hne. reflexivity. }
  apply Z.eqb_neq in E3. specialize (F3 E3). subst done3.
  apply bind_Returns in H. destruct H as (r4 & s6 & H4 & H).
  pose proof (xattrs_get_mdt_info_calls c fd _ _ _ H4) as C4.
  assert (C4' : calls s6 = calls s ++ [Fd2fid fd] ++ hsm ++ lay ++ mdt).
  { rewrite C4, C3', D3, D2, D1, D0, L3, L2, L1, L0, <- !app_assoc.
    reflexivity. }
  exists ([Fd2fid fd] ++ hsm ++ lay ++ mdt).
  destruct (fst r4 =? -1) eqn:E4;
    unfold ret in H; simplify_eq H; intros _ <- <-; auto.
Qed.

(** A regular file with a composite layout: the five calls. *)
Lemma callback_calls_in_order_witness :
  exists r s',
    lustre_ns_xattrs_callback site 3 S_IFREG [] (entry S_IFREG 0 []) =
      Returns r s' /\
    fst r <> -1 /\
    calls s' =
      [Fd2fid 3; HsmStateGet 3; LayoutGetByFd 3; FgetxattrLov 3;
       FgetMdtidx 3].
Proof.
  destruct (lustre_ns_xattrs_callback site 3 S_IFREG [] (entry S_IFREG 0 []))
    as [r s' | e s'] eqn:Hrun.
  - exists r, s'. split; [reflexivity |].
    pose proof Hrun as Hv. vm_compute in Hv.
    assert (Hne : fst r <> -1).
    { simplify_eq Hv. intros <- _. cbn. discriminate. }
    split; [exact Hne |].
    destruct (callback_calls_in_order _ _ _ _ _ _ _ Hrun)
      as (done & Hc & _ & Hall).
    rewrite Hc, (Hall Hne). reflexivity.
  - vm_compute in Hrun. discriminate Hrun.
Defined.

End LustreCalls.

(** ** lustre.c: failures reach the caller, and the count follows the
    type of the entry *)

Module LustreCallback.

Import Lustre LustreProps LustreLayout LustreWrites LustreCalls LustreReports.

Section Reports.

Variable c : collaborators.

Lemma ost_loop_reported replies : forall count i d s d' s',
  ost_loop count i replies d s = Returns (0, d') s' ->
  (forall e,
     refusal (Z.to_nat (count - i)) replies = Some e -> e = EINVAL) /\
  ost_size d' = ost_size d /\
  ost_idx d' =
    ost_idx d
    + Z.of_nat (length (take (Z.to_nat (count - i)) (answered replies))).
Proof using Type.
  induction replies as [| reply rest IH]; intros count i d s d' s' H;
    cbn [ost_loop] in H; destruct (i <? count) eqn:E.
  - apply Z.ltb_lt in E.
    assert (Hn : Z.to_nat (count - i) = S (Z.to_nat (count - (i + 1))))
      by lia.
    rewrite Hn. cbn [refusal answered]. rewrite take_nil. cbn [length].
    minv. split; [congruence |]. split; [reflexivity | lia].
  - apply Z.ltb_ge in E.
    assert (Hn : Z.to_nat (count - i) = 0%nat) by lia.
    rewrite Hn, take_0. cbn [refusal length].
    minv. split; [discriminate |]. split; [reflexivity | lia].
  - apply Z.ltb_lt in E.
    assert (Hn : Z.to_nat (count - i) = S (Z.to_nat (count - (i + 1))))
      by lia.
    rewrite Hn. destruct reply as [tmp | e]; cbn [refusal answered].
    + apply bind_Returns in H. destruct H as (d1 & s1 & Ha & H).
      apply ost_append_Returns in Ha. destruct Ha as (-> & _ & ->).
      apply IH in H. destruct H as (Hr & Hs & Hi).
      cbn [ost_size ost_idx set_ost] in Hs, Hi.
      split; [exact Hr |]. split; [exact Hs |].
      rewrite Hi. rewrite firstn_cons. cbn [length]. lia.
    + rewrite take_nil. cbn [length]. apply bind_Returns in H.
      destruct H as (u & s1 & _ & H).
      destruct (e =? EINVAL) eqn:Ee.
      * apply Z.eqb_eq in Ee. unfold ret in H. simplify_eq H.
        intros <- _. split; [congruence |]. split; [reflexivity | lia].
      * unfold ret in H. simplify_eq H.
  - apply Z.ltb_ge in E.
    assert (Hn : Z.to_nat (count - i) = 0%nat) by lia.
    rewrite Hn, take_0. cbn [refusal length].
    minv. split; [discriminate |]. split; [reflexivity | lia].
Qed.

Lemma iter_data_ost_try_resize_granted_size d len s d' s' :
  iter_data_ost_try_resize c d len s = Returns (0, d') s' ->
  ((ost_size d <? ost_idx d + len) = true ->
   alloc c (ost_size d + len) = true) /\
  ost_size d' =
    (if ost_size d <? ost_idx d + len then ost_size d + len
     else ost_size d) /\
  ost_idx d' = ost_idx d.
Proof using Type.
  unfold iter_data_ost_try_resize. intros H.
  destruct (negb (in_int (ost_idx d + len))); [discriminate H |].
  destruct (ost_size d <? ost_idx d + len).
  - destruct (negb (in_int (ost_size d + len))); [discriminate H |].
    cbv zeta in H.
    destruct ((0 <? ost_size d + len) && alloc c (ost_size d + len)) eqn:E.
    + apply andb_true_iff in E as [_ E].
      unfold ret in H. simplify_eq H. intros <- _. cbn. auto.
    + minv.
  - unfold ret in H. simplify_eq H. intros <- _. split; [discriminate |].
    auto.
Qed.

Lemma getter_Returns {A} (r : res A) s a s' :
  getter r s = Returns a s' ->
  (exists v, r = Ok v /\ a = Some v /\ s' = s) \/
  (exists e, r = Err e /\ a = None).
Proof using Type.
  destruct r as [v | e]; cbn [getter]; intros H.
  - left. exists v. unfold ret in H. simplify_eq H. auto.
  - right. exists e. apply bind_Returns in H.
    destruct H as (u & s1 & _ & H). unfold ret in H. simplify_eq H. auto.
Qed.

Ltac answer H v E :=
  let Hg := fresh "Hg" in
  let e := fresh "e" in
  apply bind_Returns in H; destruct H as (? & ? & Hg & H);
  apply getter_Returns in Hg;
  destruct Hg as [(v & E & -> & ->) | (e & E & ->)];
  [| unfold ret in H; simplify_eq H].

Ltac stored H :=
  let Hst := fresh "Hst" in
  let a := fresh "a" in
  apply bind_Returns in H; destruct H as (? & ? & Hst & H);
  apply store_Returns in Hst; destruct Hst as (-> & a & ->).

Lemma fill_iterator_data_reported layout comp d index s d' s' :
  fill_iterator_data c layout comp d index s = Returns (0, d') s' ->
  component_reported layout comp /\
  exists count fl,
    llc_stripe_count comp = Ok count /\ llc_flags comp = Ok fl /\
    ((ost_size d <? ost_idx d + ost_len layout count fl) = true ->
     alloc c (ost_size d + ost_len layout count fl) = true) /\
    ost_size d' =
      (if ost_size d <? ost_idx d + ost_len layout count fl
       then ost_size d + ost_len layout count fl else ost_size d) /\
    ost_idx d' = ost_idx d + Z.of_nat (length (comp_osts layout comp)).
Proof using Type.
  unfold fill_iterator_data. intros H.
  answer H count Ecount. stored H.
  answer H ssize Esize. stored H.
  answer H pat Epat. stored H.
  answer H fl Efl. stored H.
  answer H po Epo.
  apply bind_Returns in H. destruct H as (v & s1 & _ & H). stored H.
  cbv zeta in H. fold (ost_len layout count fl) in H.
  apply bind_Returns in H. destruct H as ([rc dr] & s2 & Hr & H).
  cbn [fst snd] in H.
  destruct (rc =? 0) eqn:Erc; cbn [negb] in H;
    [| unfold ret in H; simplify_eq H; intros -> _ _; discriminate Erc].
  apply Z.eqb_eq in Erc. subst rc.
  apply iter_data_ost_try_resize_granted_size in Hr.
  cbn [ost_size ost_idx set_arr] in Hr. destruct Hr as (Hgr & Hsz & Hix).
  unfold comp_osts. rewrite Ecount, Efl.
  destruct ((fl =? LCME_FL_INIT) || negb (llot_is_composite layout)) eqn:Ei.
  - apply ost_loop_reported in H. destruct H as (Href & Hs & Hi).
    rewrite Z.sub_0_r in Href, Hi.
    split.
    { exists count, ssize, pat, fl, po. rewrite Ei.
      repeat (split; [assumption |]). intros _. exact Href. }
    exists count, fl. split; [reflexivity |]. split; [reflexivity |].
    split; [exact Hgr |]. split; [congruence |]. congruence.
  - apply bind_Returns in H. destruct H as (d3 & s3 & Ha & H).
    apply ost_append_Returns in Ha. destruct Ha as (-> & _ & ->).
    unfold ret in H. simplify_eq H. intros <- _.
    cbn [ost_size ost_idx set_ost length].
    split.
    { exists count, ssize, pat, fl, po. rewrite Ei.
      repeat (split; [assumption |]). intros Hf. discriminate Hf. }
    exists count, fl. split; [reflexivity |]. split; [reflexivity |].
    split; [exact Hgr |]. split; [exact Hsz |]. lia.
Qed.

Lemma xattrs_layout_iterator_reported layout comp d s d' s' :
  xattrs_layout_iterator c layout comp d s = Returns (0, d') s' ->
  component_visited layout comp /\
  exists count fl,
    llc_stripe_count comp = Ok count /\ llc_flags comp = Ok fl /\
    ((ost_size d <? ost_idx d + ost_len layout count fl) = true ->
     alloc c (ost_size d + ost_len layout count fl) = true) /\
    ost_size d' =
      (if ost_size d <? ost_idx d + ost_len layout count fl
       then ost_size d + ost_len layout count fl else ost_size d) /\
    ost_idx d' = ost_idx d + Z.of_nat (length (comp_osts layout comp)).
Proof using Type.
  unfold xattrs_layout_iterator. intros H.
  apply bind_Returns in H. destruct H as ([rc d1] & s1 & Hf & H).
  cbn [fst snd] in H.
  destruct (rc =? 0) eqn:Erc; cbn [negb] in H;
    [| unfold ret in H; simplify_eq H].
  apply Z.eqb_eq in Erc. subst rc. cbv zeta in H.
  apply fill_iterator_data_reported in Hf.
  destruct Hf as (Hrep & count & fl & Ecount & Efl & Hgr & Hsz & Hix).
  answer H be Ebe. stored H. stored H.
  answer H m Em. stored H.
  destruct (in_int _); [| discriminate H].
  unfold ret in H. simplify_eq H. intros <- _.
  cbn [ost_size ost_idx set_comp_index set_arr].
  split.
  { split; [exact Hrep |]. split; [exists be | exists m]; assumption. }
  exists count, fl. auto.
Qed.

Lemma comp_iterate_reported layout comps : forall d s d' s',
  comp_iterate (xattrs_layout_iterator c layout) comps d s
    = Returns (0, d') s' ->
  Forall (component_visited layout) comps /\
  Forall (fun n => alloc c n = true)
    (growth layout comps (ost_size d) (ost_idx d)).
Proof using Type.
  induction comps as [| comp rest IH]; intros d s d' s' H;
    cbn [comp_iterate growth] in *.
  - split; constructor.
  - apply bind_Returns in H. destruct H as ([rc d1] & s1 & Hv & H).
    cbn [fst snd] in H.
    destruct (rc =? 0) eqn:Erc;
      [| unfold ret in H; simplify_eq H; intros -> _ _; discriminate Erc].
    apply Z.eqb_eq in Erc. subst rc.
    apply xattrs_layout_iterator_reported in Hv.
    destruct Hv as (Hvis & count & fl & Ecount & Efl & Hgr & Hsz & Hix).
    apply IH in H. destruct H as (Hrest & Hgrow).
    split; [constructor; assumption |].
    rewrite Ecount, Efl. cbv zeta. rewrite Hsz, Hix in Hgrow.
    destruct (ost_size d <? ost_idx d + ost_len layout count fl).
    + constructor; [apply Hgr; reflexivity | exact Hgrow].
    + exact Hgrow.
Qed.

Lemma init_iterator_data_granted nb x s d0 s' :
  init_iterator_data c iterator_data_zero nb x s = Returns (0, d0) s' ->
  alloc c (to_uint32 (x * nb)) = true /\ alloc c nb = true /\
  ost_size d0 = to_int nb /\ ost_idx d0 = 0.
Proof using Type.
  unfold init_iterator_data. cbv zeta. intros H.
  destruct (alloc c (to_uint32 (x * nb))); cbn [negb] in H; [| minv].
  destruct (alloc c nb); cbn [negb] in H; [| minv].
  unfold ret in H. simplify_eq H. intros <- _. cbn. auto.
Qed.

(** A block of pairs that were all taken by the arena. *)
Lemma sequence_valued k cells : valued (sequence k cells).
Proof using Type. unfold valued, sequence. cbn. discriminate. Qed.

Lemma layout_components_reported layout nb x subcount out s r s' :
  layout_components c layout nb x subcount out s = Returns r s' ->
  fst r <> -1 ->
  (if llot_is_composite layout
   then Forall (component_visited layout) (llot_comps layout)
   else component_reported layout (current_comp layout)) /\
  memory_granted c layout nb x
    (if llot_is_composite layout then llot_comps layout
     else [current_comp layout]) /\
  exists more, snd r = out ++ more /\ Forall valued more.
Proof using Type.
  intros H Hne.
  apply layout_components_stages in H; [| exact Hne].
  destruct H as (d0 & d1 & s1 & f & s2 & Hi & Hr & Hf & Hfne & _ & ->).
  apply init_iterator_data_granted in Hi.
  destruct Hi as (A1 & A2 & Hsz & Hix).
  apply xattrs_fill_layout_exact in Hf; [| exact Hfne]. cbv zeta in Hf.
  assert (Hval : Forall valued (snd f)).
  { rewrite Hf. cbn [snd]. apply Forall_app. split.
    - apply List.Forall_map, Forall_forall. intros e _.
      apply sequence_valued.
    - constructor; [apply sequence_valued | constructor]. }
  unfold memory_granted. rewrite <- Hsz, <- Hix.
  destruct (llot_is_composite layout).
  - unfold llapi_layout_comp_iterate in Hr.
    destruct (llot_comps layout) as [| comp rest] eqn:Hcomps.
    { apply bind_Returns in Hr. destruct Hr as (u & sx & _ & Hr).
      unfold ret in Hr. simplify_eq Hr. }
    apply comp_iterate_reported in Hr. destruct Hr as (Hvis & Hgrow).
    split; [exact Hvis |]. split; [auto |].
    exists (snd f). split; [reflexivity | exact Hval].
  - apply fill_iterator_data_reported in Hr.
    destruct Hr as (Hrep & count & fl & Ecount & Efl & Hgr & _ & _).
    split; [exact Hrep |]. split.
    { split; [exact A1 |]. split; [exact A2 |].
      cbn [growth]. rewrite Ecount, Efl. cbv zeta.
      destruct (ost_size d0 <? ost_idx d0 + ost_len layout count fl);
        [| constructor].
      constructor; [apply Hgr; reflexivity | constructor]. }
    exists (snd f). split; [reflexivity | exact Hval].
Qed.

Ltac fails H Hne :=
  exfalso; cbn in H; unfold ret in H; simplify_eq H; intros <- _;
  apply Hne; reflexivity.

Lemma fill_pair_valued k v s r s' :
  fill_pair c k v s = Returns r s' ->
  fst r = -1 \/ (fst r = 0 /\ Forall valued (snd r)).
Proof using Type.
  intros H. apply fill_pair_Returns in H.
  destruct H as [[-> _] | [-> _]]; [right | left; reflexivity].
  split; [reflexivity |]. constructor; [| constructor].
  unfold valued. cbn. discriminate.
Qed.

Lemma fill_string_pair_valued k str len s r s' :
  fill_string_pair c k str len s = Returns r s' ->
  fst r = -1 \/ (fst r = 0 /\ Forall valued (snd r)).
Proof using Type.
  unfold fill_string_pair. intros H.
  apply bind_Returns in H. destruct H as ([|] & s1 & _ & H).
  - eapply fill_pair_valued, H.
  - unfold ret in H. simplify_eq H. intros <- _. left. reflexivity.
Qed.

Lemma fill_binary_pair_valued k data len s r s' :
  fill_binary_pair c k data len s = Returns r s' ->
  fst r = -1 \/ (fst r = 0 /\ Forall valued (snd r)).
Proof using Type.
  unfold fill_binary_pair. cbv zeta. intros H.
  apply bind_Returns in H. destruct H as ([|] & s1 & _ & H).
  - eapply fill_pair_valued, H.
  - unfold ret in H. simplify_eq H. intros <- _. left. reflexivity.
Qed.

Lemma fill_sequence_pair_valued k cells s r s' :
  fill_sequence_pair c k cells s = Returns r s' ->
  fst r = -1 \/ (fst r = 0 /\ Forall valued (snd r)).
Proof using Type.
  unfold fill_sequence_pair. intros H.
  apply bind_Returns in H. destruct H as ([|] & s1 & _ & H).
  - eapply fill_pair_valued, H.
  - unfold ret in H. simplify_eq H. intros <- _. left. reflexivity.
Qed.

Lemma xattrs_get_fid_reported fd s r s' :
  xattrs_get_fid c fd s = Returns r s' ->
  fst r <> -1 ->
  fst (llapi_fd2fid c fd) = 0 /\ Forall valued (snd r) /\ fst r = 1.
Proof using Type.
  unfold xattrs_get_fid. intros H Hne.
  apply bind_Returns in H. destruct H as (u & s1 & _ & H). cbv zeta in H.
  destruct (fst (llapi_fd2fid c fd) =? 0) eqn:E; cbn [negb] in H.
  - apply Z.eqb_eq in E. split; [exact E |].
    apply bind_Returns in H. destruct H as (f & s2 & Hf & H).
    apply fill_binary_pair_valued in Hf.
    unfold ret in H. simplify_eq H. intros <- _. cbn [fst snd] in *.
    destruct Hf as [Hm | [Hz Hv]].
    + rewrite Hm in Hne. cbn in Hne. contradiction Hne. reflexivity.
    + rewrite Hz. cbn. auto.
  - apply bind_Returns in H. destruct H as (u' & s2 & _ & H). fails H Hne.
Qed.


Lemma xattrs_get_magic_and_gen_reported fd s r s' :
  xattrs_get_magic_and_gen c fd s = Returns r s' ->
  fst r <> -1 ->
  (exists lov name,
     fgetxattr_lov c fd = Ok lov /\ magic_name (lmm_magic lov) = Some name) /\
  Forall valued (snd r).
Proof using Type.
  unfold xattrs_get_magic_and_gen, fill_uint32_pair. intros H Hne.
  apply bind_Returns in H. destruct H as (u & s1 & _ & H).
  apply bind_Returns in H. destruct H as (x & s2 & Hg & H).
  apply getter_Returns in Hg.
  destruct Hg as [(lov & E & -> & ->) | (e & E & ->)]; [| fails H Hne].
  destruct (magic_name (lmm_magic lov)) as [name |] eqn:En.
  2: { apply bind_Returns in H. destruct H as (u' & s3 & _ & H).
       fails H Hne. }
  split; [exists lov, name; auto |].
  apply bind_Returns in H. destruct H as (f1 & s3 & H1 & H).
  apply fill_string_pair_valued in H1. destruct H1 as [Hm | [Hz V1]];
    [rewrite Hm in H; fails H Hne |].
  rewrite Hz in H. cbn [negb Z.eqb] in H.
  apply bind_Returns in H. destruct H as (f2 & s4 & H2 & H).
  apply fill_pair_valued in H2. destruct H2 as [Hm | [Hz2 V2]];
    [rewrite Hm in H; fails H Hne |].
  rewrite Hz2 in H. cbn [negb Z.eqb] in H.
  unfold ret in H. simplify_eq H. intros <- _. cbn [snd].
  apply Forall_app. auto.
Qed.

Lemma xattrs_get_layout_reported fd s r s' :
  is_symlink s = false ->
  xattrs_get_layout c fd s = Returns r s' ->
  fst r <> -1 ->
  (exists layout,
     llapi_layout_get_by_fd c fd = Ok layout /\
     layout_reported c fd (is_reg s) layout) /\
  Forall valued (snd r).
Proof using Type.
  intros Hs H Hne. unfold xattrs_get_layout, fill_uint32_pair in H.
  apply bind_Returns in H. destruct H as (sa & sb & Hg & H).
  unfold get_state in Hg. simplify_eq Hg. intros <- <-. clear Hg.
  rewrite Hs in H.
  apply bind_Returns in H. destruct H as (u & s2 & Hlog & H).
  assert (R2 : is_reg s2 = is_reg s).
  { unfold log, update_state in Hlog. simplify_eq Hlog. intros _ <-.
    reflexivity. }
  clear Hlog.
  apply bind_Returns in H. destruct H as (l & s3 & Hg & H).
  apply getter_Returns in Hg.
  destruct Hg as [(layout & El & -> & ->) | (e & El & ->)]; [| fails H Hne].
  apply bind_Returns in H. destruct H as (x & s4 & Hg & H).
  apply getter_Returns in Hg.
  destruct Hg as [(fl & Efl & -> & ->) | (e & Efl & ->)]; [| fails H Hne].
  apply bind_Returns in H. destruct H as (f0 & s5 & Hf0 & H).
  pose proof (fill_pair_keeps c _ _ _ _ _ Hf0) as (_ & R5 & _).
  apply fill_pair_valued in Hf0. destruct Hf0 as [Hm | [Hz V0]];
    [rewrite Hm in H; fails H Hne |].
  rewrite Hz in H. cbn [negb Z.eqb] in H.
  apply bind_Returns in H. destruct H as (s6 & s7 & Hg & H).
  unfold get_state in Hg. simplify_eq Hg. intros <- <-. clear Hg.
  rewrite R5, R2 in H.
  apply bind_Returns in H. destruct H as (m & s8 & Hm & H).
  destruct (fst m <? 0) eqn:Elt.
  { exfalso.
    assert (Hm1 : fst m = -1).
    { destruct (is_reg s).
      - apply xattrs_get_magic_and_gen_Returns in Hm. lia.
      - unfold ret in Hm. simplify_eq Hm. intros <- _. discriminate Elt. }
    rewrite Hm1 in H. fails H Hne. }
  assert (Hmagic :
            (is_reg s = true ->
             exists lov name,
               fgetxattr_lov c fd = Ok lov /\
               magic_name (lmm_magic lov) = Some name) /\
            Forall valued (snd m)).
  { destruct (is_reg s).
    - apply xattrs_get_magic_and_gen_reported in Hm.
      + destruct Hm as [Ha Hv]. auto.
      + apply Z.ltb_ge in Elt. lia.
    - unfold ret in Hm. simplify_eq Hm. intros <- _.
      split; [discriminate | constructor]. }
  clear Hm. destruct Hmagic as [Hmagic Vm]. cbv zeta in H.
  unfold layout_reported.
  destruct (llot_is_composite layout) eqn:Ecomp.
  - apply bind_Returns in H. destruct H as (x & s9 & Hg & H).
    apply getter_Returns in Hg.
    destruct Hg as [(mc & Emc & -> & ->) | (e & Emc & ->)];
      [| fails H Hne].
    apply bind_Returns in H. destruct H as (f1 & s10 & Hf1 & H).
    apply fill_pair_valued in Hf1. destruct Hf1 as [Hm | [Hz1 V1]];
      [rewrite Hm in H; fails H Hne |].
    rewrite Hz1 in H. cbn [negb Z.eqb] in H.
    apply bind_Returns in H. destruct H as ([rc nb] & s11 & Hnb & H).
    cbn [fst snd] in H.
    unfold layout_get_nb_comp in Hnb.
    destruct (last (llot_comps layout)) as [comp |] eqn:Hlast.
    2: { apply bind_Returns in Hnb. destruct Hnb as (u' & sx & _ & Hnb).
         unfold ret in Hnb. simplify_eq Hnb. intros <- <- _. fails H Hne. }
    apply bind_Returns in Hnb. destruct Hnb as (x & s12 & Hg & Hnb).
    apply getter_Returns in Hg.
    destruct Hg as [(id & Eid & -> & ->) | (e & Eid & ->)].
    2: { unfold ret in Hnb. simplify_eq Hnb. intros <- <- _. fails H Hne. }
    unfold ret in Hnb. simplify_eq Hnb. intros <- <- <-.
    cbn [negb Z.eqb] in H.
    apply layout_components_reported in H; [| exact Hne].
    rewrite Ecomp in H. destruct H as (Hvis & Hmem & more & -> & Vmore).
    split.
    + change (5 + 3) with 8 in Hmem.
      exists layout. split; [exact El |].
      split; [exists fl; exact Efl |]. split; [exact Hmagic |].
      rewrite Ecomp. split; [exists mc; exact Emc |].
      split; [exists comp, id; auto | exact Hvis].
    + repeat (apply Forall_app; split); assumption.
  - apply layout_components_reported in H; [| exact Hne].
    rewrite Ecomp in H. destruct H as (Hrep & Hmem & more & -> & Vmore).
    split.
    + exists layout. split; [exact El |].
      split; [exists fl; exact Efl |]. split; [exact Hmagic |].
      rewrite Ecomp. auto.
    + repeat (apply Forall_app; split); assumption.
Qed.

Lemma xattrs_get_mdt_info_reported fd s r s' :
  xattrs_get_mdt_info c fd s = Returns r s' ->
  fst r <> -1 ->
  (is_dir s = true ->
   (ioctl_lmv_getstripe c fd = Err ENODATA /\ fst r = 0) \/
   exists lum,
     ioctl_lmv_getstripe c fd = Ok lum /\
     alloc c (lum_stripe_count lum) = true /\ fst r = 3) /\
  (is_dir s = false -> is_symlink s = false ->
   (exists mdt, llapi_file_fget_mdtidx c fd = Ok mdt) /\ fst r = 1) /\
  (is_dir s = false -> is_symlink s = true -> fst r = 0) /\
  Forall valued (snd r).
Proof using Type.
  unfold xattrs_get_mdt_info, fill_uint32_pair, fill_int32_pair.
  intros H Hne.
  apply bind_Returns in H. destruct H as (sa & sb & Hg & H).
  unfold get_state in Hg. simplify_eq Hg. intros <- <-. clear Hg.
  destruct (is_dir s).
  - apply bind_Returns in H. destruct H as (u & s1 & _ & H).
    split; [| split; [discriminate | split; [discriminate |]]].
    + intros _.
      destruct (ioctl_lmv_getstripe c fd) as [lum | e].
      * right. exists lum. split; [reflexivity |].
        destruct (alloc c (lum_stripe_count lum)); cbn [negb] in H.
        2: { apply bind_Returns in H. destruct H as (u' & s2 & _ & H).
             fails H Hne. }
        split; [reflexivity |].
        apply bind_Returns in H. destruct H as (cells & s2 & _ & H).
        apply bind_Returns in H. destruct H as (f1 & s3 & H1 & H).
        apply fill_sequence_pair_valued in H1.
        destruct H1 as [Hm | [Hz1 V1]]; [rewrite Hm in H; fails H Hne |].
        rewrite Hz1 in H. cbn [negb Z.eqb] in H.
        apply bind_Returns in H. destruct H as (f2 & s4 & H2 & H).
        apply fill_pair_valued in H2.
        destruct H2 as [Hm | [Hz2 V2]]; [rewrite Hm in H; fails H Hne |].
        rewrite Hz2 in H. cbn [negb Z.eqb] in H.
        apply bind_Returns in H. destruct H as (f3 & s5 & H3 & H).
        apply fill_pair_valued in H3.
        destruct H3 as [Hm | [Hz3 V3]]; [rewrite Hm in H; fails H Hne |].
        rewrite Hz3 in H. cbn [negb Z.eqb] in H.
        unfold ret in H. simplify_eq H. intros <- _. reflexivity.
      * left. apply bind_Returns in H. destruct H as (u' & s2 & _ & H).
        destruct (e =? ENODATA) eqn:Ee; [| fails H Hne].
        apply Z.eqb_eq in Ee. subst e.
        unfold ret in H. simplify_eq H. intros <- _. auto.
    + destruct (ioctl_lmv_getstripe c fd) as [lum | e].
      * destruct (alloc c (lum_stripe_count lum)); cbn [negb] in H.
        2: { apply bind_Returns in H. destruct H as (u' & s2 & _ & H).
             fails H Hne. }
        apply bind_Returns in H. destruct H as (cells & s2 & _ & H).
        apply bind_Returns in H. destruct H as (f1 & s3 & H1 & H).
        apply fill_sequence_pair_valued in H1.
        destruct H1 as [Hm | [Hz1 V1]]; [rewrite Hm in H; fails H Hne |].
        rewrite Hz1 in H. cbn [negb Z.eqb] in H.
        apply bind_Returns in H. destruct H as (f2 & s4 & H2 & H).
        apply fill_pair_valued in H2.
        destruct H2 as [Hm | [Hz2 V2]]; [rewrite Hm in H; fails H Hne |].
        rewrite Hz2 in H. cbn [negb Z.eqb] in H.
        apply bind_Returns in H. destruct H as (f3 & s5 & H3 & H).
        apply fill_pair_valued in H3.
        destruct H3 as [Hm | [Hz3 V3]]; [rewrite Hm in H; fails H Hne |].
        rewrite Hz3 in H. cbn [negb Z.eqb] in H.
        unfold ret in H. simplify_eq H. intros <- _. cbn [snd].
        repeat (apply Forall_app; split); assumption.
      * apply bind_Returns in H. destruct H as (u' & s2 & _ & H).
        destruct (e =? ENODATA); [| fails H Hne].
        unfold ret in H. simplify_eq H. intros <- _. constructor.
  - destruct (is_symlink s); cbn [negb] in H.
    + unfold ret in H. simplify_eq H. intros <- _.
      split; [discriminate |]. split; [discriminate |].
      split; [reflexivity | constructor].
    + apply bind_Returns in H. destruct H as (u & s1 & _ & H).
      apply bind_Returns in H. destruct H as (x & s2 & Hg & H).
      apply getter_Returns in Hg.
      destruct Hg as [(mdt & Em & -> & ->) | (e & Em & ->)];
        [| fails H Hne].
      apply bind_Returns in H. destruct H as (f & s3 & Hf & H).
      apply fill_pair_valued in Hf.
      destruct Hf as [Hm | [Hz V]]; [rewrite Hm in H; fails H Hne |].
      rewrite Hz in H. cbn [negb Z.eqb] in H.
      unfold ret in H. simplify_eq H. intros <- _.
      split; [discriminate |].
      split; [intros _ _; split; [exists mdt; exact Em | reflexivity] |].
      split; [discriminate | exact V].
Qed.

End Reports.

(** The four functions of a callback that does not give back -1: their
    results make up the result of the callback. *)
Lemma callback_written
    (c : collaborators) (fd mode : Z) (values : list block) (s : state)
    (r : filled) (s' : state) :
  lustre_ns_xattrs_callback c fd mode values s = Returns r s' ->
  fst r <> -1 ->
  exists r1 s2 r2 s3 r3 s4 r4 s5,
    xattrs_get_fid c fd (enter_entry mode values s) = Returns r1 s2 /\
    xattrs_get_hsm c fd s2 = Returns r2 s3 /\
    xattrs_get_layout c fd s3 = Returns r3 s4 /\
    xattrs_get_mdt_info c fd s4 = Returns r4 s5 /\
    (fst r1 <> -1 /\ fst r2 <> -1 /\ fst r3 <> -1 /\ fst r4 <> -1) /\
    r = (fst r1 + fst r2 + fst r3 + fst r4,
         snd r1 ++ snd r2 ++ snd r3 ++ snd r4) /\
    keeps_entry (enter_entry mode values s) s2 /\
    keeps_entry (enter_entry mode values s) s3 /\
    keeps_entry (enter_entry mode values s) s4.
Proof.
  intros H Hne. unfold lustre_ns_xattrs_callback in H.
  apply bind_Returns in H. destruct H as (u & s1 & Hu & H).
  unfold update_state in Hu. simplify_eq Hu. intros _ <-. clear Hu.
  apply bind_Returns in H. destruct H as ([ok x] & s5 & Hloop & H).
  cbn [fst snd] in H.
  assert (Hx : r = x).
  { destruct ok; cbn [negb] in H.
    - apply bind_Returns in H. destruct H as ([] & s6 & _ & H).
      unfold ret in H. simplify_eq H. auto.
    - unfold ret in H. simplify_eq H. auto. }
  subst x. clear H.
  unfold xattrs_funcs in Hloop. cbn [xattrs_funcs_loop] in Hloop.
  apply bind_Returns in Hloop. destruct Hloop as (r1 & s2 & H1 & H).
  destruct (fst r1 =? -1) eqn:E1;
    [unfold ret in H; simplify_eq H; intros _ <- _; contradiction Hne;
     reflexivity |].
  apply bind_Returns in H. destruct H as (r2 & s3 & H2 & H).
  destruct (fst r2 =? -1) eqn:E2;
    [unfold ret in H; simplify_eq H; intros _ <- _; contradiction Hne;
     reflexivity |].
  apply bind_Returns in H. destruct H as (r3 & s4 & H3 & H).
  destruct (fst r3 =? -1) eqn:E3;
    [unfold ret in H; simplify_eq H; intros _ <- _; contradiction Hne;
     reflexivity |].
  apply bind_Returns in H. destruct H as (r4 & s6 & H4 & H).
  destruct (fst r4 =? -1) eqn:E4;
    [unfold ret in H; simplify_eq H; intros _ <- _; contradiction Hne;
     reflexivity |].
  unfold ret in H. simplify_eq H. intros _ <- _.
  apply Z.eqb_neq in E1, E2, E3, E4.
  pose proof (xattrs_get_fid_Returns c fd _ _ _ H1) as [K1 _].
  pose proof (tame_xattrs_get_hsm c fd _ _ _ H2) as K2.
  pose proof (tame_xattrs_get_layout c fd _ _ _ H3) as K3.
  pose proof (keeps_entry_trans _ _ _ K1 K2) as K12.
  pose proof (keeps_entry_trans _ _ _ K12 K3) as K123.
  exists r1, s2, r2, s3, r3, s4, r4, s6.
  split_and!; try assumption.
  apply pair_equal_spec. split; [lia |].
  cbn [app]. rewrite <- !app_assoc. reflexivity.
Qed.



(** C10.  Extraction depends on the type of the entry.  For an entry
    that is not a regular file [xattrs_get_hsm] writes no pair, returns 0
    and does not ask for the HSM state; for a regular file it does ask, and
    writes two pairs unless it fails.  For a symbolic link
    [xattrs_get_layout] writes no pair, returns 0 and does not read the
    layout; for any other entry it reads it first, and writes seven pairs
    or more unless it fails.  So the count the callback gives back follows
    the type: for a symbolic link it is the 1 of [xattrs_get_fid] alone,
    and for another entry it is 1, plus 2 for a regular file, plus what the
    layout gives (7, or 11 when it is composite, and 2 more for a regular
    file), plus 1 for the MDT index of what is not a directory, or, for a
    directory, 3 when LL_IOC_LMV_GETSTRIPE answers and 0 when it does
    not. *)
Theorem extraction_is_mode_gated
    (c : collaborators) (fd mode : Z) (values : list block) (s : state) :
  let s1 := enter_entry mode values s in
  (S_ISREG mode = false -> xattrs_get_hsm c fd s1 = Returns (0, []) s1) /\
  (S_ISLNK mode = true -> xattrs_get_layout c fd s1 = Returns (0, []) s1) /\
  (S_ISLNK mode = true ->
   forall n out s2,
     xattrs_get_fid c fd s1 = Returns (n, out) s2 ->
     n <> -1 ->
     lustre_ns_xattrs_callback c fd mode values s =
       bind (xattrs_get_retention c) (fun _ => ret (n, out)) s2) /\
  (S_ISREG mode = true ->
   forall r s',
     xattrs_get_hsm c fd s1 = Returns r s' ->
     calls s' = calls s1 ++ [HsmStateGet fd] /\
     (fst r <> -1 -> fst r = 2 /\ length (snd r) = 2%nat)) /\
  (S_ISLNK mode = false ->
   forall r s',
     xattrs_get_layout c fd s1 = Returns r s' ->
     (exists rest, calls s' = calls s1 ++ LayoutGetByFd fd :: rest) /\
     (fst r <> -1 -> 7 <= fst r /\ Z.of_nat (length (snd r)) = fst r)) /\
  (forall r s',
     lustre_ns_xattrs_callback c fd mode values s = Returns r s' ->
     fst r <> -1 ->
     if S_ISLNK mode then fst r = 1
     else
       exists layout,
         llapi_layout_get_by_fd c fd = Ok layout /\
         fst r =
           1 + (if S_ISREG mode then 2 else 0)
           + ((if llot_is_composite layout then 11 else 7)
              + (if S_ISREG mode then 2 else 0))
           + (if S_ISDIR mode then
                match ioctl_lmv_getstripe c fd with
                | Ok _ => 3
                | Err _ => 0
                end
              else 1)).
Proof.
  intros s1.
  destruct (ruled_out_by_type c fd mode values s) as (G1 & G2 & G3).
  split; [exact G1 |]. split; [exact G2 |]. split; [exact G3 |].
  split; [| split].
  - intros Hreg r s' H.
    pose proof (xattrs_get_hsm_calls c fd _ _ _ H) as Hc.
    change (is_reg s1) with (S_ISREG mode) in Hc. rewrite Hreg in Hc.
    split; [exact Hc |]. intros Hne.
    pose proof (xattrs_get_hsm_count c fd _ _ _ H) as [Hm | Hn];
      [contradiction |].
    change (is_reg s1) with (S_ISREG mode) in Hn. rewrite Hreg in Hn.
    split; [exact Hn |].
    pose proof (xattrs_get_hsm_Returns c fd _ _ _ H) as [Hm | Hl];
      [contradiction |].
    lia.
  - intros Hlnk r s' H.
    assert (Hs : is_symlink s1 = false) by exact Hlnk.
    destruct (xattrs_get_layout_calls c fd _ _ _ H)
      as (done & Hc & _ & _ & Hfirst).
    destruct (Hfirst Hs) as [rest ->].
    split; [exists rest; exact Hc |]. intros Hne.
    destruct (xattrs_get_layout_reported c fd _ _ _ Hs H Hne)
      as [(layout & Hl & _) _].
    destruct (xattrs_get_layout_count c fd s1 layout r s' Hs Hl H Hne)
      as [Hn Hlen].
    split; [| exact Hlen].
    destruct (llot_is_composite layout), (is_reg s1); lia.
  - intros r s' H Hne.
    destruct (callback_written c fd mode values s r s' H Hne)
      as (r1 & s2 & r2 & s3 & r3 & s4 & r4 & s5 & H1 & H2 & H3 & H4
          & (E1 & E2 & E3 & E4) & -> & K2 & K3 & K4).
    destruct K2 as (D2 & R2 & L2 & _). destruct K3 as (D3 & R3 & L3 & _).
    destruct K4 as (D4 & R4 & L4 & _).
    cbn [is_dir is_reg is_symlink enter_entry] in D2, R2, L2, D3, R3, L3,
      D4, R4, L4.
    destruct (xattrs_get_fid_reported c fd _ _ _ H1 E1) as (_ & _ & C1).
    pose proof (xattrs_get_hsm_count c fd _ _ _ H2) as [Hm | C2];
      [contradiction |].
    rewrite R2 in C2.
    destruct (xattrs_get_mdt_info_reported c fd _ _ _ H4 E4)
      as (A4 & A4' & A4'' & _).
    rewrite D4 in A4, A4', A4''. rewrite L4 in A4', A4''.
    destruct (file_kinds mode) as (Klnk & Kreg & Kdir).
    cbn [fst].
    destruct (S_ISLNK mode) eqn:El.
    + destruct (Klnk eq_refl) as [Er Ed]. rewrite Er in C2.
      rewrite xattrs_get_layout_symlink in H3 by exact L3.
      simplify_eq H3. intros <- _. cbn [fst].
      specialize (A4'' Ed eq_refl). lia.
    + destruct (xattrs_get_layout_reported c fd _ _ _ L3 H3 E3)
        as [(layout & Hl & _) _].
      destruct (xattrs_get_layout_count c fd s3 layout r3 s4 L3 Hl H3 E3)
        as [C3 _].
      rewrite R3 in C3.
      exists layout. split; [exact Hl |].
      destruct (S_ISDIR mode) eqn:Ed.
      * destruct (A4 eq_refl) as [[Hi C4] | (lum & Hi & _ & C4)];
          rewrite Hi; lia.
      * destruct (A4' eq_refl eq_refl) as [_ C4]. lia.
Qed.

(** On the same client a composite regular file gives 17 pairs, a
    directory that is not striped 8, and for a directory the HSM state is
    not asked for. *)
Lemma extraction_is_mode_gated_witness :
  (exists r s',
     lustre_ns_xattrs_callback LustreExamples.client 3 S_IFREG []
       (LustreExamples.s0 []) = Returns r s' /\ fst r = 17) /\
  (exists r s',
     lustre_ns_xattrs_callback LustreExamples.client 4 S_IFDIR []
       (LustreExamples.s0 []) = Returns r s' /\ fst r = 8) /\
  xattrs_get_hsm LustreExamples.client 4
    (enter_entry S_IFDIR [] (LustreExamples.s0 [])) =
  Returns (0, []) (enter_entry S_IFDIR [] (LustreExamples.s0 [])).
Proof.
  split; [| split].
  - destruct (lustre_ns_xattrs_callback LustreExamples.client 3 S_IFREG []
                (LustreExamples.s0 [])) as [r s' | e s'] eqn:Hrun.
    + exists r, s'. split; [reflexivity |].
      assert (Hne : fst r <> -1).
      { pose proof Hrun as Hc. vm_compute in Hc. simplify_eq Hc.
        intros <- _. cbn. discriminate. }
      pose proof (proj2 (proj2 (proj2 (proj2 (proj2
                    (extraction_is_mode_gated LustreExamples.client 3
                       S_IFREG [] (LustreExamples.s0 []))))))
                    r s' Hrun Hne) as Hcount.
      change (S_ISLNK S_IFREG) with false in Hcount.
      change (S_ISREG S_IFREG) with true in Hcount.
      change (S_ISDIR S_IFREG) with false in Hcount.
      cbv iota in Hcount. destruct Hcount as (layout & Hl & ->).
      cbn in Hl. simplify_eq Hl. intros <-. reflexivity.
    + vm_compute in Hrun. discriminate Hrun.
  - destruct (lustre_ns_xattrs_callback LustreExamples.client 4 S_IFDIR []
                (LustreExamples.s0 [])) as [r s' | e s'] eqn:Hrun.
    + exists r, s'. split; [reflexivity |].
      assert (Hne : fst r <> -1).
      { pose proof Hrun as Hc. vm_compute in Hc. simplify_eq Hc.
        intros <- _. cbn. discriminate. }
      pose proof (proj2 (proj2 (proj2 (proj2 (proj2
                    (extraction_is_mode_gated LustreExamples.client 4
                       S_IFDIR [] (LustreExamples.s0 []))))))
                    r s' Hrun Hne) as Hcount.
      change (S_ISLNK S_IFDIR) with false in Hcount.
      change (S_ISREG S_IFDIR) with false in Hcount.
      change (S_ISDIR S_IFDIR) with true in Hcount.
      cbv iota in Hcount. destruct Hcount as (layout & Hl & ->).
      cbn in Hl. simplify_eq Hl. intros <-. reflexivity.
    + vm_compute in Hrun. discriminate Hrun.
  - exact (proj1 (extraction_is_mode_gated LustreExamples.client 4 S_IFDIR []
                    (LustreExamples.s0 [])) eq_refl).
Defined.

End LustreCallback.
